(** * EduMentor backend: a shallow embedding of [backend/server.py]

    The request handlers of the FastAPI application are embedded as pure
    functions over an explicit [world] (the MongoDB collections, the upload
    directory and a log of the calls made to the language model).  What the
    handlers obtain from their environment (the clock, [uuid.uuid4], the
    bcrypt salt, the reply of the language model) is passed in as an
    argument.  A raised Python exception is a value of [exn]. *)

From Stdlib Require Import ZArith List Bool Ascii String Lia Permutation.
From Stdlib Require Floats.SpecFloat Lists.Finite.
Import ListNotations.

Local Open Scope string_scope.
Local Open Scope list_scope.
Local Open Scope Z_scope.

(* ================================================================== *)
(** * Exceptions and results *)

Inductive exn : Type :=
| HTTPException (status_code : Z) (detail : string)
| ZeroDivisionError
| OverflowError
| ValueError
| TypeError.

Inductive result (A : Type) : Type :=
| Ok (a : A)
| Raise (e : exn).

Arguments Ok {A} a.
Arguments Raise {A} e.

Definition bind {A B : Type} (r : result A) (k : A -> result B) : result B :=
  match r with
  | Ok a => k a
  | Raise e => Raise e
  end.

Notation "x <- r ;; k" := (bind r (fun x => k))
  (at level 61, r at next level, right associativity).

(* ================================================================== *)
(** * Python [str] methods

    A [str] is modelled by a [string] whose characters are the code points
    U+0000 to U+00FF. *)

Module PyStr.

Definition in_range (lo hi n : N) : bool := (N.leb lo n && N.leb n hi)%bool.

(** [str.lower] on one code point: A-Z and the Latin-1 capitals
    U+00C0..U+00DE (the multiplication sign U+00D7 apart) move up by 32. *)
Definition is_upper (c : ascii) : bool :=
  let n := N_of_ascii c in
  (in_range 65 90 n || (in_range 192 222 n && negb (N.eqb n 215)))%bool.

Definition lower_char (c : ascii) : ascii :=
  if is_upper c then ascii_of_N (N_of_ascii c + 32) else c.

Fixpoint lower (s : string) : string :=
  match s with
  | EmptyString => EmptyString
  | String c s' => String (lower_char c) (lower s')
  end.

(** [str.isspace] on one code point: TAB..CR, FS..US, SPACE, NEL, NBSP. *)
Definition isspace (c : ascii) : bool :=
  let n := N_of_ascii c in
  (in_range 9 13 n || in_range 28 32 n || N.eqb n 133 || N.eqb n 160)%bool.

Fixpoint lstrip (s : string) : string :=
  match s with
  | EmptyString => EmptyString
  | String c s' => if isspace c then lstrip s' else s
  end.

Fixpoint rstrip (s : string) : string :=
  match s with
  | EmptyString => EmptyString
  | String c s' =>
      match rstrip s' with
      | EmptyString => if isspace c then EmptyString else String c EmptyString
      | r => String c r
      end
  end.

(** [s.strip()] *)
Definition strip (s : string) : string := rstrip (lstrip s).

(** [s.startswith(p)] *)
Fixpoint startswith (s p : string) {struct p} : bool :=
  match p with
  | EmptyString => true
  | String a p' =>
      match s with
      | EmptyString => false
      | String b s' => (Ascii.eqb a b && startswith s' p')%bool
      end
  end.

(** [needle in hay] *)
Fixpoint contains (needle hay : string) : bool :=
  (startswith hay needle ||
   match hay with
   | EmptyString => false
   | String _ hay' => contains needle hay'
   end)%bool.

(** [s.split(sep)] for a separator of one character. *)
Fixpoint split (sep : ascii) (s : string) : list string :=
  match s with
  | EmptyString => [EmptyString]
  | String c s' =>
      if Ascii.eqb c sep then EmptyString :: split sep s'
      else match split sep s' with
           | seg :: rest => String c seg :: rest
           | [] => [String c EmptyString]
           end
  end.

(** [x in xs] for a collection of strings. *)
Definition mem (x : string) (xs : list string) : bool :=
  existsb (String.eqb x) xs.

(** The mathematical notion the grading rule refers to. *)
Definition Substring (needle hay : string) : Prop :=
  exists pre post, hay = (pre ++ needle ++ post)%string.

End PyStr.

(* ================================================================== *)
(** * Python [float] arithmetic, as far as the score uses it

    A binary64 number is a multiple of 2^-1074, so a finite non-negative
    [float] is represented by the integer [n] with value [n * 2^-1074];
    [n] is representable when it is [m * 2^s] with [m <= 2^53], and it is
    finite when [n < 2^2098].  Every operation returns the exact result
    rounded to the nearest representable number, ties to even, which is what
    IEEE 754 prescribes and what [int / int] returns in Python. *)

Module Binary64.

Definition frac_bits : Z := 1074.
Definition one : Z := 2 ^ frac_bits.
Definition huge : Z := 2 ^ 2098.

Inductive float : Type :=
| Finite (n : Z)
| Infinity
| NaN.

(** [a / (d * 2^t)] rounded to the nearest integer, ties to even.  The low
    [t] bits of [a] are split off first, the rest is divided by [d], and
    twice the remainder of [a] is compared with the divisor. *)
Definition rne (a d t : Z) : Z :=
  let hi := Z.shiftr a t in
  let lo := Z.land a (Z.ones t) in
  let q := hi / d in
  let r := hi mod d in
  match 2 * (Z.shiftl r t + lo) ?= Z.shiftl d t with
  | Lt => q
  | Gt => q + 1
  | Eq => if Z.even q then q else q + 1
  end.

(** Number of low bits dropped so that the significand fits 53 bits. *)
Definition shift_of (q : Z) : Z :=
  if q <? 2 ^ 53 then 0 else Z.log2 q - 52.

(** The non-negative rational [a / (d * 2^k)], given in units of 2^-1074,
    rounded to binary64. *)
Definition round (a d k : Z) : float :=
  let s := shift_of (Z.shiftr a k / d) in
  let n := Z.shiftl (rne a d (k + s)) s in
  if n <? huge then Finite n else Infinity.

(** [float(k)] for [k >= 0]. *)
Definition of_int (k : Z) : result float :=
  match round (k * one) 1 0 with
  | Finite n => Ok (Finite n)
  | _ => Raise OverflowError
  end.

(** [a / b] on non-negative [int]s ([long_true_divide]). *)
Definition int_truediv (a b : Z) : result float :=
  if b =? 0 then Raise ZeroDivisionError
  else match round (a * one) b 0 with
       | Finite n => Ok (Finite n)
       | _ => Raise OverflowError
       end.

(** [x * y] on non-negative [float]s: the product of the two integers is in
    units of 2^-2148. *)
Definition mul (x y : float) : float :=
  match x, y with
  | NaN, _ | _, NaN => NaN
  | Finite a, Finite b => round (a * b) 1 frac_bits
  | Finite a, Infinity => if a =? 0 then NaN else Infinity
  | Infinity, Finite b => if b =? 0 then NaN else Infinity
  | Infinity, Infinity => Infinity
  end.

(** [int(x)]: truncation. *)
Definition to_int (x : float) : result Z :=
  match x with
  | Finite n => Ok (Z.shiftr n frac_bits)
  | Infinity => Raise OverflowError
  | NaN => Raise ValueError
  end.

(** [int((a / b) * 100)], the expression of [submit_quiz]. *)
Definition percent (a b : Z) : result Z :=
  q <- int_truediv a b ;;
  hundred <- of_int 100 ;;
  to_int (mul q hundred).

(** The same expression on the Standard Library's executable IEEE 754
    specification, for cross-checking [round] on integers below 2^53, which
    convert to [float] exactly. *)
Module Ref.
Import Floats.SpecFloat.
Definition prec : Z := 53.
Definition emax : Z := 1024.

Definition of_pos (p : positive) : spec_float :=
  SFdiv prec emax (S754_finite false p 0) (S754_finite false 1 0).

Definition of_int (k : Z) : spec_float :=
  match k with
  | Zpos p => of_pos p
  | _ => S754_zero false
  end.

Definition scaled (x : spec_float) : option Z :=
  match x with
  | S754_zero _ => Some 0
  | S754_finite false m e => Some (Zpos m * 2 ^ (e + frac_bits))
  | _ => None
  end.

Definition product (a b : Z) : option Z :=
  scaled (SFmul prec emax (SFdiv prec emax (of_int a) (of_int b)) (of_int 100)).
End Ref.

Definition product (a b : Z) : option Z :=
  match int_truediv a b, of_int 100 with
  | Ok q, Ok h => match mul q h with Finite n => Some n | _ => None end
  | _, _ => None
  end.

Definition grid (ka kb : nat) : list (Z * Z) :=
  list_prod (map Z.of_nat (seq 0 ka)) (map Z.of_nat (seq 1 kb)).

Definition samples : list (Z * Z) :=
  [(29, 50); (23, 10); (57, 100); (58, 100); (1, 3); (2, 3); (7, 1);
   (1, 1000003); (123456789, 1000); (2 ^ 52 + 1, 3); (3, 2 ^ 52 + 1);
   (2 ^ 53 - 1, 2 ^ 53 - 3); (2 ^ 53 - 3, 2 ^ 53 - 1)].

Definition agree (ab : Z * Z) : bool :=
  match product (fst ab) (snd ab), Ref.product (fst ab) (snd ab) with
  | Some x, Some y => x =? y
  | _, _ => false
  end.

End Binary64.


(* ================================================================== *)
(** * The documents of the database *)

(** [pwd_context.hash] keeps the salt next to the digest. *)
Record Hashed : Type := {
  h_salt : string;
  h_digest : string
}.

(** A document of [db.users]: the fields of [User] and [hashed_password]. *)
Record UserDoc : Type := {
  ud_id : string;
  ud_email : string;
  ud_full_name : string;
  ud_created_at : Z;
  ud_hashed_password : Hashed
}.

Record User : Type := {
  user_id : string;
  user_email : string;
  user_full_name : string;
  user_created_at : Z
}.

Record UserCreate : Type := {
  uc_email : string;
  uc_password : string;
  uc_full_name : string
}.

Record UserLogin : Type := {
  ul_email : string;
  ul_password : string
}.

Record StudyMaterial : Type := {
  sm_id : string;
  sm_user_id : string;
  sm_title : string;
  sm_file_type : string;
  sm_extracted_text : string;
  sm_uploaded_at : Z
}.

Record QuizQuestion : Type := {
  qq_id : string;
  qq_question : string;
  qq_options : option (list string);
  qq_answer : string;
  qq_explanation : string;
  qq_question_type : string
}.

Record Quiz : Type := {
  quiz_id : string;
  quiz_material_id : string;
  quiz_user_id : string;
  quiz_title : string;
  quiz_questions : list QuizQuestion;
  quiz_quiz_type : string;
  quiz_time_limit : Z;
  quiz_created_at : Z
}.

Record Flashcard : Type := {
  fc_id : string;
  fc_material_id : string;
  fc_user_id : string;
  fc_question : string;
  fc_answer : string;
  fc_explanation : string;
  fc_created_at : Z
}.

(** One element of [user_answers]: [{"question_id": ..., "answer": ...}]. *)
Record UserAnswer : Type := {
  question_id : string;
  answer : string
}.

Record QuizResponse : Type := {
  qr_quiz_id : string;
  qr_user_answers : list UserAnswer;
  qr_score : option Z;
  qr_completed_at : Z
}.

(** The value [submit_quiz] returns. *)
Record ScoreSummary : Type := {
  score : Z;
  correct_answers : Z;
  total_questions : Z
}.

(* ================================================================== *)
(** * JSON values, bearer tokens and the language model *)

#[warnings="-register-all"]
Inductive json : Type :=
| JNull
| JBool (b : bool)
| JNumber (z : Z)
| JString (s : string)
| JArray (items : list json)
| JObject (fields : list (string * json)).

(** The claims set of a token. *)
Record Claims : Type := {
  sub : option string;
  exp : option Z
}.

(** A bearer token: a signed claims set, or a string that is no JWT. *)
Inductive BearerToken : Type :=
| Jwt (payload : Claims) (signature : string)
| NotJwt (raw : string).

Record Token : Type := {
  access_token : BearerToken;
  token_type : string
}.

Inductive PyJWTError : Type :=
| ExpiredSignatureError
| InvalidSignatureError
| DecodeError.

(** What [chat.send_message] does. *)
Inductive LlmReply : Type :=
| LlmRaises (msg : string)
| LlmText (response : string).

(** What [chat.send_message] followed by the two parsing attempts
    ([json.loads] on the response, then on its outermost brace block)
    yields: an exception with the text [msg] (from the model, or from the
    second [json.loads]), a response without a brace block, or the parsed
    value. *)
Inductive LlmJsonReply : Type :=
| JsonRaises (msg : string)
| JsonUnparsable (response : string)
| JsonParsed (data : json).

(** A call made to the language model. *)
Inductive LlmCall : Type :=
| ExtractCall (file_path mime_type : string)
| QuizCall (content quiz_type question_type : string)
| FlashcardCall (content : string)
| ChatCall (material_id user_id content question : string).

(** An exception raised while the parsed reply of the model is read. *)
Inductive ReadError : Type :=
| KeyError (key : string)
| NotSubscriptable (d : json)
| NotIterable (d : json)
| AttributeError (d : json) (name : string)
| ValidationError (item : json).

(* ================================================================== *)
(** * The world of the server *)

Record world : Type := {
  users : list UserDoc;
  study_materials : list StudyMaterial;
  quizzes : list Quiz;
  flashcards : list Flashcard;
  quiz_responses : list QuizResponse;
  uploads : list (string * string);
  llm_calls : list LlmCall
}.

Definition empty_world : world :=
  {| users := []; study_materials := []; quizzes := []; flashcards := [];
     quiz_responses := []; uploads := []; llm_calls := [] |}.

Definition insert_user (w : world) (d : UserDoc) : world :=
  {| users := users w ++ [d]; study_materials := study_materials w;
     quizzes := quizzes w; flashcards := flashcards w;
     quiz_responses := quiz_responses w; uploads := uploads w;
     llm_calls := llm_calls w |}.

Definition insert_material (w : world) (d : StudyMaterial) : world :=
  {| users := users w; study_materials := study_materials w ++ [d];
     quizzes := quizzes w; flashcards := flashcards w;
     quiz_responses := quiz_responses w; uploads := uploads w;
     llm_calls := llm_calls w |}.

Definition insert_quiz (w : world) (d : Quiz) : world :=
  {| users := users w; study_materials := study_materials w;
     quizzes := quizzes w ++ [d]; flashcards := flashcards w;
     quiz_responses := quiz_responses w; uploads := uploads w;
     llm_calls := llm_calls w |}.

Definition insert_flashcards (w : world) (ds : list Flashcard) : world :=
  {| users := users w; study_materials := study_materials w;
     quizzes := quizzes w; flashcards := flashcards w ++ ds;
     quiz_responses := quiz_responses w; uploads := uploads w;
     llm_calls := llm_calls w |}.

Definition insert_quiz_response (w : world) (d : QuizResponse) : world :=
  {| users := users w; study_materials := study_materials w;
     quizzes := quizzes w; flashcards := flashcards w;
     quiz_responses := quiz_responses w ++ [d]; uploads := uploads w;
     llm_calls := llm_calls w |}.

(** [open(path, "wb")] followed by the copy: the file is created or replaced. *)
Definition write_file (w : world) (path content : string) : world :=
  {| users := users w; study_materials := study_materials w;
     quizzes := quizzes w; flashcards := flashcards w;
     quiz_responses := quiz_responses w;
     uploads := (path, content)
                  :: filter (fun f => negb (String.eqb (fst f) path)) (uploads w);
     llm_calls := llm_calls w |}.

Definition log_llm (w : world) (c : LlmCall) : world :=
  {| users := users w; study_materials := study_materials w;
     quizzes := quizzes w; flashcards := flashcards w;
     quiz_responses := quiz_responses w; uploads := uploads w;
     llm_calls := llm_calls w ++ [c] |}.

(** [collection.find_one(filter)]: the first document that matches. *)
Definition find_one {A : Type} (matches : A -> bool) (collection : list A) : option A :=
  find matches collection.

(** [text[:n]] *)
Definition take (n : Z) (text : string) : string :=
  String.substring 0 (Z.to_nat n) text.

(* ================================================================== *)
(** * The handlers of [server.py] *)

Section Server.

(** The signing key read from the environment, the bcrypt digest of a
    password under a salt, the HS256 tag of a claims set under a key, and
    [str.title]. *)
Variable SECRET_KEY : string.
Variable bcrypt : string -> string -> string.
Variable hs256 : string -> Claims -> string.
Variable str_title : string -> string.

(** [str(e)] for the exceptions whose wording depends on the versions of
    CPython and pydantic in use. *)
Variable message_of : ReadError -> string.

Definition ACCESS_TOKEN_EXPIRE_MINUTES : Z := 30.

(** [timedelta(minutes=m)], in seconds. *)
Definition minutes (m : Z) : Z := 60 * m.

(** [datetime.max], 9999-12-31 23:59:59, in seconds since the epoch. *)
Definition datetime_max : Z := 253402300799.

(** ** Helper functions *)

(** [pwd_context.hash(password)], with the salt drawn for this call. *)
Definition get_password_hash (salt password : string) : Hashed :=
  {| h_salt := salt; h_digest := bcrypt salt password |}.

(** [pwd_context.verify]: hash again under the stored salt and compare. *)
Definition verify_password (plain_password : string) (hashed_password : Hashed) : bool :=
  String.eqb (bcrypt (h_salt hashed_password) plain_password) (h_digest hashed_password).

Definition jwt_encode (payload : Claims) (key : string) : BearerToken :=
  Jwt payload (hs256 key payload).

(** [jwt.decode(token, key, algorithms=["HS256"])] at time [now]. *)
Definition jwt_decode (now : Z) (token : BearerToken) (key : string)
  : Claims + PyJWTError :=
  match token with
  | NotJwt _ => inr DecodeError
  | Jwt payload signature =>
      if String.eqb signature (hs256 key payload) then
        match exp payload with
        | Some e => if e <=? now then inr ExpiredSignatureError else inl payload
        | None => inl payload
        end
      else inr InvalidSignatureError
  end.

(** [now] is the reading of the clock and [expires_delta] the
    [timedelta], both in whole seconds, which is what the [exp] claim
    keeps of them; [datetime_max] is the last second [datetime] can hold:
    the sum the code forms must not pass it. *)
Definition create_access_token (now : Z) (data : Claims) (expires_delta : option Z)
  : BearerToken :=
  let expire :=
    match expires_delta with
    | Some d => if d =? 0 then now + minutes 15 else now + d
    | None => now + minutes 15
    end in
  jwt_encode {| sub := sub data; exp := Some expire |} SECRET_KEY.

Definition credentials_exception : exn :=
  HTTPException 401 "Could not validate credentials".

Definition User_of_doc (d : UserDoc) : User :=
  {| user_id := ud_id d; user_email := ud_email d;
     user_full_name := ud_full_name d; user_created_at := ud_created_at d |}.

Definition get_current_user (w : world) (now : Z) (credentials : BearerToken)
  : result User :=
  match jwt_decode now credentials SECRET_KEY with
  | inr _ => Raise credentials_exception
  | inl payload =>
      match sub payload with
      | None => Raise credentials_exception
      | Some uid =>
          match find_one (fun u => String.eqb (ud_id u) uid) (users w) with
          | None => Raise credentials_exception
          | Some user => Ok (User_of_doc user)
          end
      end
  end.

Definition get_mime_type (file_type : string) : string :=
  let t := PyStr.lower file_type in
  if String.eqb t "pdf" then "application/pdf"
  else if String.eqb t "docx" then
    "application/vnd.openxmlformats-officedocument.wordprocessingml.document"
  else if String.eqb t "pptx" then
    "application/vnd.openxmlformats-officedocument.presentationml.presentation"
  else if String.eqb t "jpg" then "image/jpeg"
  else if String.eqb t "jpeg" then "image/jpeg"
  else if String.eqb t "png" then "image/png"
  else if String.eqb t "txt" then "text/plain"
  else "application/octet-stream".

(** The call is logged; a failure of the model becomes a 500. *)
Definition extract_text_from_file (w : world) (file_path file_type : string)
    (reply : LlmReply) : world * result string :=
  let w1 := log_llm w (ExtractCall file_path (get_mime_type file_type)) in
  match reply with
  | LlmText response => (w1, Ok response)
  | LlmRaises msg =>
      (w1, Raise (HTTPException 500 ("Error extracting text: " ++ msg)))
  end.

(** ** Reading the parsed reply of the model *)

(** [d[key]] on a parsed value; [None] is a [KeyError] or a [TypeError]. *)
Definition getitem (d : json) (key : string) : option json :=
  match d with
  | JObject fields =>
      option_map snd (find (fun kv => String.eqb (fst kv) key) fields)
  | _ => None
  end.

(** [d.get(key)] on a parsed value; the outer [None] is an [AttributeError]. *)
Definition get (d : json) (key : string) : option (option json) :=
  match d with
  | JObject fields =>
      Some (option_map snd (find (fun kv => String.eqb (fst kv) key) fields))
  | _ => None
  end.

Fixpoint chars (s : string) : list json :=
  match s with
  | EmptyString => []
  | String c s' => JString (String c EmptyString) :: chars s'
  end.

(** [for x in d]; [None] when [d] is not iterable. *)
Definition iterate (d : json) : option (list json) :=
  match d with
  | JArray items => Some items
  | JObject fields => Some (map (fun kv => JString (fst kv)) fields)
  | JString s => Some (chars s)
  | _ => None
  end.

(** The exception of [d[key]], for a key that is a string, when [d[key]]
    raises: a [KeyError] on a dictionary, a [TypeError] otherwise. *)
Definition getitem_error (d : json) (key : string) : ReadError :=
  match d with
  | JObject _ => KeyError key
  | _ => NotSubscriptable d
  end.

(** [type(d).__name__] *)
Definition type_name (d : json) : string :=
  match d with
  | JNull => "NoneType"
  | JBool _ => "bool"
  | JNumber _ => "int"
  | JString _ => "str"
  | JArray _ => "list"
  | JObject _ => "dict"
  end.

(** [str(e)].  The keys looked up are plain words, so that the [repr] of a
    key is the key between single quotes. *)
Definition str_exception (e : ReadError) : string :=
  match e with
  | KeyError key => "'" ++ key ++ "'"
  | NotSubscriptable (JArray _) => "list indices must be integers or slices, not str"
  | NotSubscriptable (JString _) => message_of e
  | NotSubscriptable d => "'" ++ type_name d ++ "' object is not subscriptable"
  | NotIterable d => "'" ++ type_name d ++ "' object is not iterable"
  | AttributeError d name =>
      "'" ++ type_name d ++ "' object has no attribute '" ++ name ++ "'"
  | ValidationError _ => message_of e
  end.

(** Validation of a [str] field. *)
Definition as_str (d : json) : option string :=
  match d with
  | JString s => Some s
  | _ => None
  end.

Fixpoint all_str (ds : list json) : option (list string) :=
  match ds with
  | [] => Some []
  | d :: ds' =>
      match as_str d, all_str ds' with
      | Some s, Some ss => Some (s :: ss)
      | _, _ => None
      end
  end.

(** Validation of an [Optional[List[str]]] field. *)
Definition as_options (d : option json) : option (option (list string)) :=
  match d with
  | None | Some JNull => Some None
  | Some (JArray items) => option_map Some (all_str items)
  | Some _ => None
  end.

(** One [QuizQuestion(...)] of the loop, or the exception it raises: the
    arguments are evaluated from left to right, then the fields are
    validated. *)
Definition question_of (question_type uuid : string) (q : json)
  : QuizQuestion + ReadError :=
  match getitem q "question" with
  | None => inr (getitem_error q "question")
  | Some jq =>
      match get q "options" with
      | None => inr (AttributeError q "get")
      | Some jo =>
          match getitem q "answer" with
          | None => inr (getitem_error q "answer")
          | Some ja =>
              match getitem q "explanation" with
              | None => inr (getitem_error q "explanation")
              | Some je =>
                  match as_str jq, as_options jo, as_str ja, as_str je with
                  | Some sq, Some so, Some sa, Some se =>
                      inl {| qq_id := uuid; qq_question := sq; qq_options := so;
                             qq_answer := sa; qq_explanation := se;
                             qq_question_type := question_type |}
                  | _, _, _, _ => inr (ValidationError q)
                  end
              end
          end
      end
  end.

(** The loop over [quiz_data["questions"]]; the [i]-th question takes the
    [i]-th identifier drawn from [uuid4].  The loop stops at the first
    exception. *)
Fixpoint questions_of (question_type : string) (uuid4 : nat -> string) (i : nat)
    (qs : list json) : list QuizQuestion + ReadError :=
  match qs with
  | [] => inl []
  | q :: qs' =>
      match question_of question_type (uuid4 i) q with
      | inr e => inr e
      | inl x =>
          match questions_of question_type uuid4 (S i) qs' with
          | inr e => inr e
          | inl xs => inl (x :: xs)
          end
      end
  end.

Definition quiz_error (msg : string) : exn :=
  HTTPException 500 ("Error generating quiz: " ++ msg).

Definition generate_quiz_with_ai (w : world) (text quiz_type question_type : string)
    (uuid4 : nat -> string) (reply : LlmJsonReply)
  : world * result (list QuizQuestion) :=
  let w1 := log_llm w (QuizCall (take 8000 text) quiz_type question_type) in
  match reply with
  | JsonRaises msg => (w1, Raise (quiz_error msg))
  | JsonUnparsable _ =>
      (w1, Raise (quiz_error "AI response is not in expected JSON format"))
  | JsonParsed quiz_data =>
      match getitem quiz_data "questions" with
      | None =>
          (w1, Raise (quiz_error
                        (str_exception (getitem_error quiz_data "questions"))))
      | Some qs =>
          match iterate qs with
          | None => (w1, Raise (quiz_error (str_exception (NotIterable qs))))
          | Some items =>
              match questions_of question_type uuid4 0 items with
              | inr e => (w1, Raise (quiz_error (str_exception e)))
              | inl questions => (w1, Ok questions)
              end
          end
      end
  end.

(** One dictionary of the list [generate_flashcards_with_ai] returns. *)
Record FlashcardData : Type := {
  fd_question : json;
  fd_answer : json;
  fd_explanation : json
}.

Definition flashcard_data_of (fc : json) : FlashcardData + ReadError :=
  match getitem fc "question" with
  | None => inr (getitem_error fc "question")
  | Some q =>
      match getitem fc "answer" with
      | None => inr (getitem_error fc "answer")
      | Some a =>
          match getitem fc "explanation" with
          | None => inr (getitem_error fc "explanation")
          | Some e =>
              inl {| fd_question := q; fd_answer := a; fd_explanation := e |}
          end
      end
  end.

Fixpoint flashcards_data_of (fcs : list json) : list FlashcardData + ReadError :=
  match fcs with
  | [] => inl []
  | fc :: fcs' =>
      match flashcard_data_of fc with
      | inr e => inr e
      | inl x =>
          match flashcards_data_of fcs' with
          | inr e => inr e
          | inl xs => inl (x :: xs)
          end
      end
  end.

Definition flashcards_error (msg : string) : exn :=
  HTTPException 500 ("Error generating flashcards: " ++ msg).

Definition generate_flashcards_with_ai (w : world) (text : string)
    (reply : LlmJsonReply) : world * result (list FlashcardData) :=
  let w1 := log_llm w (FlashcardCall (take 8000 text)) in
  match reply with
  | JsonRaises msg => (w1, Raise (flashcards_error msg))
  | JsonUnparsable _ =>
      (w1, Raise (flashcards_error "AI response is not in expected JSON format"))
  | JsonParsed flashcard_data =>
      match getitem flashcard_data "flashcards" with
      | None =>
          (w1, Raise (flashcards_error
                        (str_exception (getitem_error flashcard_data "flashcards"))))
      | Some fcs =>
          match iterate fcs with
          | None => (w1, Raise (flashcards_error (str_exception (NotIterable fcs))))
          | Some items =>
              match flashcards_data_of items with
              | inr e => (w1, Raise (flashcards_error (str_exception e)))
              | inl flashcards => (w1, Ok flashcards)
              end
          end
      end
  end.

(** ** Auth routes *)

Definition bearer (t : BearerToken) : Token :=
  {| access_token := t; token_type := "bearer" |}.

(** [uuid4] is the identifier drawn for the new user, [salt] the salt drawn
    by bcrypt, [now] the reading of the clock. *)
Definition register (w : world) (uuid4 salt : string) (now : Z) (user : UserCreate)
  : world * result Token :=
  match find_one (fun u => String.eqb (ud_email u) (uc_email user)) (users w) with
  | Some _ => (w, Raise (HTTPException 400 "Email already registered"))
  | None =>
      let hashed_password := get_password_hash salt (uc_password user) in
      let user_dict :=
        {| ud_id := uuid4; ud_email := uc_email user;
           ud_full_name := uc_full_name user; ud_created_at := now;
           ud_hashed_password := hashed_password |} in
      let w1 := insert_user w user_dict in
      let access_token :=
        create_access_token now {| sub := Some uuid4; exp := None |}
          (Some (minutes ACCESS_TOKEN_EXPIRE_MINUTES)) in
      (w1, Ok (bearer access_token))
  end.

Definition login (w : world) (now : Z) (user_login : UserLogin) : result Token :=
  match find_one (fun u => String.eqb (ud_email u) (ul_email user_login)) (users w) with
  | None => Raise (HTTPException 401 "Incorrect email or password")
  | Some user =>
      if verify_password (ul_password user_login) (ud_hashed_password user) then
        Ok (bearer (create_access_token now
                      {| sub := Some (ud_id user); exp := None |}
                      (Some (minutes ACCESS_TOKEN_EXPIRE_MINUTES))))
      else Raise (HTTPException 401 "Incorrect email or password")
  end.

Definition get_me (current_user : User) : User := current_user.

(** ** Study material routes *)

Definition allowed_extensions : list string :=
  ["pdf"; "docx"; "pptx"; "jpg"; "jpeg"; "png"; "txt"].

(** [file.filename.split(".")[-1].lower()] *)
Definition file_extension_of (filename : string) : string :=
  PyStr.lower (last (PyStr.split "."%char filename) EmptyString).

(** [file_uuid] names the stored file, [material_uuid] the new material. *)
Definition upload_material (w : world) (file_uuid material_uuid : string) (now : Z)
    (reply : LlmReply) (title filename content : string) (current_user : User)
  : world * result (string * string) :=
  let file_extension := file_extension_of filename in
  if negb (PyStr.mem file_extension allowed_extensions) then
    (w, Raise (HTTPException 400 "File type not supported"))
  else
    let file_path := ("uploads/" ++ file_uuid ++ "." ++ file_extension)%string in
    let w1 := write_file w file_path content in
    match extract_text_from_file w1 file_path file_extension reply with
    | (w2, Raise e) => (w2, Raise e)
    | (w2, Ok extracted_text) =>
        let material :=
          {| sm_id := material_uuid; sm_user_id := user_id current_user;
             sm_title := title; sm_file_type := file_extension;
             sm_extracted_text := extracted_text; sm_uploaded_at := now |} in
        (insert_material w2 material,
         Ok ("Material uploaded successfully", sm_id material))
    end.

Definition get_materials (w : world) (current_user : User) : list StudyMaterial :=
  filter (fun m => String.eqb (sm_user_id m) (user_id current_user))
         (study_materials w).

(** The filter [{"id": material_id, "user_id": current_user.id}]. *)
Definition owned_material (material_id : string) (current_user : User)
    (m : StudyMaterial) : bool :=
  (String.eqb (sm_id m) material_id
   && String.eqb (sm_user_id m) (user_id current_user))%bool.

Definition material_not_found : exn := HTTPException 404 "Material not found".

Definition get_material (w : world) (material_id : string) (current_user : User)
  : result StudyMaterial :=
  match find_one (owned_material material_id current_user) (study_materials w) with
  | None => Raise material_not_found
  | Some material => Ok material
  end.

(** ** Quiz routes *)

(** The questions take the identifiers [uuid4 0], [uuid4 1], ... and the quiz
    the next one. *)
Definition generate_quiz (w : world) (uuid4 : nat -> string) (now : Z)
    (reply : LlmJsonReply) (material_id quiz_type question_type : string)
    (current_user : User) : world * result Quiz :=
  match find_one (owned_material material_id current_user) (study_materials w) with
  | None => (w, Raise material_not_found)
  | Some material =>
      match generate_quiz_with_ai w (sm_extracted_text material) quiz_type
              question_type uuid4 reply with
      | (w1, Raise e) => (w1, Raise e)
      | (w1, Ok questions) =>
          let time_limit := if String.eqb question_type "mcq" then 15 else 30 in
          let quiz :=
            {| quiz_id := uuid4 (List.length questions);
               quiz_material_id := material_id;
               quiz_user_id := user_id current_user;
               quiz_title :=
                 (sm_title material ++ " - " ++ str_title quiz_type ++ " Quiz")%string;
               quiz_questions := questions;
               quiz_quiz_type := quiz_type;
               quiz_time_limit := time_limit;
               quiz_created_at := now |} in
          (insert_quiz w1 quiz, Ok quiz)
      end
  end.

(** [next((q for q in quiz["questions"] if q["id"] == question_id), None)] *)
Definition find_question (questions : list QuizQuestion) (qid : string)
  : option QuizQuestion :=
  find (fun q => String.eqb (qq_id q) qid) questions.

(** The test of the loop body. *)
Definition is_correct (questions : list QuizQuestion) (user_answer : UserAnswer) : bool :=
  match find_question questions (question_id user_answer) with
  | None => false
  | Some question =>
      PyStr.contains (PyStr.strip (PyStr.lower (qq_answer question)))
                     (PyStr.strip (PyStr.lower (answer user_answer)))
  end.

(** The loop over [quiz_response.user_answers]. *)
Definition count_correct (questions : list QuizQuestion) (user_answers : list UserAnswer)
  : Z :=
  fold_left (fun correct ua => if is_correct questions ua then correct + 1 else correct)
            user_answers 0.

Definition owned_quiz (qid : string) (current_user : User) (q : Quiz) : bool :=
  (String.eqb (quiz_id q) qid
   && String.eqb (quiz_user_id q) (user_id current_user))%bool.

Definition set_score (r : QuizResponse) (s : Z) : QuizResponse :=
  {| qr_quiz_id := qr_quiz_id r; qr_user_answers := qr_user_answers r;
     qr_score := Some s; qr_completed_at := qr_completed_at r |}.

Definition submit_quiz (w : world) (qid : string) (quiz_response : QuizResponse)
    (current_user : User) : world * result ScoreSummary :=
  match find_one (owned_quiz qid current_user) (quizzes w) with
  | None => (w, Raise (HTTPException 404 "Quiz not found"))
  | Some quiz =>
      let total := Z.of_nat (List.length (quiz_questions quiz)) in
      let correct := count_correct (quiz_questions quiz) (qr_user_answers quiz_response) in
      match Binary64.percent correct total with
      | Raise e => (w, Raise e)
      | Ok s =>
          (insert_quiz_response w (set_score quiz_response s),
           Ok {| score := s; correct_answers := correct; total_questions := total |})
      end
  end.

(** ** Flashcard routes *)

(** One [Flashcard(...)] of the loop; [None] is a validation error. *)
Definition flashcard_of (material_id : string) (current_user : User) (now : Z)
    (uuid : string) (fc_data : FlashcardData) : option Flashcard :=
  match as_str (fd_question fc_data), as_str (fd_answer fc_data),
        as_str (fd_explanation fc_data) with
  | Some q, Some a, Some e =>
      Some {| fc_id := uuid; fc_material_id := material_id;
              fc_user_id := user_id current_user; fc_question := q;
              fc_answer := a; fc_explanation := e; fc_created_at := now |}
  | _, _, _ => None
  end.

Fixpoint flashcards_of (material_id : string) (current_user : User) (now : Z)
    (uuid4 : nat -> string) (i : nat) (data : list FlashcardData)
  : option (list Flashcard) :=
  match data with
  | [] => Some []
  | fc_data :: data' =>
      match flashcard_of material_id current_user now (uuid4 i) fc_data with
      | None => None
      | Some x =>
          match flashcards_of material_id current_user now uuid4 (S i) data' with
          | None => None
          | Some xs => Some (x :: xs)
          end
      end
  end.

(** [db.flashcards.insert_many]: an empty list of documents is refused. *)
Definition insert_many (w : world) (docs : list Flashcard) : result world :=
  match docs with
  | [] => Raise TypeError
  | _ => Ok (insert_flashcards w docs)
  end.

Definition generate_flashcards (w : world) (uuid4 : nat -> string) (now : Z)
    (reply : LlmJsonReply) (material_id : string) (current_user : User)
  : world * result (list Flashcard) :=
  match find_one (owned_material material_id current_user) (study_materials w) with
  | None => (w, Raise material_not_found)
  | Some material =>
      match generate_flashcards_with_ai w (sm_extracted_text material) reply with
      | (w1, Raise e) => (w1, Raise e)
      | (w1, Ok flashcard_data) =>
          match flashcards_of material_id current_user now uuid4 0 flashcard_data with
          | None => (w1, Raise ValueError)
          | Some cards =>
              match insert_many w1 cards with
              | Raise e => (w1, Raise e)
              | Ok w2 => (w2, Ok cards)
              end
          end
      end
  end.

Definition get_flashcards (w : world) (material_id : string) (current_user : User)
  : list Flashcard :=
  filter (fun f => (String.eqb (fc_material_id f) material_id
                    && String.eqb (fc_user_id f) (user_id current_user))%bool)
         (flashcards w).

(** ** Chat route *)

Definition ask_question (w : world) (reply : LlmReply) (material_id question : string)
    (current_user : User) : world * result (string * string) :=
  match find_one (owned_material material_id current_user) (study_materials w) with
  | None => (w, Raise material_not_found)
  | Some material =>
      let w1 := log_llm w (ChatCall material_id (user_id current_user)
                             (take 6000 (sm_extracted_text material)) question) in
      match reply with
      | LlmText response => (w1, Ok (question, response))
      | LlmRaises msg =>
          (w1, Raise (HTTPException 500 ("Error processing question: " ++ msg)))
      end
  end.

End Server.

(* ================================================================== *)
(** * Notions used in the statements *)

(** [q] is the first question of the list whose identifier is [qid]. *)
Definition first_with_id (questions : list QuizQuestion) (qid : string)
    (q : QuizQuestion) : Prop :=
  exists before after,
    questions = before ++ q :: after /\ qq_id q = qid /\
    forall p, In p before -> qq_id p <> qid.

(** The canonical answer, lowered and stripped, occurs in the submitted
    answer, lowered and stripped. *)
Definition answer_matches (q : QuizQuestion) (ua : UserAnswer) : Prop :=
  PyStr.Substring (PyStr.strip (PyStr.lower (qq_answer q)))
                  (PyStr.strip (PyStr.lower (answer ua))).

(** The pair is graded against the first question that has its identifier. *)
Definition graded_correct (questions : list QuizQuestion) (ua : UserAnswer) : Prop :=
  exists q, first_with_id questions (question_id ua) q /\ answer_matches q ua.

(** Some question with the identifier of the pair matches. *)
Definition some_question_matches (questions : list QuizQuestion) (ua : UserAnswer)
  : Prop :=
  exists q, In q questions /\ qq_id q = question_id ua /\ answer_matches q ua.


(** The card was built from the entry of the reply, for this material and
    this user. *)
Definition built_from (material_id : string) (u : User) (c : Flashcard) (entry : json)
  : Prop :=
  getitem entry "question" = Some (JString (fc_question c)) /\
  getitem entry "answer" = Some (JString (fc_answer c)) /\
  getitem entry "explanation" = Some (JString (fc_explanation c)) /\
  fc_material_id c = material_id /\ fc_user_id c = user_id u.


(** The subject of a token issued by the server. *)
Definition subject (t : Token) : option string :=
  match access_token t with
  | Jwt payload _ => sub payload
  | NotJwt _ => None
  end.

(* ================================================================== *)
(** * Concrete worlds used by the examples *)

Module Sample.

Definition alice : User :=
  {| user_id := "u-alice"; user_email := "alice@example.com";
     user_full_name := "Alice"; user_created_at := 0 |}.

Definition bob : User :=
  {| user_id := "u-bob"; user_email := "bob@example.com";
     user_full_name := "Bob"; user_created_at := 5 |}.

Definition short_answer (qid canonical : string) : QuizQuestion :=
  {| qq_id := qid; qq_question := "?"; qq_options := None;
     qq_answer := canonical; qq_explanation := "";
     qq_question_type := "short_answer" |}.

Definition quiz_of (qid : string) (questions : list QuizQuestion) : Quiz :=
  {| quiz_id := qid; quiz_material_id := "m-1"; quiz_user_id := user_id alice;
     quiz_title := "Notes - Practice Quiz"; quiz_questions := questions;
     quiz_quiz_type := "practice"; quiz_time_limit := 30; quiz_created_at := 10 |}.

Definition world_of (quiz : Quiz) : world :=
  insert_quiz empty_world quiz.

Definition response (qid : string) (uas : list UserAnswer) : QuizResponse :=
  {| qr_quiz_id := qid; qr_user_answers := uas; qr_score := None;
     qr_completed_at := 20 |}.

(** Two questions that carry the same identifier. *)
Definition twins : list QuizQuestion :=
  [short_answer "q-1" "alpha"; short_answer "q-1" "beta"].

Definition beta : UserAnswer := {| question_id := "q-1"; answer := " Beta " |}.

(** One question, answered correctly twice. *)
Definition single : list QuizQuestion := [short_answer "q-1" "4"].

Definition four : UserAnswer := {| question_id := "q-1"; answer := "4" |}.

(** The identifier of the [i]-th question of a long quiz. *)
Definition nth_id (i : nat) : string :=
  String (ascii_of_nat (48 + i)) EmptyString.

(** Fifty questions, the first twenty-nine of them answered correctly. *)
Definition fifty : list QuizQuestion :=
  map (fun i => short_answer (nth_id i) "yes") (seq 0 50).

Definition twenty_nine_right : list UserAnswer :=
  map (fun i => {| question_id := nth_id i;
                   answer := if Nat.ltb i 29 then "Yes, indeed" else "no" |})
      (seq 0 50).

(** A quiz without questions. *)
Definition hollow : Quiz := quiz_of "quiz-0" [].

Definition two_of_three : list QuizQuestion :=
  [short_answer "q-1" "Paris"; short_answer "q-2" "Rome"; short_answer "q-3" "Oslo"].

Definition capitals : list UserAnswer :=
  [ {| question_id := "q-1"; answer := "  it is PARIS" |};
    {| question_id := "q-9"; answer := "Rome" |};
    {| question_id := "q-3"; answer := "oslo!" |};
    {| question_id := "q-2"; answer := "Madrid" |} ].

(** Stand-ins for bcrypt and HS256 in the examples. *)
Definition digest (salt password : string) : string :=
  (salt ++ "$" ++ password)%string.

Definition tag (key : string) (payload : Claims) : string :=
  (key ++ ":" ++ match sub payload with Some s => s | None => "" end)%string.

Definition key : string := "secret".

Definition bob_doc : UserDoc :=
  {| ud_id := "u-bob"; ud_email := "bob@example.com"; ud_full_name := "Bob";
     ud_created_at := 5;
     ud_hashed_password := {| h_salt := "s0"; h_digest := digest "s0" "hunter2" |} |}.

Definition bob_only : world := insert_user empty_world bob_doc.

Definition alice_create : UserCreate :=
  {| uc_email := "alice@example.com"; uc_password := "correct horse";
     uc_full_name := "Alice" |}.

Definition alice_login : UserLogin :=
  {| ul_email := "alice@example.com"; ul_password := "correct horse" |}.

(** A token for bob issued at time 0, hence expiring at time 1800. *)
Definition bob_payload : Claims := {| sub := Some "u-bob"; exp := Some 1800 |}.

Definition bob_token : BearerToken := Jwt bob_payload (tag key bob_payload).

Definition notes : StudyMaterial :=
  {| sm_id := "m-1"; sm_user_id := "u-alice"; sm_title := "Notes";
     sm_file_type := "txt"; sm_extracted_text := "Paris is the capital of France.";
     sm_uploaded_at := 7 |}.

Definition with_notes : world := insert_material empty_world notes.

Definition card (q a e : string) : json :=
  JObject [("question", JString q); ("answer", JString a);
           ("explanation", JString e)].

(** A parsed reply that holds one flashcard. *)
Definition one_card : json :=
  JObject [("flashcards", JArray [card "Capital of France?" "Paris" "See the notes."])].

Definition ids (i : nat) : string := nth_id i.

(** A stand-in for the wording of the exceptions that depends on versions. *)
Definition wording (e : ReadError) : string :=
  match e with
  | ValidationError _ => "1 validation error"
  | _ => "string indices must be integers"
  end.

(** [str.title] on one word of lower-case ASCII letters. *)
Definition title (word : string) : string :=
  match word with
  | EmptyString => EmptyString
  | String c rest => String (ascii_of_N (N_of_ascii c - 32)) rest
  end.

(** The canonical answer of the [i]-th generated question: A, B, C, ... *)
Definition letter (i : nat) : string :=
  String (ascii_of_nat (65 + i)) EmptyString.

(** A parsed reply that holds ten multiple choice questions. *)
Definition ten_questions : json :=
  JObject
    [("questions",
      JArray (map (fun i =>
                     JObject [("question", JString "Which one?");
                              ("options", JArray [JString "A"; JString "B"]);
                              ("answer", JString (letter i));
                              ("explanation", JString "See the notes.")])
                  (seq 0 10)))].

(** The first five questions answered with the canonical answer. *)
Definition half_right : list UserAnswer :=
  map (fun i => {| question_id := nth_id i;
                   answer := if Nat.ltb i 5 then letter i else "?" |})
      (seq 0 10).

End Sample.

(* ================================================================== *)
(** * Notions used in the further properties *)

(** [c in s] for a character. *)
Fixpoint occurs (c : ascii) (s : string) : bool :=
  match s with
  | EmptyString => false
  | String c' s' => (Ascii.eqb c' c || occurs c s')%bool
  end.

(** The pair that answers a question with its canonical answer. *)
Definition canonical_answer (q : QuizQuestion) : UserAnswer :=
  {| question_id := qq_id q; answer := qq_answer q |}.

(** The path under which [upload_material] stores a file. *)
Definition stored_path (file_uuid filename : string) : string :=
  ("uploads/" ++ file_uuid ++ "." ++ file_extension_of filename)%string.

(** The calls to the model that carry a text taken from a material. *)
Definition prompt_content (c : LlmCall) : option string :=
  match c with
  | ExtractCall _ _ => None
  | QuizCall content _ _ => Some content
  | FlashcardCall content => Some content
  | ChatCall _ _ content _ => Some content
  end.

(** [part] is [text[:n]] for the extracted text of a material that [u]
    owns in [w]. *)
Definition own_excerpt (w : world) (u : User) (n : Z) (part : string) : Prop :=
  exists m, In m (study_materials w) /\ sm_user_id m = user_id u /\
            part = take n (sm_extracted_text m).

Section Phases.

Variable SECRET_KEY : string.
Variable bcrypt : string -> string -> string.
Variable hs256 : string -> Claims -> string.

(** [register] up to its first [await]: the look-up of the address. *)
Definition register_lookup (w : world) (user : UserCreate) : option UserDoc :=
  find_one (fun u => String.eqb (ud_email u) (uc_email user)) (users w).

(** [register] after a look-up that found nothing, from the hashing of the
    password to the token; [w] is the world at the second [await], the
    insert. *)
Definition register_insert (w : world) (uuid4 salt : string) (now : Z)
    (user : UserCreate) : world * Token :=
  let hashed_password := get_password_hash bcrypt salt (uc_password user) in
  let user_dict :=
    {| ud_id := uuid4; ud_email := uc_email user;
       ud_full_name := uc_full_name user; ud_created_at := now;
       ud_hashed_password := hashed_password |} in
  (insert_user w user_dict,
   bearer (create_access_token SECRET_KEY hs256 now
             {| sub := Some uuid4; exp := None |}
             (Some (minutes ACCESS_TOKEN_EXPIRE_MINUTES)))).

End Phases.

Section Runs.

Variable SECRET_KEY : string.
Variable bcrypt : string -> string -> string.
Variable hs256 : string -> Claims -> string.
Variable str_title : string -> string.
Variable message_of : ReadError -> string.



End Runs.


(** Data of the examples for the further properties. *)
Module Cases.

Definition quiz3 : Quiz := Sample.quiz_of "quiz-3" Sample.two_of_three.

Definition with_quiz3 : world := Sample.world_of quiz3.

(** A parsed reply with an empty array of questions. *)
Definition no_questions : json := JObject [("questions", JArray [])].

(** A parsed reply with an empty array of flashcards. *)
Definition no_cards : json := JObject [("flashcards", JArray [])].

(** A parsed reply that holds one short-answer question. *)
Definition one_question : json :=
  JObject
    [("questions",
      JArray [JObject [("question", JString "Capital of France?");
                       ("answer", JString "Paris");
                       ("explanation", JString "See the notes.")]])].

(** The quiz [generate_quiz] builds from it for alice's notes at time 50. *)
Definition quiz1 : Quiz :=
  {| quiz_id := Sample.ids 1; quiz_material_id := "m-1"; quiz_user_id := "u-alice";
     quiz_title := "Notes - Test Quiz";
     quiz_questions :=
       [ {| qq_id := Sample.ids 0; qq_question := "Capital of France?";
            qq_options := None; qq_answer := "Paris";
            qq_explanation := "See the notes.";
            qq_question_type := "short_answer" |} ];
     quiz_quiz_type := "test"; quiz_time_limit := 30; quiz_created_at := 50 |}.

(** The world after a call to the model for a quiz on alice's notes. *)
Definition quiz_asked : world :=
  log_llm Sample.with_notes
    (QuizCall "Paris is the capital of France." "test" "short_answer").

(** The world after a call to the model for flashcards on alice's notes. *)
Definition cards_asked : world :=
  log_llm Sample.with_notes (FlashcardCall "Paris is the capital of France.").

(** The flashcard [generate_flashcards] builds from [Sample.one_card]. *)
Definition card1 : Flashcard :=
  {| fc_id := Sample.ids 0; fc_material_id := "m-1"; fc_user_id := "u-alice";
     fc_question := "Capital of France?"; fc_answer := "Paris";
     fc_explanation := "See the notes."; fc_created_at := 40 |}.



Definition q9 : UserAnswer := {| question_id := "q-9"; answer := "Rome" |}.

End Cases.


(* ================================================================== *)
(** * Facts about the string operations *)

Module PyStrFacts.
Import PyStr.

Lemma startswith_spec (s p : string) :
  startswith s p = true <-> exists post, s = (p ++ post)%string.
Proof.
  revert s. induction p as [|a p IH]; intros s; simpl.
  - split; [intros _; exists s; reflexivity | intros _; reflexivity].
  - destruct s as [|b s].
    + split; [discriminate | intros [post H]; discriminate].
    + rewrite andb_true_iff, Ascii.eqb_eq, IH. split.
      * intros [-> [post ->]]. now exists post.
      * intros [post H]. injection H as -> ->. split; [reflexivity | now exists post].
Qed.

(** The operator [in] decides the substring relation. *)
Lemma contains_spec (needle hay : string) :
  contains needle hay = true <-> Substring needle hay.
Proof.
  split.
  - induction hay as [|c hay IH]; simpl; rewrite orb_true_iff.
    + intros [H|H]; [|discriminate]. apply startswith_spec in H as [post H].
      exists EmptyString, post. exact H.
    + intros [H|H].
      * apply startswith_spec in H as [post H]. exists EmptyString, post. exact H.
      * destruct (IH H) as (pre & post & E).
        exists (String c pre), post. simpl. now rewrite E.
  - intros (pre & post & E). revert hay E.
    induction pre as [|c pre IH]; intros hay E; simpl in E.
    + assert (H : startswith hay needle = true)
        by (apply startswith_spec; now exists post).
      destruct hay; simpl; rewrite H; reflexivity.
    + subst hay. simpl. rewrite (IH _ eq_refl). apply orb_true_r.
Qed.

Lemma mem_spec (x : string) (xs : list string) :
  mem x xs = true <-> In x xs.
Proof.
  unfold mem. rewrite existsb_exists. split.
  - intros (y & Hy & E). apply String.eqb_eq in E. now subst.
  - intros H. exists x. split; [exact H | apply String.eqb_refl].
Qed.

End PyStrFacts.

(* ================================================================== *)
(** * Facts about the rounding *)

Module Binary64Facts.
Import Binary64.

Lemma one_pos : 0 < one.
Proof. unfold one, frac_bits. apply Z.pow_pos_nonneg; lia. Qed.

(** The pieces [rne] works with: [a = (q * d + r) * 2^t + lo]. *)
Lemma rne_pieces (a d t : Z) :
  0 <= a -> 0 < d -> 0 <= t ->
  let hi := Z.shiftr a t in
  let lo := Z.land a (Z.ones t) in
  a = (hi / d * d + hi mod d) * 2 ^ t + lo /\
  0 <= hi / d /\ 0 <= hi mod d < d /\ 0 <= lo < 2 ^ t.
Proof.
  intros Ha Hd Ht hi lo. subst hi lo.
  rewrite Z.shiftr_div_pow2, Z.land_ones by exact Ht.
  assert (Hp : 0 < 2 ^ t) by (apply Z.pow_pos_nonneg; lia).
  pose proof (Z.div_mod a (2 ^ t) ltac:(lia)) as E1.
  pose proof (Z.mod_pos_bound a (2 ^ t) Hp) as B1.
  assert (H0 : 0 <= a / 2 ^ t) by (apply Z.div_pos; lia).
  pose proof (Z.div_mod (a / 2 ^ t) d ltac:(lia)) as E2.
  pose proof (Z.mod_pos_bound (a / 2 ^ t) d Hd) as B2.
  pose proof (Z.div_pos (a / 2 ^ t) d H0 Hd) as H1.
  repeat split; lia.
Qed.

Lemma rne_nonneg (a d t : Z) : 0 <= a -> 0 < d -> 0 <= t -> 0 <= rne a d t.
Proof.
  intros Ha Hd Ht. destruct (rne_pieces a d t Ha Hd Ht) as (_ & Hq & _).
  unfold rne. destruct (_ ?= _); [|lia|lia].
  destruct (Z.even _); lia.
Qed.

(** Rounding to the nearest integer never crosses an integer. *)
Lemma rne_le (a d t c : Z) :
  0 <= a -> 0 < d -> 0 <= t -> a <= c * (d * 2 ^ t) -> rne a d t <= c.
Proof.
  intros Ha Hd Ht Hle.
  destruct (rne_pieces a d t Ha Hd Ht) as (E & Hq & Hr & Hlo).
  assert (Hp : 0 < 2 ^ t) by (apply Z.pow_pos_nonneg; lia).
  unfold rne. rewrite !Z.shiftl_mul_pow2 by exact Ht.
  set (q := Z.shiftr a t / d) in *. set (r := Z.shiftr a t mod d) in *.
  set (lo := Z.land a (Z.ones t)) in *.
  assert (Hdp : 0 < d * 2 ^ t) by nia.
  assert (Hqc : q <= c).
  { assert (q * (d * 2 ^ t) <= c * (d * 2 ^ t)) by nia.
    apply (Z.mul_le_mono_pos_r _ _ (d * 2 ^ t)); assumption. }
  destruct (Z.compare_spec (2 * (r * 2 ^ t + lo)) (d * 2 ^ t)) as [H|H|H].
  - assert (q < c); [|destruct (Z.even q); lia].
    assert (q * (d * 2 ^ t) < c * (d * 2 ^ t)) by nia.
    apply (Z.mul_lt_mono_pos_r (d * 2 ^ t)); assumption.
  - exact Hqc.
  - assert (q < c); [|lia].
    assert (q * (d * 2 ^ t) < c * (d * 2 ^ t)) by nia.
    apply (Z.mul_lt_mono_pos_r (d * 2 ^ t)); assumption.
Qed.

(** Rounding to binary64 never crosses a representable number: a value
    bounded by [c = mc * 2^sc] rounds to a finite number bounded by [c]. *)
Lemma round_le (a d k c mc sc : Z) :
  0 <= a -> 0 < d -> 0 <= k -> a <= c * (d * 2 ^ k) ->
  c = mc * 2 ^ sc -> 0 <= mc < 2 ^ 53 -> 0 <= sc -> c < huge ->
  exists n, round a d k = Finite n /\ 0 <= n <= c.
Proof.
  intros Ha Hd Hk Hle Hc Hmc Hsc Hfin. unfold round, shift_of.
  assert (Hpk : 0 < 2 ^ k) by (apply Z.pow_pos_nonneg; lia).
  rewrite Z.shiftr_div_pow2 by exact Hk.
  rewrite Z.div_div by lia.
  assert (Hq : 0 <= a / (2 ^ k * d) <= c).
  { split; [apply Z.div_pos; nia | apply Z.div_le_upper_bound; nia]. }
  set (q0 := a / (2 ^ k * d)) in *.
  assert (Hfinish : forall s, 0 <= s -> s <= sc \/ s = 0 ->
            2 ^ s * 2 ^ 52 <= q0 \/ s = 0 ->
            exists n,
              (if Z.shiftl (rne a d (k + s)) s <? huge
               then Finite (Z.shiftl (rne a d (k + s)) s) else Infinity) = Finite n /\
              0 <= n <= c).
  { intros s Hs0 Hs Hbig.
    assert (H2s : 0 < 2 ^ s) by (apply Z.pow_pos_nonneg; lia).
    rewrite Z.shiftl_mul_pow2 by exact Hs0.
    assert (exists c', c = c' * 2 ^ s) as [c' Hc'].
    { destruct Hs as [Hs | ->]; [|exists c; rewrite Z.pow_0_r; lia].
      exists (mc * 2 ^ (sc - s)).
      rewrite <- Z.mul_assoc, <- Z.pow_add_r by lia.
      now replace (sc - s + s) with sc by lia. }
    assert (Hle' : a <= c' * (d * 2 ^ (k + s))).
    { rewrite Z.pow_add_r by lia. rewrite Hc' in Hle. nia. }
    pose proof (rne_le a d (k + s) c' Ha Hd ltac:(lia) Hle').
    pose proof (rne_nonneg a d (k + s) Ha Hd ltac:(lia)).
    exists (rne a d (k + s) * 2 ^ s).
    assert (rne a d (k + s) * 2 ^ s <= c) by nia.
    split; [|nia].
    destruct (Z.ltb_spec (rne a d (k + s) * 2 ^ s) huge); [reflexivity | lia]. }
  destruct (Z.ltb_spec q0 (2 ^ 53)) as [Hsmall|Hbig].
  - rewrite Z.add_0_r. replace (rne a d k) with (rne a d (k + 0)) by (f_equal; lia).
    apply Hfinish; [lia | now right | now right].
  - assert (Hpos : 0 < q0) by lia.
    destruct (Z.log2_spec q0 Hpos) as [HL1 HL2].
    set (L := Z.log2 q0) in *.
    assert (H53 : 53 <= L).
    { unfold L. rewrite <- (Z.log2_pow2 53) by lia. now apply Z.log2_le_mono. }
    assert (Hs : L - 52 <= sc).
    { assert (0 < 2 ^ sc) by (apply Z.pow_pos_nonneg; lia).
      assert (Hlt : 2 ^ L < 2 ^ (53 + sc)) by (rewrite Z.pow_add_r by lia; nia).
      apply Z.pow_lt_mono_r_iff in Hlt; lia. }
    apply Hfinish; [lia | now left | left].
    rewrite <- Z.pow_add_r by lia. now replace (L - 52 + 52) with L by lia.
Qed.

Lemma one_eq : one = 1 * 2 ^ 1074.
Proof. unfold one, frac_bits. lia. Qed.

Lemma pow2_lt_huge (k : Z) : 0 <= k < 2098 -> 2 ^ k < huge.
Proof. intros Hk. unfold huge. apply Z.pow_lt_mono_r; lia. Qed.

Lemma of_int_100 : of_int 100 = Ok (Finite (100 * one)).
Proof. vm_compute. reflexivity. Qed.

(** The quotient and the product of [percent], bounded by a power of two. *)
Lemma percent_bounded (a b e : Z) :
  0 <= a -> 0 < b -> a <= 2 ^ e * b -> 0 <= e <= 1000 ->
  exists q p, int_truediv a b = Ok (Finite q) /\ 0 <= q <= 2 ^ e * one /\
              mul (Finite q) (Finite (100 * one)) = Finite p /\
              0 <= p <= 2 ^ (e + 7) * one.
Proof.
  intros Ha Hb Hab He. pose proof one_pos as H1.
  assert (H2e : 0 < 2 ^ e) by (apply Z.pow_pos_nonneg; lia).
  destruct (round_le (a * one) b 0 (2 ^ e * one) 1 (e + 1074)) as (q & Hq & Hq0 & Hq1).
  - nia.
  - exact Hb.
  - lia.
  - rewrite Z.pow_0_r. nia.
  - rewrite Z.pow_add_r by lia. unfold one, frac_bits. lia.
  - split; [lia | apply Z.pow_pos_nonneg with (a := 2) (b := 53); lia].
  - lia.
  - unfold one, frac_bits. rewrite <- Z.pow_add_r by lia. apply pow2_lt_huge. lia.
  - destruct (round_le (q * (100 * one)) 1 frac_bits (2 ^ (e + 7) * one) 1 (e + 7 + 1074))
      as (p & Hp & Hp0 & Hp1).
    + nia.
    + lia.
    + unfold frac_bits. lia.
    + fold one. rewrite (Z.pow_add_r 2 e 7) by lia. change (2 ^ 7) with 128. nia.
    + rewrite (Z.pow_add_r 2 (e + 7) 1074) by lia. unfold one, frac_bits. lia.
    + split; [lia | apply Z.pow_pos_nonneg with (a := 2) (b := 53); lia].
    + lia.
    + unfold one, frac_bits. rewrite <- Z.pow_add_r by lia. apply pow2_lt_huge. lia.
    + exists q, p. unfold int_truediv, mul.
      destruct (Z.eqb_spec b 0) as [E|_]; [lia|]. rewrite Hq, Hp. repeat split; lia.
Qed.

(** With a non-zero divisor below 2^63 the expression returns an [int]. *)
Lemma percent_defined (a b : Z) :
  0 <= a < 2 ^ 63 -> 0 < b -> exists s, percent a b = Ok s /\ 0 <= s.
Proof.
  intros Ha Hb.
  destruct (percent_bounded a b 63) as (q & p & Hq & _ & Hp & Hp0 & _); try lia.
  unfold percent. rewrite Hq. cbn [bind]. rewrite of_int_100. cbn [bind].
  rewrite Hp. cbn [to_int]. eexists. split; [reflexivity|].
  apply Z.shiftr_nonneg. exact Hp0.
Qed.

(** No more correct answers than questions: the result is at most 100. *)
Lemma percent_le_100 (a b : Z) :
  0 <= a <= b -> 0 < b -> exists s, percent a b = Ok s /\ 0 <= s <= 100.
Proof.
  intros Ha Hb. pose proof one_pos as H1.
  destruct (round_le (a * one) b 0 one 1 1074) as (q & Hq & Hq0 & Hq1).
  - nia.
  - exact Hb.
  - lia.
  - rewrite Z.pow_0_r. nia.
  - exact one_eq.
  - split; [lia | apply Z.pow_pos_nonneg with (a := 2) (b := 53); lia].
  - lia.
  - unfold one, frac_bits. apply pow2_lt_huge. lia.
  - destruct (round_le (q * (100 * one)) 1 frac_bits (100 * one) 25 1076)
      as (p & Hp & Hp0 & Hp1).
    + nia.
    + lia.
    + unfold frac_bits. lia.
    + fold one. nia.
    + unfold one, frac_bits. change 1076 with (1074 + 2).
      rewrite Z.pow_add_r by lia. lia.
    + split; [lia|]. change 25 with (25 * 1). 
      assert (2 ^ 5 <= 2 ^ 53) by (apply Z.pow_le_mono_r; lia).
      change (2 ^ 5) with 32 in *. lia.
    + lia.
    + assert (H128: 100 * one < 2 ^ 7 * one) by (change (2 ^ 7) with 128; lia).
      unfold one, frac_bits in *. rewrite <- Z.pow_add_r in H128 by lia.
      pose proof (pow2_lt_huge (7 + 1074)). lia.
    + unfold percent, int_truediv.
      destruct (Z.eqb_spec b 0) as [E|_]; [lia|]. rewrite Hq. cbn [bind].
      rewrite of_int_100. cbn [bind mul]. rewrite Hp. cbn [to_int].
      rewrite Z.shiftr_div_pow2 by (unfold frac_bits; lia). fold one.
      eexists. split; [reflexivity|]. split.
      * apply Z.div_pos; lia.
      * apply Z.div_le_upper_bound; lia.
Qed.

Lemma percent_zero_division (a : Z) : percent a 0 = Raise ZeroDivisionError.
Proof. reflexivity. Qed.

(** [ZeroDivisionError] is raised by a zero divisor only. *)
Lemma percent_zero_division_iff (a b : Z) :
  percent a b = Raise ZeroDivisionError <-> b = 0.
Proof.
  split; [|intros ->; apply percent_zero_division].
  unfold percent, int_truediv.
  destruct (Z.eqb_spec b 0) as [E|E]; [intros _; exact E|].
  intros H. exfalso.
  destruct (round (a * one) b 0) as [q| |]; cbn [bind] in H.
  - rewrite of_int_100 in H. cbn [bind] in H.
    destruct (mul (Finite q) (Finite (100 * one))); cbn [to_int] in H;
      discriminate H.
  - discriminate H.
  - discriminate H.
Qed.

(** The result of [rne] is within one half of the exact quotient. *)
Lemma rne_error (a d t : Z) :
  0 <= a -> 0 < d -> 0 <= t ->
  2 * a - d * 2 ^ t <= 2 * (rne a d t * (d * 2 ^ t)) <= 2 * a + d * 2 ^ t.
Proof.
  intros Ha Hd Ht.
  destruct (rne_pieces a d t Ha Hd Ht) as (E & Hq & Hr & Hlo).
  assert (Hp : 0 < 2 ^ t) by (apply Z.pow_pos_nonneg; lia).
  unfold rne. rewrite !Z.shiftl_mul_pow2 by exact Ht.
  set (q := Z.shiftr a t / d) in *. set (r := Z.shiftr a t mod d) in *.
  set (lo := Z.land a (Z.ones t)) in *.
  set (P := 2 ^ t) in *.
  assert (HR : r * P + lo < d * P) by nia.
  assert (HR0 : 0 <= r * P + lo) by nia.
  assert (Ea : a = q * (d * P) + (r * P + lo)) by lia.
  destruct (Z.compare_spec (2 * (r * P + lo)) (d * P)) as [H|H|H].
  - destruct (Z.even q); lia.
  - lia.
  - lia.
Qed.

(** In the normal range the result of [round] is within 2^-53 of the exact
    value, relatively. *)
Lemma round_error (a d k n : Z) :
  0 <= a -> 0 < d -> 0 <= k ->
  2 ^ 52 <= a / (2 ^ k * d) ->
  round a d k = Finite n ->
  a * (2 ^ 53 - 1) <= n * (d * 2 ^ k) * 2 ^ 53 <= a * (2 ^ 53 + 1).
Proof.
  intros Ha Hd Hk Hnormal. unfold round, shift_of.
  assert (Hpk : 0 < 2 ^ k) by (apply Z.pow_pos_nonneg; lia).
  rewrite Z.shiftr_div_pow2 by exact Hk.
  rewrite Z.div_div by lia.
  set (q0 := a / (2 ^ k * d)) in *.
  assert (Hq0 : q0 * (2 ^ k * d) <= a).
  { unfold q0. rewrite Z.mul_comm. apply Z.mul_div_le. nia. }
  assert (Hfinish : forall s, 0 <= s -> 2 ^ s * 2 ^ 52 <= q0 ->
            (if Z.shiftl (rne a d (k + s)) s <? huge
             then Finite (Z.shiftl (rne a d (k + s)) s) else Infinity) = Finite n ->
            a * (2 ^ 53 - 1) <= n * (d * 2 ^ k) * 2 ^ 53 <= a * (2 ^ 53 + 1)).
  { intros s Hs0 Hbig.
    assert (H2s : 0 < 2 ^ s) by (apply Z.pow_pos_nonneg; lia).
    rewrite Z.shiftl_mul_pow2 by exact Hs0.
    destruct (_ <? huge); [|intros H; discriminate H]. intros [= <-].
    pose proof (rne_error a d (k + s) Ha Hd ltac:(lia)) as Herr.
    rewrite Z.pow_add_r in Herr by lia.
    set (m := rne a d (k + s)) in *.
    set (D := d * 2 ^ k) in *.
    assert (HD : 0 < D) by (unfold D; nia).
    assert (Hlow : 2 ^ 52 * (D * 2 ^ s) <= a).
    { assert (2 ^ s * 2 ^ 52 * (2 ^ k * d) <= q0 * (2 ^ k * d)).
      { apply Z.mul_le_mono_nonneg_r; [nia | exact Hbig]. }
      unfold D. lia. }
    replace (d * (2 ^ k * 2 ^ s)) with (D * 2 ^ s) in Herr by (unfold D; ring).
    replace (m * 2 ^ s * D) with (m * (D * 2 ^ s)) by ring.
    change (2 ^ 52) with 4503599627370496 in Hlow.
    change (2 ^ 53) with 9007199254740992.
    lia. }
  destruct (Z.ltb_spec q0 (2 ^ 53)) as [Hsmall|Hbig].
  - rewrite Z.add_0_r. replace (rne a d k) with (rne a d (k + 0)) by (f_equal; lia).
    apply Hfinish; [lia | rewrite Z.pow_0_r; lia].
  - assert (Hpos : 0 < q0) by lia.
    destruct (Z.log2_spec q0 Hpos) as [HL1 HL2].
    set (L := Z.log2 q0) in *.
    assert (H53 : 53 <= L).
    { unfold L. rewrite <- (Z.log2_pow2 53) by lia. now apply Z.log2_le_mono. }
    apply Hfinish; [lia|].
    rewrite <- Z.pow_add_r by lia. now replace (L - 52 + 52) with L by lia.
Qed.

Lemma int_truediv_finite (a b q : Z) :
  int_truediv a b = Ok (Finite q) -> b <> 0 /\ round (a * one) b 0 = Finite q.
Proof.
  unfold int_truediv. destruct (Z.eqb_spec b 0) as [E|E]; [intros H; discriminate H|].
  destruct (round (a * one) b 0) as [n| |]; intros H; try discriminate H.
  injection H as ->. now split.
Qed.

(** [percent 0 b] is 0. *)
Lemma percent_zero (b : Z) : 0 < b -> percent 0 b = Ok 0.
Proof.
  intros Hb.
  destruct (round_le (0 * one) b 0 0 0 0) as (q & Hq & Hq0); try lia.
  { unfold huge. apply Z.pow_pos_nonneg; lia. }
  assert (q = 0) as -> by lia.
  destruct (round_le (0 * (100 * one)) 1 frac_bits 0 0 0) as (p & Hp & Hp0);
    try (unfold frac_bits; lia).
  { unfold huge. apply Z.pow_pos_nonneg; lia. }
  assert (p = 0) as -> by lia.
  unfold percent, int_truediv. destruct (Z.eqb_spec b 0) as [E|_]; [lia|].
  rewrite Hq. cbn [bind]. rewrite of_int_100. cbn [bind mul]. rewrite Hp.
  reflexivity.
Qed.

(** How far [percent a b] is from floor(100 * a / b): never above, at most
    one below, and equal to it unless [100 * a / b] is an integer. *)
Lemma percent_accuracy (a b : Z) :
  0 <= a -> 0 < b -> 100 * a < 2 ^ 50 -> b < 2 ^ 50 ->
  exists s, percent a b = Ok s /\
            100 * a / b - 1 <= s <= 100 * a / b /\
            ((100 * a) mod b <> 0 -> s = 100 * a / b).
Proof.
  intros Ha Hb Hua Hub.
  destruct (Z.eq_dec a 0) as [->|Hne].
  { exists 0. rewrite (percent_zero b Hb). rewrite Z.mul_0_r, Z.div_0_l by lia.
    rewrite Z.mod_0_l by lia. repeat split; lia. }
  pose proof one_pos as HU.
  assert (Hone : 2 ^ 155 <= one).
  { unfold one, frac_bits. apply Z.pow_le_mono_r; lia. }
  change (2 ^ 50) with 1125899906842624 in *.
  change (2 ^ 155) with 45671926166590716193865151022383844364247891968 in Hone.
  destruct (percent_bounded a b 50) as (q & p & Hq & _ & Hp & Hp0 & _); try lia.
  destruct (int_truediv_finite a b q Hq) as [_ Hrq].
  unfold mul in Hp.
  (* the quotient *)
  pose proof (round_error (a * one) b 0 q ltac:(nia) Hb ltac:(lia)) as Hx.
  rewrite Z.pow_0_r, Z.mul_1_l, Z.mul_1_r in Hx.
  specialize (Hx ltac:(apply Z.div_le_lower_bound; [lia|];
                       change (2 ^ 52) with 4503599627370496; nia) Hrq).
  change (2 ^ 53) with 9007199254740992 in Hx.
  assert (Hq52 : 2 ^ 52 <= q).
  { change (2 ^ 52) with 4503599627370496.
    destruct (Z.le_gt_cases 4503599627370496 q) as [H|H]; [exact H|].
    exfalso. assert (q * b <= 4503599627370496 * 1125899906842624) by nia. nia. }
  (* the product *)
  pose proof (round_error (q * (100 * one)) 1 frac_bits p ltac:(nia) ltac:(lia)
                ltac:(unfold frac_bits; lia)) as Hy.
  fold one in Hy. rewrite Z.mul_1_r, Z.mul_1_l in Hy.
  assert (Hdiv : q * (100 * one) / one = 100 * q).
  { replace (q * (100 * one)) with (100 * q * one) by ring. apply Z.div_mul. lia. }
  rewrite Hdiv in Hy.
  specialize (Hy ltac:(lia) Hp).
  change (2 ^ 53) with 9007199254740992 in Hy.
  (* the truncation *)
  unfold percent. rewrite Hq. cbn [bind]. rewrite of_int_100. cbn [bind].
  unfold mul. rewrite Hp. cbn [to_int].
  rewrite Z.shiftr_div_pow2 by (unfold frac_bits; lia). fold one.
  exists (p / one). split; [reflexivity|].
  pose proof (Z.div_mod (100 * a) b ltac:(lia)) as E.
  pose proof (Z.mod_pos_bound (100 * a) b Hb) as Hrho.
  set (F := 100 * a / b) in *. set (rho := (100 * a) mod b) in *.
  assert (HF : 0 <= F) by (apply Z.div_pos; lia).
  (* the bounds over the atoms [a * one], [q * b], [p * b], [rho * one] *)
  assert (Hy1 : 100 * q * 9007199254740991 <= p * 9007199254740992
                <= 100 * q * 9007199254740993).
  { clear - Hy HU. split.
    - apply (Z.mul_le_mono_pos_r _ _ one HU). lia.
    - apply (Z.mul_le_mono_pos_r _ _ one HU). lia. }
  assert (Hyb : 100 * (q * b) * 9007199254740991 <= p * b * 9007199254740992
                <= 100 * (q * b) * 9007199254740993).
  { clear - Hy1 Hb. destruct Hy1 as [H1 H2]. split.
    - apply (Z.mul_le_mono_nonneg_r _ _ b) in H1; lia.
    - apply (Z.mul_le_mono_nonneg_r _ _ b) in H2; lia. }
  assert (Hrho1 : rho * one + one <= b * one).
  { clear - Hrho HU. assert (H : (rho + 1) * one <= b * one)
      by (apply Z.mul_le_mono_nonneg_r; lia). lia. }
  assert (Hrho0 : 0 <= rho * one) by (apply Z.mul_nonneg_nonneg; lia).
  assert (HFb : F * b * one = 100 * (a * one) - rho * one).
  { clear - E. replace (F * b) with (100 * a - rho) by lia. ring. }
  assert (Hsmall : 100 * (a * one) < 1125899906842624 * one).
  { clear - Hua HU. rewrite Z.mul_assoc. apply Z.mul_lt_mono_pos_r; lia. }
  assert (Hu : p < one * (F + 1)).
  { apply (Z.mul_lt_mono_pos_r b); [exact Hb|].
    replace (one * (F + 1) * b) with (F * b * one + b * one) by ring.
    clear - Hx Hyb Hrho1 Hrho0 HFb Hsmall HU. lia. }
  assert (Hl : one * (F - 1) <= p).
  { apply (Z.mul_le_mono_pos_r _ _ b); [exact Hb|].
    replace (one * (F - 1) * b) with (F * b * one - b * one) by ring.
    clear - Hx Hyb Hrho1 Hrho0 HFb Hsmall HU. lia. }
  split; [split|].
  - apply Z.div_le_lower_bound; lia.
  - apply Z.lt_succ_r. apply Z.div_lt_upper_bound; lia.
  - intros Hnz.
    assert (Hl' : one * F <= p).
    { apply (Z.mul_le_mono_pos_r _ _ b); [exact Hb|].
      replace (one * F * b) with (F * b * one) by ring.
      assert (Hrho2 : one <= rho * one).
      { clear - Hrho Hnz HU. assert (H : 1 * one <= rho * one)
          by (apply Z.mul_le_mono_nonneg_r; lia). lia. }
      clear - Hx Hyb Hrho2 HFb Hsmall HU. lia. }
    apply Z.le_antisymm.
    + apply Z.lt_succ_r. apply Z.div_lt_upper_bound; lia.
    + apply Z.div_le_lower_bound; lia.
Qed.

End Binary64Facts.

(** On the quotients [a / b] with [a < 12] and [b <= 12] and on the samples,
    [round] computes the product [(a / b) * 100] that [SFdiv] and [SFmul]
    compute at precision 53 and maximal exponent 1024. *)
Example round_agrees_with_SpecFloat :
  forallb Binary64.agree (Binary64.grid 12 12 ++ Binary64.samples) = true.
Proof. vm_compute. reflexivity. Qed.

(** On quizzes of at most twelve questions the expression is
    floor(100 * a / b) for every [a <= b]. *)
Example percent_exact_up_to_12 :
  forallb (fun ab => (snd ab <? fst ab) ||
                     match Binary64.percent (fst ab) (snd ab) with
                     | Ok s => s =? 100 * fst ab / snd ab
                     | Raise _ => false
                     end)%bool
          (Binary64.grid 13 12) = true.
Proof. vm_compute. reflexivity. Qed.

(* ================================================================== *)
(** * Facts about the grading loop *)

Module GradingFacts.

Lemma find_question_first (questions : list QuizQuestion) (qid : string) (q : QuizQuestion) :
  find_question questions qid = Some q <-> first_with_id questions qid q.
Proof.
  unfold find_question, first_with_id. split.
  - induction questions as [|p ps IH]; simpl; [discriminate|].
    destruct (String.eqb_spec (qq_id p) qid) as [E|E].
    + intros [= ->]. exists [], ps. repeat split; [exact E | intros ? []].
    + intros H. destruct (IH H) as (before & after & -> & Hid & Hno).
      exists (p :: before), after. repeat split; [exact Hid|].
      intros x [<-|Hx]; [exact E | now apply Hno].
  - intros (before & after & -> & Hid & Hno).
    induction before as [|p ps IH]; simpl.
    + now rewrite <- Hid, String.eqb_refl.
    + destruct (String.eqb_spec (qq_id p) qid) as [E|E].
      * elim (Hno p); [now left | exact E].
      * apply IH. intros x Hx. apply Hno. now right.
Qed.

Lemma find_question_none (questions : list QuizQuestion) (qid : string) :
  find_question questions qid = None <->
  forall q, In q questions -> qq_id q <> qid.
Proof.
  unfold find_question. split.
  - intros H q Hq E. apply (find_none _ _ H) in Hq.
    rewrite E, String.eqb_refl in Hq. discriminate.
  - intros H. destruct (find _ questions) as [q|] eqn:E; [|reflexivity].
    apply find_some in E as [Hq E]. apply String.eqb_eq in E. now elim (H q).
Qed.

Lemma is_correct_spec (questions : list QuizQuestion) (ua : UserAnswer) :
  is_correct questions ua = true <-> graded_correct questions ua.
Proof.
  unfold is_correct, graded_correct, answer_matches. split.
  - destruct (find_question questions (question_id ua)) as [q|] eqn:E;
      [|discriminate].
    intros H. exists q. split.
    + now apply find_question_first.
    + now apply PyStrFacts.contains_spec.
  - intros (q & Hq & Hm). apply find_question_first in Hq. rewrite Hq.
    now apply PyStrFacts.contains_spec.
Qed.

Lemma is_correct_unmatched (questions : list QuizQuestion) (ua : UserAnswer) :
  (forall q, In q questions -> qq_id q <> question_id ua) ->
  is_correct questions ua = false.
Proof.
  intros H. unfold is_correct.
  now rewrite (proj2 (find_question_none questions (question_id ua)) H).
Qed.

(** With pairwise distinct question identifiers the first match is the
    only one. *)
Lemma graded_correct_distinct_ids (questions : list QuizQuestion) (ua : UserAnswer) :
  NoDup (map qq_id questions) ->
  (graded_correct questions ua <-> some_question_matches questions ua).
Proof.
  intros Hnd. split.
  - intros (q & (before & after & -> & Hid & _) & Hm).
    exists q. repeat split; [apply in_elt | exact Hid | exact Hm].
  - intros (q & Hq & Hid & Hm).
    destruct (find_question questions (question_id ua)) as [p|] eqn:E.
    + pose proof E as E'. apply find_question_first in E'.
      apply find_some in E as [Hp Hpid]. apply String.eqb_eq in Hpid.
      assert (p = q) as ->; [|exists q; now split].
      clear E' Hm. induction questions as [|x xs IH]; [easy|].
      simpl in Hnd. inversion Hnd as [|? ? Hnotin Hnd']; subst.
      destruct Hp as [->|Hp], Hq as [->|Hq]; try reflexivity.
      * elim Hnotin. rewrite Hpid, <- Hid. now apply in_map.
      * elim Hnotin. rewrite Hid, <- Hpid. now apply in_map.
      * now apply IH.
    + pose proof (proj1 (find_question_none _ _) E q Hq) as Hne. now elim Hne.
Qed.

Lemma count_correct_from (questions : list QuizQuestion) (uas : list UserAnswer) (n : Z) :
  fold_left (fun correct ua => if is_correct questions ua then correct + 1 else correct)
            uas n
  = n + Z.of_nat (List.length (filter (is_correct questions) uas)).
Proof.
  revert n. induction uas as [|ua uas IH]; intros n; simpl; [lia|].
  rewrite IH. destruct (is_correct questions ua); simpl List.length; lia.
Qed.

(** The counter of the loop is the number of pairs that pass the test. *)
Lemma count_correct_filter (questions : list QuizQuestion) (uas : list UserAnswer) :
  count_correct questions uas
  = Z.of_nat (List.length (filter (is_correct questions) uas)).
Proof. unfold count_correct. now rewrite count_correct_from. Qed.

Lemma count_correct_bounds (questions : list QuizQuestion) (uas : list UserAnswer) :
  0 <= count_correct questions uas <= Z.of_nat (List.length uas).
Proof.
  rewrite count_correct_filter.
  pose proof (filter_length_le (is_correct questions) uas). lia.
Qed.

(** Dropping pairs keeps the submitted identifiers distinct. *)
Lemma distinct_ids_filter (keep : UserAnswer -> bool) (uas : list UserAnswer) :
  NoDup (map question_id uas) ->
  NoDup (map question_id (filter keep uas)).
Proof.
  intros Hnd. induction uas as [|ua uas IH]; simpl; [constructor|].
  simpl in Hnd. apply NoDup_cons_iff in Hnd as [Hnotin Hrest].
  destruct (keep ua); simpl; [|now apply IH].
  apply NoDup_cons; [|now apply IH].
  intros Hin. apply Hnotin. apply in_map_iff in Hin as (ub & E & Hub).
  apply filter_In in Hub as [Hub _]. rewrite <- E. now apply in_map.
Qed.

(** A submission that names every question at most once has no more
    correct pairs than the quiz has questions. *)
Lemma count_correct_le_questions (questions : list QuizQuestion) (uas : list UserAnswer) :
  NoDup (map question_id uas) ->
  count_correct questions uas <= Z.of_nat (List.length questions).
Proof.
  intros Hnd. rewrite count_correct_filter.
  rewrite <- (length_map question_id), <- (length_map qq_id questions).
  apply inj_le. apply NoDup_incl_length.
  - now apply distinct_ids_filter.
  - intros qid Hin. apply in_map_iff in Hin as (ua & <- & Hua).
    apply filter_In in Hua as [_ Hc]. unfold is_correct in Hc.
    destruct (find_question questions (question_id ua)) as [q|] eqn:E;
      [|discriminate].
    apply find_some in E as [Hq E]. apply String.eqb_eq in E.
    rewrite <- E. now apply in_map.
Qed.


(** [submit_quiz] once the quiz is found. *)
Lemma submit_quiz_found (w : world) (qid : string) (r : QuizResponse) (u : User)
    (quiz : Quiz) :
  find_one (owned_quiz qid u) (quizzes w) = Some quiz ->
  submit_quiz w qid r u
  = match Binary64.percent
            (count_correct (quiz_questions quiz) (qr_user_answers r))
            (Z.of_nat (List.length (quiz_questions quiz))) with
    | Raise e => (w, Raise e)
    | Ok s =>
        (insert_quiz_response w (set_score r s),
         Ok {| score := s;
               correct_answers :=
                 count_correct (quiz_questions quiz) (qr_user_answers r);
               total_questions := Z.of_nat (List.length (quiz_questions quiz)) |})
    end.
Proof. intros H. unfold submit_quiz. now rewrite H. Qed.

(** The questions of a generated quiz carry the identifiers drawn for
    them, in order. *)
Lemma questions_of_ids (question_type : string) (uuid4 : nat -> string)
    (items : list json) :
  forall (i : nat) (questions : list QuizQuestion),
    questions_of question_type uuid4 i items = inl questions ->
    map qq_id questions = map uuid4 (seq i (List.length items)).
Proof.
  induction items as [|item items IH]; intros i questions; simpl.
  - intros [= <-]. reflexivity.
  - destruct (question_of question_type (uuid4 i) item) as [x|] eqn:Hx;
      [|discriminate].
    destruct (questions_of question_type uuid4 (S i) items) as [xs|] eqn:Hxs;
      [|discriminate].
    intros [= <-]. simpl. rewrite (IH (S i) xs Hxs). f_equal.
    unfold question_of in Hx.
    destruct (getitem item "question"); [|discriminate].
    destruct (get item "options"); [|discriminate].
    destruct (getitem item "answer"); [|discriminate].
    destruct (getitem item "explanation"); [|discriminate].
    destruct (as_str _); [|discriminate].
    destruct (as_options _); [|discriminate].
    destruct (as_str _); [|discriminate].
    destruct (as_str _); [|discriminate].
    now injection Hx as <-.
Qed.

(** When [uuid4] never returns the same identifier twice, the questions of
    a generated quiz have pairwise distinct identifiers. *)
Lemma generate_quiz_distinct_ids (str_title : string -> string)
    (message_of : ReadError -> string) (w w' : world)
    (uuid4 : nat -> string) (now : Z) (reply : LlmJsonReply)
    (material_id quiz_type question_type : string) (u : User) (quiz : Quiz) :
  (forall i j, uuid4 i = uuid4 j -> i = j) ->
  generate_quiz str_title message_of w uuid4 now reply material_id quiz_type question_type u
  = (w', Ok quiz) ->
  NoDup (map qq_id (quiz_questions quiz)).
Proof.
  intros Hinj. unfold generate_quiz.
  destruct (find_one _ _) as [material|]; [|intros H; discriminate H].
  unfold generate_quiz_with_ai.
  destruct reply as [msg|response|data]; try (intros H; discriminate H).
  destruct (getitem data "questions") as [j|]; [|intros H; discriminate H].
  destruct (iterate j) as [items|]; [|intros H; discriminate H].
  destruct (questions_of question_type uuid4 0 items) as [questions|] eqn:Hq;
    [|intros H; discriminate H].
  intros [= _ <-]. simpl.
  rewrite (questions_of_ids question_type uuid4 items 0 questions Hq).
  apply Finite.Injective_map_NoDup; [exact Hinj | apply seq_NoDup].
Qed.

(** [generate_quiz], the only writer of the collection, keeps the
    questions of every stored quiz under pairwise distinct identifiers. *)
Lemma generate_quiz_keeps_distinct_ids (str_title : string -> string)
    (message_of : ReadError -> string) (w : world) (uuid4 : nat -> string)
    (now : Z) (reply : LlmJsonReply) (material_id quiz_type question_type : string)
    (u : User) :
  (forall i j, uuid4 i = uuid4 j -> i = j) ->
  Forall (fun q => NoDup (map qq_id (quiz_questions q))) (quizzes w) ->
  Forall (fun q => NoDup (map qq_id (quiz_questions q)))
         (quizzes (fst (generate_quiz str_title message_of w uuid4 now reply
                          material_id quiz_type question_type u))).
Proof.
  intros Hinj Hall.
  destruct (generate_quiz str_title message_of w uuid4 now reply material_id
              quiz_type question_type u) as [w' [quiz|e]] eqn:E.
  - pose proof (generate_quiz_distinct_ids _ _ _ _ _ _ _ _ _ _ _ _ Hinj E) as Hq.
    revert E. unfold generate_quiz.
    destruct (find_one _ _) as [material|]; [|intros H; discriminate H].
    destruct (generate_quiz_with_ai _ _ _ _ _ _ _) as [w1 [questions|x]] eqn:Hai;
      [|intros H; discriminate H].
    intros [= <- Hquiz]. cbn [fst quizzes insert_quiz].
    assert (Hw1 : quizzes w1 = quizzes w).
    { revert Hai. unfold generate_quiz_with_ai.
      destruct reply as [msg|response|data]; try (intros H; discriminate H).
      destruct (getitem data "questions") as [j|]; [|intros H; discriminate H].
      destruct (iterate j) as [items|]; [|intros H; discriminate H].
      destruct (questions_of question_type uuid4 0 items);
        [|intros H; discriminate H].
      now intros [= <- _]. }
    rewrite Hw1. apply Forall_app. split; [exact Hall|].
    constructor; [|constructor]. now rewrite Hquiz.
  - revert E. unfold generate_quiz.
    destruct (find_one _ _) as [material|]; [|now intros [= <- _]].
    unfold generate_quiz_with_ai.
    destruct reply as [msg|response|data]; try (now intros [= <- _]).
    destruct (getitem data "questions") as [j|]; [|now intros [= <- _]].
    destruct (iterate j) as [items|]; [|now intros [= <- _]].
    destruct (questions_of question_type uuid4 0 items);
      [intros H; discriminate H | now intros [= <- _]].
Qed.

End GradingFacts.


(* ================================================================== *)
(** * Theorems about [submit_quiz] *)



(** The distinctness of the identifiers matters.  In a list of questions
    that holds two questions under one identifier, of which only the second
    has the canonical answer "beta", some question with the identifier of
    the pair that answers "beta" matches, yet the loop, which looks at the
    first question with the identifier only, counts no correct answer.
    [generate_quiz] stores no such quiz. *)
Lemma grading_rule_any_match_fails :
  let w := Sample.world_of (Sample.quiz_of "quiz-1" Sample.twins) in
  let r := Sample.response "quiz-1" [Sample.beta] in
  some_question_matches Sample.twins Sample.beta /\
  is_correct Sample.twins Sample.beta = false /\
  submit_quiz w "quiz-1" r Sample.alice
  = (insert_quiz_response w (set_score r 0),
     Ok {| score := 0; correct_answers := 0; total_questions := 2 |}).
Proof.
  intros w r. split; [|split].
  - exists (Sample.short_answer "q-1" "beta"). repeat split.
    + right. left. reflexivity.
    + apply PyStrFacts.contains_spec. reflexivity.
  - reflexivity.
  - vm_compute. reflexivity.
Qed.

(** C2.  On a quiz of fifty questions of which twenty-nine are answered
    correctly, [submit_quiz] returns and stores the score 57, whereas
    floor(100 * 29 / 50) is 58: [29 / 50] rounds to a [float] just below
    0.58 and the product with 100 to one just below 58. *)
Theorem submit_quiz_score_29_of_50 :
  let w := Sample.world_of (Sample.quiz_of "quiz-50" Sample.fifty) in
  let r := Sample.response "quiz-50" Sample.twenty_nine_right in
  submit_quiz w "quiz-50" r Sample.alice
  = (insert_quiz_response w (set_score r 57),
     Ok {| score := 57; correct_answers := 29; total_questions := 50 |})
  /\ 100 * 29 / 50 = 58.
Proof. vm_compute. split; reflexivity. Qed.

(** X19.  The score is never above floor(100 * K / N) and at most one
    below it, and it is floor(100 * K / N) whenever 100 * K / N is not an
    integer (for quizzes and submissions of fewer than 2^43 entries). *)
Lemma submit_quiz_score_near_floor (w : world) (qid : string) (r : QuizResponse)
    (u : User) (quiz : Quiz) :
  find_one (owned_quiz qid u) (quizzes w) = Some quiz ->
  quiz_questions quiz <> [] ->
  Z.of_nat (List.length (quiz_questions quiz)) < 2 ^ 43 ->
  Z.of_nat (List.length (qr_user_answers r)) < 2 ^ 43 ->
  exists summary,
    snd (submit_quiz w qid r u) = Ok summary /\
    100 * correct_answers summary / total_questions summary - 1
      <= score summary
      <= 100 * correct_answers summary / total_questions summary /\
    ((100 * correct_answers summary) mod total_questions summary <> 0 ->
     score summary = 100 * correct_answers summary / total_questions summary).
Proof.
  intros Hfind Hne Hn Hk.
  rewrite (GradingFacts.submit_quiz_found w qid r u quiz Hfind).
  pose proof (GradingFacts.count_correct_bounds (quiz_questions quiz)
                (qr_user_answers r)) as [H0 H1].
  assert (Hpos : 0 < Z.of_nat (List.length (quiz_questions quiz))).
  { destruct (quiz_questions quiz); [now elim Hne | simpl List.length; lia]. }
  change (2 ^ 43) with 8796093022208 in *.
  destruct (Binary64Facts.percent_accuracy
              (count_correct (quiz_questions quiz) (qr_user_answers r))
              (Z.of_nat (List.length (quiz_questions quiz))))
    as (s & Hs & Hrange & Hexact).
  - exact H0.
  - exact Hpos.
  - change (2 ^ 50) with 1125899906842624. lia.
  - change (2 ^ 50) with 1125899906842624. lia.
  - rewrite Hs.
    eexists {| score := s; correct_answers := _; total_questions := _ |}.
    split; [reflexivity|]. split; [exact Hrange | exact Hexact].
Qed.

(** C3 (as amended).  For every quiz with at least one question and every
    submission that names no question identifier twice, [submit_quiz]
    returns, the score it returns is the one it stores in the response, and
    this score lies between 0 and 100. *)
Theorem submit_quiz_score_range (w : world) (qid : string) (r : QuizResponse)
    (u : User) (quiz : Quiz) :
  find_one (owned_quiz qid u) (quizzes w) = Some quiz ->
  quiz_questions quiz <> [] ->
  NoDup (map question_id (qr_user_answers r)) ->
  exists summary,
    submit_quiz w qid r u
    = (insert_quiz_response w (set_score r (score summary)), Ok summary) /\
    0 <= score summary <= 100.
Proof.
  intros Hfind Hne Hnd.
  rewrite (GradingFacts.submit_quiz_found w qid r u quiz Hfind).
  pose proof (GradingFacts.count_correct_bounds (quiz_questions quiz)
                (qr_user_answers r)) as [H0 _].
  pose proof (GradingFacts.count_correct_le_questions (quiz_questions quiz)
                (qr_user_answers r) Hnd) as Hle.
  assert (Hn : 0 < Z.of_nat (List.length (quiz_questions quiz))).
  { destruct (quiz_questions quiz); [now elim Hne | simpl List.length; lia]. }
  destruct (Binary64Facts.percent_le_100 _ _ (conj H0 Hle) Hn) as (s & Hs & Hrange).
  rewrite Hs.
  eexists {| score := s; correct_answers := _; total_questions := _ |}.
  split; [reflexivity | exact Hrange].
Qed.

Lemma submit_quiz_score_range_witness :
  let w := Sample.world_of (Sample.quiz_of "quiz-1" Sample.two_of_three) in
  let r := Sample.response "quiz-1" Sample.capitals in
  exists summary,
    submit_quiz w "quiz-1" r Sample.alice
    = (insert_quiz_response w (set_score r (score summary)), Ok summary) /\
    0 <= score summary <= 100.
Proof.
  intros w r.
  apply (submit_quiz_score_range w "quiz-1" r Sample.alice
           (Sample.quiz_of "quiz-1" Sample.two_of_three)).
  - reflexivity.
  - discriminate.
  - simpl. repeat constructor; simpl; intuition discriminate.
Defined.

(** C3, counterexample.  A quiz of one question answered correctly in two
    pairs of the same submission is scored 200. *)
Lemma submit_quiz_score_200 :
  let w := Sample.world_of (Sample.quiz_of "quiz-1" Sample.single) in
  let r := Sample.response "quiz-1" [Sample.four; Sample.four] in
  exists summary,
    submit_quiz w "quiz-1" r Sample.alice
    = (insert_quiz_response w (set_score r (score summary)), Ok summary) /\
    score summary = 200 /\ ~ (0 <= score summary <= 100).
Proof.
  intros w r.
  exists {| score := 200; correct_answers := 2; total_questions := 1 |}.
  split; [vm_compute; reflexivity|]. simpl. lia.
Qed.

(** C10.  Once the quiz is found, a submission of fewer than 2^63 pairs
    makes [submit_quiz] return a score whenever the quiz has a question;
    on a quiz without questions the division raises [ZeroDivisionError] and
    nothing is stored; and the call raises only in that case. *)
Theorem submit_quiz_zero_division (w : world) (qid : string) (r : QuizResponse)
    (u : User) (quiz : Quiz) :
  find_one (owned_quiz qid u) (quizzes w) = Some quiz ->
  Z.of_nat (List.length (qr_user_answers r)) < 2 ^ 63 ->
  (quiz_questions quiz <> [] ->
     exists summary, snd (submit_quiz w qid r u) = Ok summary) /\
  (quiz_questions quiz = [] ->
     submit_quiz w qid r u = (w, Raise ZeroDivisionError)) /\
  (forall e, snd (submit_quiz w qid r u) = Raise e ->
     e = ZeroDivisionError /\ quiz_questions quiz = []).
Proof.
  intros Hfind Hlen.
  rewrite (GradingFacts.submit_quiz_found w qid r u quiz Hfind).
  pose proof (GradingFacts.count_correct_bounds (quiz_questions quiz)
                (qr_user_answers r)) as [H0 H1].
  assert (Hdef : quiz_questions quiz <> [] ->
                 exists s, Binary64.percent
                             (count_correct (quiz_questions quiz) (qr_user_answers r))
                             (Z.of_nat (List.length (quiz_questions quiz))) = Ok s).
  { intros Hne.
    destruct (Binary64Facts.percent_defined
                (count_correct (quiz_questions quiz) (qr_user_answers r))
                (Z.of_nat (List.length (quiz_questions quiz)))) as (s & Hs & _).
    - lia.
    - destruct (quiz_questions quiz); [now elim Hne | simpl List.length; lia].
    - now exists s. }
  split; [|split].
  - intros Hne. destruct (Hdef Hne) as [s ->]. eexists. reflexivity.
  - intros ->. reflexivity.
  - intros e. destruct (quiz_questions quiz) as [|q qs] eqn:Hq.
    + intros [= <-]. now split.
    + destruct Hdef as [s Hs]; [discriminate|]. rewrite Hs. discriminate.
Qed.

Lemma submit_quiz_zero_division_witness :
  let w := Sample.world_of Sample.hollow in
  let r := Sample.response "quiz-0" [Sample.four] in
  submit_quiz w "quiz-0" r Sample.alice = (w, Raise ZeroDivisionError).
Proof.
  intros w r.
  apply (submit_quiz_zero_division w "quiz-0" r Sample.alice Sample.hollow).
  - reflexivity.
  - vm_compute. reflexivity.
  - reflexivity.
Defined.

(* ================================================================== *)
(** * Ownership of materials *)

Module OwnershipFacts.

(** In a collection keyed by [id], an identifier names one document. *)
Lemma keyed_owner (materials : list StudyMaterial) (m m' : StudyMaterial) :
  NoDup (map sm_id materials) ->
  In m materials -> In m' materials -> sm_id m' = sm_id m -> m' = m.
Proof.
  induction materials as [|x xs IH]; simpl; [easy|].
  intros Hnd Hm Hm' E. inversion Hnd as [|? ? Hnotin Hnd']; subst.
  destruct Hm as [->|Hm], Hm' as [->|Hm']; try reflexivity.
  - elim Hnotin. rewrite <- E. now apply in_map.
  - elim Hnotin. rewrite E. now apply in_map.
  - now apply IH.
Qed.

(** The lookup fails when every material under the identifier belongs to
    somebody else. *)
Lemma foreign_material_not_found (w : world) (material_id : string) (u : User) :
  (forall m, In m (study_materials w) -> sm_id m = material_id ->
             sm_user_id m <> user_id u) ->
  find_one (owned_material material_id u) (study_materials w) = None.
Proof.
  intros H. unfold find_one.
  destruct (find _ (study_materials w)) as [m|] eqn:E; [|reflexivity].
  apply find_some in E as [Hm E]. unfold owned_material in E.
  apply andb_true_iff in E as [E1 E2].
  apply String.eqb_eq in E1, E2. now elim (H m Hm E1).
Qed.

Lemma found_material_is_owned (w : world) (material_id : string) (u : User)
    (m : StudyMaterial) :
  find_one (owned_material material_id u) (study_materials w) = Some m ->
  In m (study_materials w) /\ sm_id m = material_id /\ sm_user_id m = user_id u.
Proof.
  intros E. apply find_some in E as [Hm E]. unfold owned_material in E.
  apply andb_true_iff in E as [E1 E2]. apply String.eqb_eq in E1, E2. easy.
Qed.

(** The only writer of the collection keeps it keyed by [id] as long as the
    identifier drawn for the new material is not in use. *)
Lemma upload_material_keeps_keys (w : world) (file_uuid material_uuid : string)
    (now : Z) (reply : LlmReply) (title filename content : string) (u : User) :
  NoDup (map sm_id (study_materials w)) ->
  ~ In material_uuid (map sm_id (study_materials w)) ->
  NoDup (map sm_id (study_materials
                      (fst (upload_material w file_uuid material_uuid now reply
                              title filename content u)))).
Proof.
  intros Hkey Hfresh. unfold upload_material.
  destruct (negb _); [exact Hkey|].
  destruct reply as [msg|response]; simpl; [exact Hkey|].
  rewrite map_app. simpl. clear - Hkey Hfresh.
  induction (map sm_id (study_materials w)) as [|x xs IH]; simpl.
  - constructor; [intros [] | constructor].
  - apply NoDup_cons_iff in Hkey as [Hx Hxs]. apply NoDup_cons.
    + intros Hin. apply in_app_or in Hin as [Hin|[<-|[]]].
      * now apply Hx.
      * apply Hfresh. now left.
    + apply IH; [exact Hxs|]. intros Hin. apply Hfresh. now right.
Qed.

End OwnershipFacts.

Section Isolation.

Variable str_title : string -> string.
Variable message_of : ReadError -> string.

(** C4.  In a store keyed by material identifier, let a material belong to
    a user [a] and let [b] be another user.  Every operation of [b] on the
    identifier of that material (get material, quiz generate, flashcard
    generate, chat ask) raises 404 "Material not found" and leaves the world
    as it was, so that neither a call to the model is made nor a document
    written.  Moreover a material, quiz or flashcard that a read hands out
    carries the identifier the read was addressed to and belongs to the
    authenticated user. *)
Theorem ownership_isolation (w : world) (a b : User) (m : StudyMaterial) :
  NoDup (map sm_id (study_materials w)) ->
  In m (study_materials w) ->
  sm_user_id m = user_id a ->
  user_id a <> user_id b ->
  (get_material w (sm_id m) b = Raise (HTTPException 404 "Material not found") /\
   (forall uuid4 now reply quiz_type question_type,
      generate_quiz str_title message_of w uuid4 now reply (sm_id m) quiz_type question_type b
      = (w, Raise (HTTPException 404 "Material not found"))) /\
   (forall uuid4 now reply,
      generate_flashcards message_of w uuid4 now reply (sm_id m) b
      = (w, Raise (HTTPException 404 "Material not found"))) /\
   (forall reply question,
      ask_question w reply (sm_id m) question b
      = (w, Raise (HTTPException 404 "Material not found")))) /\
  ((forall material_id u m',
      get_material w material_id u = Ok m' ->
      In m' (study_materials w) /\ sm_id m' = material_id /\
      sm_user_id m' = user_id u) /\
   (forall u m', In m' (get_materials w u) ->
      In m' (study_materials w) /\ sm_user_id m' = user_id u) /\
   (forall qid u q,
      find_one (owned_quiz qid u) (quizzes w) = Some q ->
      In q (quizzes w) /\ quiz_id q = qid /\ quiz_user_id q = user_id u) /\
   (forall material_id u f, In f (get_flashcards w material_id u) ->
      In f (flashcards w) /\ fc_material_id f = material_id /\
      fc_user_id f = user_id u)).
Proof.
  intros Hkey Hm Howner Hab.
  assert (Hnone : find_one (owned_material (sm_id m) b) (study_materials w) = None).
  { apply OwnershipFacts.foreign_material_not_found. intros m' Hm' E.
    rewrite (OwnershipFacts.keyed_owner _ m m' Hkey Hm Hm' E). congruence. }
  split.
  - repeat split; intros; unfold get_material, generate_quiz, generate_flashcards,
      ask_question; rewrite Hnone; reflexivity.
  - clear Hnone. repeat apply conj.
    + intros material_id u m'. unfold get_material.
      destruct (find_one _ _) as [x|] eqn:E; [|intros H; discriminate H].
      intros [= <-]. now apply OwnershipFacts.found_material_is_owned.
    + intros u m' H. apply filter_In in H as [H E].
      apply String.eqb_eq in E. easy.
    + intros qid u q E. apply find_some in E as [Hq E]. unfold owned_quiz in E.
      apply andb_true_iff in E as [E1 E2]. apply String.eqb_eq in E1, E2. easy.
    + intros material_id u f H. apply filter_In in H as [H E].
      apply andb_true_iff in E as [E1 E2]. apply String.eqb_eq in E1, E2. easy.
Qed.

End Isolation.

Lemma ownership_isolation_witness :
  get_material Sample.with_notes "m-1" Sample.bob
  = Raise (HTTPException 404 "Material not found") /\
  ask_question Sample.with_notes (LlmText "an answer") "m-1" "What is it?" Sample.bob
  = (Sample.with_notes, Raise (HTTPException 404 "Material not found")) /\
  get_material Sample.with_notes "m-1" Sample.alice = Ok Sample.notes.
Proof.
  destruct (ownership_isolation Sample.title Sample.wording Sample.with_notes Sample.alice
              Sample.bob Sample.notes) as [(H1 & _ & _ & H4) _].
  - simpl. repeat constructor. intros [].
  - simpl. now left.
  - reflexivity.
  - discriminate.
  - split; [exact H1|]. split; [apply H4 | reflexivity].
Defined.

(* ================================================================== *)
(** * Registration, login and authentication *)

Module AuthFacts.

Lemma find_one_app_fresh {A : Type} (p : A -> bool) (l : list A) (d : A) :
  p d = true -> (forall x, In x l -> p x = false) ->
  find_one p (l ++ [d]) = Some d.
Proof.
  intros Hd Hl. unfold find_one. induction l as [|y l IH]; simpl.
  - now rewrite Hd.
  - rewrite (Hl y) by now left. apply IH. intros x Hx. apply Hl. now right.
Qed.

Lemma find_one_none {A : Type} (p : A -> bool) (l : list A) :
  (forall x, In x l -> p x = false) -> find_one p l = None.
Proof.
  intros H. unfold find_one. destruct (find p l) as [x|] eqn:E; [|reflexivity].
  apply find_some in E as [Hx E]. rewrite (H x Hx) in E. discriminate E.
Qed.

End AuthFacts.

Section Auth.

Variable SECRET_KEY : string.
Variable bcrypt : string -> string -> string.
Variable hs256 : string -> Claims -> string.

(** A token issued at [now] for [uid] authenticates until it expires. *)
Lemma issued_token_authenticates (w : world) (uid : string) (issued now : Z) :
  (exists d, In d (users w) /\ ud_id d = uid) ->
  now < issued + 1800 ->
  exists user,
    get_current_user SECRET_KEY hs256 w now
      (create_access_token SECRET_KEY hs256 issued
         {| sub := Some uid; exp := None |}
         (Some (minutes ACCESS_TOKEN_EXPIRE_MINUTES)))
    = Ok user /\ user_id user = uid.
Proof.
  intros (d & Hd & Hid) Hnow.
  unfold get_current_user, create_access_token, jwt_encode, jwt_decode.
  change (minutes ACCESS_TOKEN_EXPIRE_MINUTES) with 1800. simpl.
  rewrite String.eqb_refl.
  destruct (Z.leb_spec (issued + 1800) now) as [H|_]; [lia|]. simpl.
  destruct (find_one (fun u => String.eqb (ud_id u) uid) (users w)) as [x|] eqn:E.
  - exists (User_of_doc x). split; [reflexivity|].
    apply find_some in E as [_ E]. now apply String.eqb_eq in E.
  - apply (find_none _ _ E) in Hd. rewrite Hid, String.eqb_refl in Hd.
    discriminate Hd.
Qed.

(** C5.  For an e-mail address that no stored user has, [register] followed
    by [login] with the same address and password both return a token; the
    subject of either token is the identifier of the user that [register]
    stored, and [get_current_user] resolves either token, as long as it has
    not expired, to a user with that identifier. *)
Theorem register_login_round_trip (w : world) (uuid4 salt : string) (t0 t1 : Z)
    (email password full_name : string) :
  (forall d, In d (users w) -> ud_email d <> email) ->
  exists w1 tok0 tok1,
    register SECRET_KEY bcrypt hs256 w uuid4 salt t0
      {| uc_email := email; uc_password := password; uc_full_name := full_name |}
    = (w1, Ok tok0) /\
    login SECRET_KEY bcrypt hs256 w1 t1
      {| ul_email := email; ul_password := password |}
    = Ok tok1 /\
    (exists d, In d (users w1) /\ ud_id d = uuid4 /\ ud_email d = email) /\
    subject tok0 = Some uuid4 /\ subject tok1 = Some uuid4 /\
    (forall now, now < t0 + 1800 ->
       exists user,
         get_current_user SECRET_KEY hs256 w1 now (access_token tok0) = Ok user /\
         user_id user = uuid4) /\
    (forall now, now < t1 + 1800 ->
       exists user,
         get_current_user SECRET_KEY hs256 w1 now (access_token tok1) = Ok user /\
         user_id user = uuid4).
Proof.
  intros Hfresh.
  set (d := {| ud_id := uuid4; ud_email := email; ud_full_name := full_name;
               ud_created_at := t0;
               ud_hashed_password := get_password_hash bcrypt salt password |}).
  assert (Hold : forall x, In x (users w) -> String.eqb (ud_email x) email = false).
  { intros x Hx. apply String.eqb_neq. now apply Hfresh. }
  assert (Hstored : exists x, In x (users (insert_user w d)) /\ ud_id x = uuid4).
  { exists d. split; [|reflexivity]. simpl. apply in_or_app. right. now left. }
  exists (insert_user w d). eexists. eexists. split; [|split].
  - unfold register. cbn [uc_email uc_password uc_full_name].
    rewrite (AuthFacts.find_one_none _ _ Hold). reflexivity.
  - unfold login. cbn [ul_email ul_password users insert_user].
    rewrite (AuthFacts.find_one_app_fresh
               (fun u => String.eqb (ud_email u) email) (users w) d
               (String.eqb_refl email) Hold).
    unfold verify_password, d, get_password_hash. cbn [ud_hashed_password h_salt h_digest].
    rewrite String.eqb_refl. reflexivity.
  - split; [|split; [|split; [|split]]].
    + exists d. split; [|now split]. simpl. apply in_or_app. right. now left.
    + reflexivity.
    + reflexivity.
    + intros now Hnow. cbn [access_token bearer].
      now apply issued_token_authenticates.
    + intros now Hnow. cbn [access_token bearer ud_id d].
      now apply issued_token_authenticates.
Qed.

(** C6.  When a stored user already has the e-mail address, [register]
    raises 400 "Email already registered", whatever the password and the
    full name, and returns the world it was given. *)
Theorem register_conflict (w : world) (uuid4 salt : string) (now : Z)
    (user : UserCreate) :
  (exists d, In d (users w) /\ ud_email d = uc_email user) ->
  register SECRET_KEY bcrypt hs256 w uuid4 salt now user
  = (w, Raise (HTTPException 400 "Email already registered")).
Proof.
  intros (d & Hd & E). unfold register.
  destruct (find_one _ (users w)) as [x|] eqn:F; [reflexivity|].
  apply (find_none _ _ F) in Hd. rewrite E, String.eqb_refl in Hd.
  discriminate Hd.
Qed.

(** C7.  A token whose expiry time is not after the time of the call is
    refused with 401, whoever signed it and whether or not its subject is a
    stored user. *)
Theorem expired_token_unauthorized (w : world) (now e : Z) (payload : Claims)
    (signature : string) :
  exp payload = Some e ->
  e <= now ->
  get_current_user SECRET_KEY hs256 w now (Jwt payload signature)
  = Raise (HTTPException 401 "Could not validate credentials").
Proof.
  intros He Hnow. unfold get_current_user, jwt_decode.
  destruct (String.eqb signature (hs256 SECRET_KEY payload)); [|reflexivity].
  rewrite He. destruct (Z.leb_spec e now) as [_|H]; [reflexivity | lia].
Qed.

End Auth.

Lemma register_login_round_trip_witness :
  exists w1 tok0 tok1,
    register Sample.key Sample.digest Sample.tag Sample.bob_only "u-alice" "s1" 100
      Sample.alice_create = (w1, Ok tok0) /\
    login Sample.key Sample.digest Sample.tag w1 160 Sample.alice_login = Ok tok1 /\
    (exists d, In d (users w1) /\ ud_id d = "u-alice" /\
               ud_email d = "alice@example.com") /\
    subject tok0 = Some "u-alice" /\ subject tok1 = Some "u-alice" /\
    (forall now, now < 100 + 1800 ->
       exists user,
         get_current_user Sample.key Sample.tag w1 now (access_token tok0) = Ok user /\
         user_id user = "u-alice") /\
    (forall now, now < 160 + 1800 ->
       exists user,
         get_current_user Sample.key Sample.tag w1 now (access_token tok1) = Ok user /\
         user_id user = "u-alice").
Proof.
  apply (register_login_round_trip Sample.key Sample.digest Sample.tag
           Sample.bob_only "u-alice" "s1" 100 160
           "alice@example.com" "correct horse" "Alice").
  simpl. intros d [<-|[]]. simpl. discriminate.
Defined.

Lemma register_conflict_witness :
  register Sample.key Sample.digest Sample.tag Sample.bob_only "u-2" "s2" 50
    {| uc_email := "bob@example.com"; uc_password := "another";
       uc_full_name := "Robert" |}
  = (Sample.bob_only, Raise (HTTPException 400 "Email already registered")).
Proof.
  apply register_conflict.
  exists Sample.bob_doc. split; [simpl; now left | reflexivity].
Defined.

Lemma expired_token_unauthorized_witness :
  get_current_user Sample.key Sample.tag Sample.bob_only 1800 Sample.bob_token
  = Raise (HTTPException 401 "Could not validate credentials") /\
  get_current_user Sample.key Sample.tag Sample.bob_only 1799 Sample.bob_token
  = Ok Sample.bob.
Proof.
  split.
  - apply (expired_token_unauthorized Sample.key Sample.tag Sample.bob_only
             1800 1800 Sample.bob_payload); [reflexivity | lia].
  - reflexivity.
Defined.

(* ================================================================== *)
(** * Uploading a material *)

Module ExtensionFacts.



End ExtensionFacts.




(** An accepted upload writes the file, calls the model and stores the
    material. *)
Example upload_txt :
  upload_material empty_world "f-1" "m-1" 7
    (LlmText "Paris is the capital of France.") "Notes" "notes.TXT" "raw bytes"
    Sample.alice
  = ({| users := []; study_materials := [Sample.notes]; quizzes := [];
        flashcards := []; quiz_responses := [];
        uploads := [("uploads/f-1.txt", "raw bytes")];
        llm_calls := [ExtractCall "uploads/f-1.txt" "text/plain"] |},
     Ok ("Material uploaded successfully", "m-1")).
Proof. reflexivity. Qed.

(* ================================================================== *)
(** * Generating flashcards *)

Module FlashcardFacts.

Lemma flashcard_of_data (material_id : string) (u : User) (now : Z) (uuid : string)
    (entry : json) (d : FlashcardData) (c : Flashcard) :
  flashcard_data_of entry = inl d ->
  flashcard_of material_id u now uuid d = Some c ->
  built_from material_id u c entry.
Proof.
  unfold flashcard_data_of, flashcard_of, built_from.
  destruct (getitem entry "question") as [q|]; [|discriminate].
  destruct (getitem entry "answer") as [a|]; [|discriminate].
  destruct (getitem entry "explanation") as [e|]; [|discriminate].
  intros [= <-]. simpl.
  destruct q; simpl; try discriminate.
  destruct a; simpl; try discriminate.
  destruct e; simpl; try discriminate.
  intros [= <-]. simpl. repeat split.
Qed.

Lemma flashcards_built (material_id : string) (u : User) (now : Z)
    (uuid4 : nat -> string) (entries : list json) :
  forall (i : nat) (data : list FlashcardData) (cards : list Flashcard),
    flashcards_data_of entries = inl data ->
    flashcards_of material_id u now uuid4 i data = Some cards ->
    Forall2 (built_from material_id u) cards entries.
Proof.
  induction entries as [|entry entries IH]; intros i data cards; simpl.
  - intros [= <-]. simpl. intros [= <-]. constructor.
  - destruct (flashcard_data_of entry) as [d|] eqn:Hd; [|discriminate].
    destruct (flashcards_data_of entries) as [ds|]; [|discriminate].
    intros [= <-]. simpl.
    destruct (flashcard_of material_id u now (uuid4 i) d) as [c|] eqn:Hc;
      [|discriminate].
    destruct (flashcards_of material_id u now uuid4 (S i) ds) as [cs|] eqn:Hcs;
      [|discriminate].
    intros [= <-]. constructor.
    + exact (flashcard_of_data material_id u now (uuid4 i) entry d c Hd Hc).
    + exact (IH (S i) ds cs eq_refl Hcs).
Qed.

(** Iterating over a value that is no array yields no flashcard data. *)
Lemma flashcards_data_of_keys (fields : list (string * json)) :
  flashcards_data_of (map (fun kv => JString (fst kv)) fields) = inl [] \/
  exists e, flashcards_data_of (map (fun kv => JString (fst kv)) fields) = inr e.
Proof. destruct fields; [now left | right; now eexists]. Qed.

Lemma flashcards_data_of_chars (s : string) :
  flashcards_data_of (chars s) = inl [] \/
  exists e, flashcards_data_of (chars s) = inr e.
Proof. destruct s; [now left | right; now eexists]. Qed.

End FlashcardFacts.

(** C9 (as amended).  For every material and every successful flashcard
    generate call, the parsed reply of the model holds an array under
    "flashcards", and the batch that is stored and returned has exactly one
    flashcard per entry of that array, built from the entry, in order; the
    batch is not empty.  The count 15 occurs in the prompt only. *)
Theorem generate_flashcards_batch (message_of : ReadError -> string)
    (w w' : world) (uuid4 : nat -> string) (now : Z) (reply : LlmJsonReply)
    (material_id : string) (u : User) (cards : list Flashcard) :
  generate_flashcards message_of w uuid4 now reply material_id u = (w', Ok cards) ->
  exists data entries,
    reply = JsonParsed data /\
    getitem data "flashcards" = Some (JArray entries) /\
    List.length cards = List.length entries /\
    cards <> [] /\
    Forall2 (built_from material_id u) cards entries /\
    flashcards w' = flashcards w ++ cards.
Proof.
  unfold generate_flashcards.
  destruct (find_one _ _) as [material|]; [|intros H; discriminate H].
  unfold generate_flashcards_with_ai.
  destruct reply as [msg|response|data]; try (intros H; discriminate H).
  destruct (getitem data "flashcards") as [j|] eqn:Hj; [|intros H; discriminate H].
  set (w1 := log_llm w (FlashcardCall (take 8000 (sm_extracted_text material)))).
  assert (Hgen : forall items,
    (let (w2, r) :=
       match flashcards_data_of items with
       | inl flashcards => (w1, Ok flashcards)
       | inr x => (w1, Raise (flashcards_error (str_exception message_of x)))
       end in
     match r with
     | Ok flashcard_data =>
         match flashcards_of material_id u now uuid4 0 flashcard_data with
         | Some cs =>
             match insert_many w2 cs with
             | Ok w3 => (w3, Ok cs)
             | Raise e => (w2, Raise e)
             end
         | None => (w2, Raise ValueError)
         end
     | Raise e => (w2, Raise e)
     end) = (w', Ok cards) ->
    List.length cards = List.length items /\ cards <> [] /\
    Forall2 (built_from material_id u) cards items /\
    flashcards w' = flashcards w ++ cards).
  { intros items.
    destruct (flashcards_data_of items) as [ds|] eqn:Hds; [|intros H; discriminate H].
    destruct (flashcards_of material_id u now uuid4 0 ds) as [cs|] eqn:Hcs;
      [|intros H; discriminate H].
    pose proof (FlashcardFacts.flashcards_built material_id u now uuid4 items 0
                  ds cs Hds Hcs) as Hb.
    destruct cs as [|c cs]; simpl; [intros H; discriminate H|].
    intros [= <- <-]. repeat split.
    - exact (Forall2_length Hb).
    - discriminate.
    - exact Hb. }
  destruct j as [| | | s | entries | fields]; cbn [iterate];
    try (intros H; discriminate H).
  - destruct (FlashcardFacts.flashcards_data_of_chars s) as [E|[x E]]; rewrite E;
      cbn [flashcards_of insert_many]; intros H; discriminate H.
  - intros H. exists data, entries. split; [reflexivity|]. split; [exact Hj|].
    exact (Hgen entries H).
  - destruct (FlashcardFacts.flashcards_data_of_keys fields) as [E|[x E]]; rewrite E;
      cbn [flashcards_of insert_many]; intros H; discriminate H.
Qed.

Lemma generate_flashcards_batch_witness :
  exists data entries,
    JsonParsed Sample.one_card = JsonParsed data /\
    getitem data "flashcards" = Some (JArray entries) /\
    List.length
      [ {| fc_id := Sample.ids 0; fc_material_id := "m-1"; fc_user_id := "u-alice";
           fc_question := "Capital of France?"; fc_answer := "Paris";
           fc_explanation := "See the notes."; fc_created_at := 40 |} ]
    = List.length entries.
Proof.
  destruct (generate_flashcards_batch Sample.wording Sample.with_notes
              (insert_flashcards
                 (log_llm Sample.with_notes
                    (FlashcardCall "Paris is the capital of France."))
                 [ {| fc_id := Sample.ids 0; fc_material_id := "m-1";
                      fc_user_id := "u-alice";
                      fc_question := "Capital of France?"; fc_answer := "Paris";
                      fc_explanation := "See the notes."; fc_created_at := 40 |} ])
              Sample.ids 40 (JsonParsed Sample.one_card) "m-1" Sample.alice
              [ {| fc_id := Sample.ids 0; fc_material_id := "m-1";
                   fc_user_id := "u-alice";
                   fc_question := "Capital of France?"; fc_answer := "Paris";
                   fc_explanation := "See the notes."; fc_created_at := 40 |} ]
              eq_refl)
    as (data & entries & H1 & H2 & H3 & _).
  exists data, entries. repeat split; assumption.
Defined.

(** C9, counterexample.  When the parsed reply holds one flashcard, the
    call succeeds, and stores and returns one flashcard, not fifteen. *)
Lemma generate_flashcards_one_card :
  exists w' cards,
    generate_flashcards Sample.wording Sample.with_notes Sample.ids 40
      (JsonParsed Sample.one_card) "m-1" Sample.alice = (w', Ok cards) /\
    flashcards w' = cards /\
    List.length cards = 1%nat /\ List.length cards <> 15%nat.
Proof.
  eexists. eexists. split; [reflexivity|]. repeat split. discriminate.
Qed.

(* ================================================================== *)
(** * A session from registration to the score *)

(** Register, authenticate, upload a text file, generate a practice quiz
    of ten multiple choice questions and submit answers of which five are
    the canonical ones: the score is 50. *)
Example session_scores_50 :
  let '(w1, registered) :=
    register Sample.key Sample.digest Sample.tag empty_world "u-alice" "s1" 0
      Sample.alice_create in
  match registered with
  | Raise _ => False
  | Ok token =>
      match get_current_user Sample.key Sample.tag w1 60 (access_token token) with
      | Raise _ => False
      | Ok user =>
          let '(w2, _) :=
            upload_material w1 "f-1" "m-1" 120 (LlmText "Some notes.") "Notes"
              "notes.txt" "Some notes." user in
          let '(w3, generated) :=
            generate_quiz Sample.title Sample.wording w2 Sample.ids 180
              (JsonParsed Sample.ten_questions) "m-1" "practice" "mcq" user in
          match generated with
          | Raise _ => False
          | Ok quiz =>
              quiz_title quiz = "Notes - Practice Quiz" /\
              quiz_time_limit quiz = 15 /\
              snd (submit_quiz w3 (quiz_id quiz)
                     (Sample.response (quiz_id quiz) Sample.half_right) user)
              = Ok {| score := 50; correct_answers := 5; total_questions := 10 |}
          end
      end
  end.
Proof. vm_compute. repeat split. Qed.

(* ================================================================== *)
(** * Further facts about the string operations *)

Module NormalFacts.
Import PyStr.

Lemma lower_char_idem (c : ascii) : lower_char (lower_char c) = lower_char c.
Proof. destruct c as [[] [] [] [] [] [] [] []]; reflexivity. Qed.

Lemma isspace_lower_char (c : ascii) : isspace (lower_char c) = isspace c.
Proof. destruct c as [[] [] [] [] [] [] [] []]; reflexivity. Qed.

Lemma lower_idem (s : string) : lower (lower s) = lower s.
Proof.
  induction s as [|c s IH]; simpl; [reflexivity|].
  now rewrite lower_char_idem, IH.
Qed.

Lemma lower_lstrip (s : string) : lower (lstrip s) = lstrip (lower s).
Proof.
  induction s as [|c s IH]; simpl; [reflexivity|].
  rewrite isspace_lower_char. destruct (isspace c); [exact IH | reflexivity].
Qed.

Lemma lower_rstrip (s : string) : lower (rstrip s) = rstrip (lower s).
Proof.
  induction s as [|c s IH]; simpl; [reflexivity|].
  rewrite <- IH, isspace_lower_char.
  destruct (rstrip s) as [|c' r]; simpl; [|reflexivity].
  destruct (isspace c); reflexivity.
Qed.

Lemma lower_strip (s : string) : lower (strip s) = strip (lower s).
Proof. unfold strip. now rewrite lower_rstrip, lower_lstrip. Qed.

Lemma rstrip_idem (s : string) : rstrip (rstrip s) = rstrip s.
Proof.
  induction s as [|c s IH]; simpl; [reflexivity|].
  destruct (rstrip s) as [|c' r] eqn:E.
  - destruct (isspace c) eqn:Hc; simpl; [reflexivity | now rewrite Hc].
  - simpl in IH |- *. now rewrite IH.
Qed.

(** A string that does not start with white space keeps its first
    character under [rstrip]. *)
Lemma lstrip_rstrip_lstrip (s : string) :
  lstrip (rstrip (lstrip s)) = rstrip (lstrip s).
Proof.
  induction s as [|c s IH]; simpl; [reflexivity|].
  destruct (isspace c) eqn:Hc; [exact IH|].
  simpl. rewrite Hc. destruct (rstrip s) as [|c' r]; simpl; now rewrite Hc.
Qed.

Lemma strip_idem (s : string) : strip (strip s) = strip s.
Proof.
  unfold strip. now rewrite lstrip_rstrip_lstrip, rstrip_idem.
Qed.

(** The normal form under which answers are compared. *)
Lemma normal_idem (s : string) :
  strip (lower (strip (lower s))) = strip (lower s).
Proof. now rewrite lower_strip, lower_idem, strip_idem. Qed.

Lemma startswith_refl (s : string) : startswith s s = true.
Proof.
  induction s as [|c s IH]; simpl; [reflexivity|].
  now rewrite Ascii.eqb_refl, IH.
Qed.

Lemma contains_refl (s : string) : contains s s = true.
Proof. destruct s; simpl; [reflexivity|]. now rewrite Ascii.eqb_refl, startswith_refl. Qed.



(** [text[:n]] never has more than [n] characters. *)
Lemma substring_length (n : nat) (s : string) :
  (String.length (String.substring 0 n s) <= n)%nat.
Proof.
  revert s. induction n as [|n IH]; intros s.
  - destruct s; simpl; lia.
  - destruct s as [|c s]; simpl; [lia|]. specialize (IH s). lia.
Qed.

Lemma take_length (n : Z) (text : string) :
  0 <= n -> Z.of_nat (String.length (take n text)) <= n.
Proof.
  intros Hn. unfold take.
  pose proof (substring_length (Z.to_nat n) text). lia.
Qed.

End NormalFacts.

(* ================================================================== *)
(** * Further properties: authentication *)

Module SessionFacts.

Lemma find_one_app_found {A : Type} (p : A -> bool) (l l' : list A) (x : A) :
  find_one p l = Some x -> find_one p (l ++ l') = Some x.
Proof.
  unfold find_one. induction l as [|y l IH]; simpl; [discriminate|].
  destruct (p y); [easy | exact IH].
Qed.

Lemma find_one_absent {A : Type} (p : A -> bool) (l : list A) :
  find_one p l = None -> forall x, In x l -> p x = false.
Proof. unfold find_one. intros H x Hx. exact (find_none p l H x Hx). Qed.

End SessionFacts.

Section Sessions.

Variable SECRET_KEY : string.
Variable bcrypt : string -> string -> string.
Variable hs256 : string -> Claims -> string.

(** X1.  Whenever [get_current_user] returns a user, the credentials are a
    token that carries the tag of the server's key, is not expired, and
    names as subject the identifier of a stored user, who is the user
    returned; and whenever it raises, it raises 401 "Could not validate
    credentials", whatever the reason. *)
Theorem get_current_user_sound (w : world) (now : Z) (credentials : BearerToken) :
  (forall user,
     get_current_user SECRET_KEY hs256 w now credentials = Ok user ->
     exists payload uid doc,
       credentials = Jwt payload (hs256 SECRET_KEY payload) /\
       (forall e, exp payload = Some e -> now < e) /\
       sub payload = Some uid /\
       In doc (users w) /\ ud_id doc = uid /\ user = User_of_doc doc) /\
  (forall e,
     get_current_user SECRET_KEY hs256 w now credentials = Raise e ->
     e = HTTPException 401 "Could not validate credentials").
Proof.
  unfold get_current_user, jwt_decode.
  destruct credentials as [payload signature|raw].
  - destruct (String.eqb_spec signature (hs256 SECRET_KEY payload)) as [->|Hsig].
    + assert (Hrest :
        (forall user,
           match sub payload with
           | Some uid =>
               match find_one (fun u => String.eqb (ud_id u) uid) (users w) with
               | Some user0 => Ok (User_of_doc user0)
               | None => Raise credentials_exception
               end
           | None => Raise credentials_exception
           end = Ok user ->
           exists uid doc,
             sub payload = Some uid /\ In doc (users w) /\ ud_id doc = uid /\
             user = User_of_doc doc) /\
        (forall e,
           match sub payload with
           | Some uid =>
               match find_one (fun u => String.eqb (ud_id u) uid) (users w) with
               | Some user0 => Ok (User_of_doc user0)
               | None => Raise credentials_exception
               end
           | None => Raise credentials_exception
           end = Raise e -> e = credentials_exception)).
      { destruct (sub payload) as [uid|].
        - destruct (find_one _ (users w)) as [doc|] eqn:E.
          + split; [|intros e H; discriminate H].
            intros user [= <-]. apply find_some in E as [Hdoc E].
            apply String.eqb_eq in E. now exists uid, doc.
          + split; [intros user H; discriminate H|]. now intros e [= <-].
        - split; [intros user H; discriminate H|]. now intros e [= <-]. }
      destruct Hrest as [Hok Herr].
      destruct (exp payload) as [e0|] eqn:He.
      * destruct (Z.leb_spec e0 now) as [Hle|Hlt].
        -- split; [intros user H; discriminate H|]. now intros e [= <-].
        -- split; [|exact Herr]. intros user H.
           destruct (Hok user H) as (uid & doc & H1 & H2 & H3 & H4).
           exists payload, uid, doc. repeat split; try assumption.
           intros e He'. rewrite He in He'. injection He' as <-. exact Hlt.
      * split; [|exact Herr]. intros user H.
        destruct (Hok user H) as (uid & doc & H1 & H2 & H3 & H4).
        exists payload, uid, doc. repeat split; try assumption.
        intros e He'. rewrite He in He'. discriminate He'.
    + split; [intros user H; discriminate H|]. now intros e [= <-].
  - split; [intros user H; discriminate H|]. now intros e [= <-].
Qed.

(** X2.  A token that [register] or [login] issues for a stored user at
    time [issued] authenticates that user at time [now] exactly when
    [now < issued + 1800]: the token is good for thirty minutes and
    for no longer. *)
Theorem issued_token_lifetime (w : world) (uid : string) (issued now : Z) :
  (exists d, In d (users w) /\ ud_id d = uid) ->
  (exists user,
     get_current_user SECRET_KEY hs256 w now
       (create_access_token SECRET_KEY hs256 issued
          {| sub := Some uid; exp := None |}
          (Some (minutes ACCESS_TOKEN_EXPIRE_MINUTES)))
     = Ok user /\ user_id user = uid)
  <-> now < issued + 1800.
Proof.
  intros Hstored. split.
  - intros (user & H & _). revert H.
    unfold get_current_user, create_access_token, jwt_encode, jwt_decode.
    change (minutes ACCESS_TOKEN_EXPIRE_MINUTES) with 1800. simpl.
    rewrite String.eqb_refl.
    destruct (Z.leb_spec (issued + 1800) now) as [Hle|Hlt]; [|intros _; exact Hlt].
    intros H. discriminate H.
  - intros Hnow. now apply issued_token_authenticates.
Qed.

(** X3.  A token created with no [expires_delta], or with one of a whole
    number of seconds that is not negative, decodes at the instant it is
    created, with the subject it was given and an expiry time in the future,
    provided that expiry time is within the range of [datetime]; without a
    delta, and also with a delta of zero, the expiry time is fifteen minutes
    ahead. *)
Theorem fresh_token_decodes (now : Z) (data : Claims) (expires_delta : option Z) :
  (forall d, expires_delta = Some d -> 0 <= d /\ now + d <= datetime_max) ->
  (expires_delta = None \/ expires_delta = Some 0 -> now + 900 <= datetime_max) ->
  exists e,
    jwt_decode hs256 now
      (create_access_token SECRET_KEY hs256 now data expires_delta) SECRET_KEY
    = inl {| sub := sub data; exp := Some e |} /\
    now < e <= datetime_max /\
    (expires_delta = None \/ expires_delta = Some 0 -> e = now + 900) /\
    (forall d, expires_delta = Some d -> d <> 0 -> e = now + d).
Proof.
  intros Hpos Hmax. unfold create_access_token, jwt_encode, jwt_decode.
  rewrite String.eqb_refl. cbn [exp].
  set (e := match expires_delta with
            | Some d => if d =? 0 then now + minutes 15 else now + d
            | None => now + minutes 15
            end).
  assert (He : now < e <= datetime_max /\
               (expires_delta = None \/ expires_delta = Some 0 -> e = now + 900) /\
               (forall d, expires_delta = Some d -> d <> 0 -> e = now + d)).
  { unfold e, minutes. destruct expires_delta as [d|].
    - destruct (Hpos d eq_refl) as [Hd0 Hd1]. destruct (Z.eqb_spec d 0) as [->|Hd].
      + pose proof (Hmax (or_intror eq_refl)) as Hm.
        split; [lia|]. split; [reflexivity|]. intros d [= <-] Hd. now elim Hd.
      + split; [lia|]. split.
        * intros [H|H]; [discriminate H | injection H as ->; lia].
        * now intros d' [= <-] _.
    - pose proof (Hmax (or_introl eq_refl)) as Hm.
      split; [lia|]. split; [reflexivity|]. intros d H. discriminate H. }
  exists e. destruct He as (He1 & He2 & He3).
  destruct (Z.leb_spec e now); [lia|]. repeat split; try assumption; lia.
Qed.

(** X4.  [login] fails in one way only: with 401 "Incorrect email or
    password".  It does so when no stored user has the e-mail address, and it
    does so when the stored digest is not the digest of the password under
    the stored salt; the two cases cannot be told apart. *)
Theorem login_failure_uniform (w : world) (now : Z) (user_login : UserLogin) :
  (forall e,
     login SECRET_KEY bcrypt hs256 w now user_login = Raise e ->
     e = HTTPException 401 "Incorrect email or password") /\
  ((forall d, In d (users w) -> ud_email d <> ul_email user_login) ->
   login SECRET_KEY bcrypt hs256 w now user_login
   = Raise (HTTPException 401 "Incorrect email or password")) /\
  (forall d,
     find_one (fun u => String.eqb (ud_email u) (ul_email user_login)) (users w)
     = Some d ->
     bcrypt (h_salt (ud_hashed_password d)) (ul_password user_login)
     <> h_digest (ud_hashed_password d) ->
     login SECRET_KEY bcrypt hs256 w now user_login
     = Raise (HTTPException 401 "Incorrect email or password")).
Proof.
  unfold login. split; [|split].
  - intros e. destruct (find_one _ (users w)) as [d|].
    + destruct (verify_password _ _ _); [intros H; discriminate H|].
      now intros [= <-].
    + now intros [= <-].
  - intros Hnone.
    rewrite (AuthFacts.find_one_none
               (fun u => String.eqb (ud_email u) (ul_email user_login)) (users w));
      [reflexivity|].
    intros x Hx. apply String.eqb_neq. now apply Hnone.
  - intros d -> Hne. unfold verify_password.
    apply String.eqb_neq in Hne. now rewrite Hne.
Qed.

(** X5.  After a successful [register], [login] with the same e-mail
    address and a password whose digest under the stored salt differs from
    that of the registered password raises 401. *)
Theorem register_then_wrong_password (w : world) (uuid4 salt : string) (t0 t1 : Z)
    (user : UserCreate) (wrong : string) :
  (forall d, In d (users w) -> ud_email d <> uc_email user) ->
  bcrypt salt wrong <> bcrypt salt (uc_password user) ->
  login SECRET_KEY bcrypt hs256
    (fst (register SECRET_KEY bcrypt hs256 w uuid4 salt t0 user)) t1
    {| ul_email := uc_email user; ul_password := wrong |}
  = Raise (HTTPException 401 "Incorrect email or password").
Proof.
  intros Hfresh Hwrong.
  assert (Hold : forall x, In x (users w) ->
                 String.eqb (ud_email x) (uc_email user) = false).
  { intros x Hx. apply String.eqb_neq. now apply Hfresh. }
  set (d := {| ud_id := uuid4; ud_email := uc_email user;
               ud_full_name := uc_full_name user; ud_created_at := t0;
               ud_hashed_password :=
                 get_password_hash bcrypt salt (uc_password user) |}).
  unfold register. rewrite (AuthFacts.find_one_none _ _ Hold).
  cbn [fst]. fold d. unfold login. cbn [ul_email ul_password users insert_user].
  rewrite (AuthFacts.find_one_app_fresh
             (fun u => String.eqb (ud_email u) (uc_email user)) (users w) d
             (String.eqb_refl (uc_email user)) Hold).
  unfold verify_password, d, get_password_hash.
  cbn [ud_hashed_password h_salt h_digest].
  apply String.eqb_neq in Hwrong. now rewrite Hwrong.
Qed.

(** X6.  Served with no other registration between its look-up and its
    insert, [register] keeps the e-mail addresses of the stored users
    pairwise distinct.  The look-up and the insert are two awaits, though,
    and the insert itself checks nothing: run in a world that has changed
    since the look-up, it keeps the addresses distinct exactly when the
    address is still absent.  Two registrations of one new address whose
    look-ups both come before the inserts store the address twice. *)
Theorem register_keeps_emails_unique (w w2 : world) (uuid4 salt : string) (now : Z)
    (user : UserCreate) :
  NoDup (map ud_email (users w)) ->
  NoDup (map ud_email (users w2)) ->
  register_lookup w user = None ->
  register SECRET_KEY bcrypt hs256 w uuid4 salt now user
  = (let (w1, token) := register_insert SECRET_KEY bcrypt hs256 w uuid4 salt now
                          user in
     (w1, Ok token)) /\
  NoDup (map ud_email
           (users (fst (register SECRET_KEY bcrypt hs256 w uuid4 salt now user)))) /\
  (NoDup (map ud_email
            (users (fst (register_insert SECRET_KEY bcrypt hs256 w2 uuid4 salt now
                           user))))
   <-> forall d, In d (users w2) -> ud_email d <> uc_email user).
Proof.
  intros Hnd Hnd2 Hlook.
  assert (Hins : forall v : world,
            NoDup (map ud_email (users v)) ->
            (NoDup (map ud_email
                      (users (fst (register_insert SECRET_KEY bcrypt hs256 v uuid4
                                     salt now user))))
             <-> forall d, In d (users v) -> ud_email d <> uc_email user)).
  { intros v Hv. unfold register_insert. cbn [fst users insert_user].
    rewrite map_app. cbn [map ud_email]. split.
    - intros H d Hd E.
      assert (H' : NoDup (uc_email user :: map ud_email (users v))).
      { apply (Permutation_NoDup (l := map ud_email (users v) ++ [uc_email user]));
          [apply Permutation_app_comm | exact H]. }
      apply NoDup_cons_iff in H' as [Hn _]. apply Hn. rewrite <- E.
      now apply in_map.
    - intros Habs.
      apply (Permutation_NoDup (l := uc_email user :: map ud_email (users v)));
        [apply (Permutation_app_comm [uc_email user])|].
      apply NoDup_cons; [|exact Hv].
      intros Hin. apply in_map_iff in Hin as (d & E & Hd). exact (Habs d Hd E). }
  assert (Hreg : register SECRET_KEY bcrypt hs256 w uuid4 salt now user
                 = (let (w1, token) :=
                      register_insert SECRET_KEY bcrypt hs256 w uuid4 salt now user in
                    (w1, Ok token))).
  { unfold register, register_insert. unfold register_lookup in Hlook.
    now rewrite Hlook. }
  split; [exact Hreg|]. split; [|exact (Hins w2 Hnd2)].
  rewrite Hreg. apply (Hins w Hnd).
  intros d Hd. apply String.eqb_neq.
  exact (SessionFacts.find_one_absent _ _ Hlook d Hd).
Qed.

(** X7.  Registrations never disturb the sessions of others: whoever could
    log in before a call of [register] can log in after it and obtains the
    same token, and every token that authenticated before authenticates
    after it, as the same user. *)
Theorem register_preserves_sessions (w : world) (uuid4 salt : string) (t now : Z)
    (user : UserCreate) :
  (forall user_login token,
     login SECRET_KEY bcrypt hs256 w now user_login = Ok token ->
     login SECRET_KEY bcrypt hs256
       (fst (register SECRET_KEY bcrypt hs256 w uuid4 salt t user)) now user_login
     = Ok token) /\
  (forall credentials current_user,
     get_current_user SECRET_KEY hs256 w now credentials = Ok current_user ->
     get_current_user SECRET_KEY hs256
       (fst (register SECRET_KEY bcrypt hs256 w uuid4 salt t user)) now credentials
     = Ok current_user).
Proof.
  unfold register.
  destruct (find_one _ (users w)) as [d|]; [now split|].
  cbn [fst]. split.
  - intros user_login token. unfold login. cbn [users insert_user].
    destruct (find_one _ (users w)) as [x|] eqn:F; [|intros H; discriminate H].
    now rewrite (SessionFacts.find_one_app_found _ _ _ _ F).
  - intros credentials current_user. unfold get_current_user.
    destruct (jwt_decode _ _ _ _) as [payload|]; [|intros H; discriminate H].
    destruct (sub payload) as [uid|]; [|intros H; discriminate H].
    cbn [users insert_user].
    destruct (find_one _ (users w)) as [x|] eqn:F; [|intros H; discriminate H].
    now rewrite (SessionFacts.find_one_app_found _ _ _ _ F).
Qed.

End Sessions.

(* ================================================================== *)
(** * Further properties: uploading and listing materials *)

Module UploadFacts.
Import PyStr.

Lemma split_without_separator (sep : ascii) (s : string) :
  occurs sep s = false -> split sep s = [s].
Proof.
  induction s as [|c s IH]; simpl; [reflexivity|].
  intros H. apply orb_false_iff in H as [Hc Hs].
  rewrite Hc, (IH Hs). reflexivity.
Qed.

(** The segments of [base + sep + ext]: at least two, the last one [ext]. *)
Lemma split_last_segment (sep : ascii) (base ext : string) :
  occurs sep ext = false ->
  exists seg rest,
    split sep (base ++ String sep ext) = seg :: rest /\ rest <> [] /\
    last rest EmptyString = ext.
Proof.
  intros Hext. induction base as [|c base IH]; simpl.
  - rewrite Ascii.eqb_refl, (split_without_separator sep ext Hext).
    exists EmptyString, [ext]. repeat split. discriminate.
  - destruct IH as (seg & rest & E & Hrest & Hlast). rewrite E.
    destruct (Ascii.eqb c sep).
    + exists EmptyString, (seg :: rest). repeat split; [discriminate|].
      destruct rest; [now elim Hrest | exact Hlast].
    + exists (String c seg), rest. repeat split; assumption.
Qed.

Lemma allowed_extension_mime (ext : string) :
  In ext allowed_extensions ->
  get_mime_type ext <> "application/octet-stream".
Proof.
  intros H. repeat (destruct H as [<-|H]; [discriminate|]). destruct H.
Qed.

(** [upload_material] once the extension is accepted. *)
Lemma upload_material_accepted (w : world) (file_uuid material_uuid : string)
    (now : Z) (reply : LlmReply) (title filename content : string) (u : User) :
  In (file_extension_of filename) allowed_extensions ->
  upload_material w file_uuid material_uuid now reply title filename content u
  = match extract_text_from_file
            (write_file w (stored_path file_uuid filename) content)
            (stored_path file_uuid filename) (file_extension_of filename) reply with
    | (w2, Raise e) => (w2, Raise e)
    | (w2, Ok extracted_text) =>
        (insert_material w2
           {| sm_id := material_uuid; sm_user_id := user_id u; sm_title := title;
              sm_file_type := file_extension_of filename;
              sm_extracted_text := extracted_text; sm_uploaded_at := now |},
         Ok ("Material uploaded successfully", material_uuid))
    end.
Proof.
  intros H. apply PyStrFacts.mem_spec in H. unfold upload_material.
  rewrite H. reflexivity.
Qed.

End UploadFacts.

(** X8.  For a name without a dot, the extension [upload_material] tests is
    the lowered name itself when the file is called just that, and it is the
    lowered name again when the name follows a dot, whatever stands before
    the dot: the extension is what follows the last dot, and a file name
    without any dot is its own extension. *)
Theorem file_extension_after_last_dot (name : string) :
  occurs "." name = false ->
  file_extension_of name = PyStr.lower name /\
  forall base, file_extension_of (base ++ "." ++ name) = PyStr.lower name.
Proof.
  intros Hdot. unfold file_extension_of. split.
  - now rewrite (UploadFacts.split_without_separator "." name Hdot).
  - intros base. change ("." ++ name)%string with (String "." name).
    destruct (UploadFacts.split_last_segment "." base name Hdot)
      as (seg & rest & -> & Hrest & Hlast).
    destruct rest; [now elim Hrest|]. simpl last in *. now rewrite Hlast.
Qed.

(** X9.  An upload with an accepted extension, answered by the model with a
    text, returns the identifier drawn for the material, leaves the file
    under [uploads/<file id>.<extension>], and -- when no stored material
    carries that identifier yet -- [get_material] then hands the uploader a
    material with the given title, the lowered extension and the text of the
    model. *)
Theorem upload_then_get_material (w : world) (file_uuid material_uuid : string)
    (now : Z) (text title filename content : string) (u : User) :
  In (file_extension_of filename) allowed_extensions ->
  (forall m, In m (study_materials w) -> sm_id m <> material_uuid) ->
  exists w',
    upload_material w file_uuid material_uuid now (LlmText text) title filename
      content u
    = (w', Ok ("Material uploaded successfully", material_uuid)) /\
    In (stored_path file_uuid filename, content) (uploads w') /\
    get_material w' material_uuid u
    = Ok {| sm_id := material_uuid; sm_user_id := user_id u; sm_title := title;
            sm_file_type := file_extension_of filename;
            sm_extracted_text := text; sm_uploaded_at := now |}.
Proof.
  intros Hext Hfresh.
  rewrite (UploadFacts.upload_material_accepted w file_uuid material_uuid now
             (LlmText text) title filename content u Hext).
  cbn [extract_text_from_file]. eexists. split; [reflexivity|]. split.
  - simpl. now left.
  - unfold get_material. cbn [study_materials insert_material log_llm write_file].
    rewrite (AuthFacts.find_one_app_fresh (owned_material material_uuid u)
               (study_materials w) _).
    + reflexivity.
    + unfold owned_material. cbn [sm_id sm_user_id]. now rewrite !String.eqb_refl.
    + intros x Hx. unfold owned_material.
      apply andb_false_iff. left. apply String.eqb_neq. now apply Hfresh.
Qed.

(** X10.  When the model fails on an accepted upload, [upload_material]
    raises 500 with the message of the model, stores no material, and
    leaves behind the file it had already written; the one call to the model
    names that file and the MIME type of its extension. *)
Theorem upload_extraction_failure (w : world) (file_uuid material_uuid : string)
    (now : Z) (msg title filename content : string) (u : User) :
  In (file_extension_of filename) allowed_extensions ->
  exists w',
    upload_material w file_uuid material_uuid now (LlmRaises msg) title filename
      content u
    = (w', Raise (HTTPException 500 ("Error extracting text: " ++ msg))) /\
    study_materials w' = study_materials w /\
    In (stored_path file_uuid filename, content) (uploads w') /\
    llm_calls w'
    = llm_calls w ++ [ExtractCall (stored_path file_uuid filename)
                        (get_mime_type (file_extension_of filename))].
Proof.
  intros Hext.
  rewrite (UploadFacts.upload_material_accepted w file_uuid material_uuid now
             (LlmRaises msg) title filename content u Hext).
  cbn [extract_text_from_file]. eexists. split; [reflexivity|].
  repeat split. simpl. now left.
Qed.

(** X11.  Whatever [upload_material] adds to the world is well formed:
    a material it stores belongs to the uploader and has one of the seven
    accepted extensions as file type, and a call it makes to the model is a
    text extraction with a MIME type other than the fallback
    "application/octet-stream". *)
Theorem upload_material_provenance (w : world) (file_uuid material_uuid : string)
    (now : Z) (reply : LlmReply) (title filename content : string) (u : User) :
  (forall m,
     In m (study_materials
             (fst (upload_material w file_uuid material_uuid now reply title
                     filename content u))) ->
     In m (study_materials w) \/
     (sm_user_id m = user_id u /\ In (sm_file_type m) allowed_extensions)) /\
  (forall c,
     In c (llm_calls
             (fst (upload_material w file_uuid material_uuid now reply title
                     filename content u))) ->
     In c (llm_calls w) \/
     exists file_path mime_type,
       c = ExtractCall file_path mime_type /\
       mime_type <> "application/octet-stream").
Proof.
  unfold upload_material.
  destruct (PyStr.mem (file_extension_of filename) allowed_extensions) eqn:Hext;
    cbn [negb]; [|split; intros; now left].
  apply PyStrFacts.mem_spec in Hext.
  pose proof (UploadFacts.allowed_extension_mime _ Hext) as Hmime.
  destruct reply as [msg|text]; cbn [extract_text_from_file fst].
  - split.
    + intros m Hm. now left.
    + intros c Hc. cbn [llm_calls log_llm write_file] in Hc.
      apply in_app_or in Hc as [Hc|[<-|[]]]; [now left | right].
      eexists. eexists. split; [reflexivity | exact Hmime].
  - split.
    + intros m Hm. cbn [study_materials insert_material log_llm write_file] in Hm.
      apply in_app_or in Hm as [Hm|[<-|[]]]; [now left | right].
      split; [reflexivity | exact Hext].
    + intros c Hc. cbn [llm_calls insert_material log_llm write_file] in Hc.
      apply in_app_or in Hc as [Hc|[<-|[]]]; [now left | right].
      eexists. eexists. split; [reflexivity | exact Hmime].
Qed.

(** X12.  An upload by one user never changes the list of materials that
    [get_materials] returns to another user. *)
Theorem get_materials_unaffected_by_others (w : world)
    (file_uuid material_uuid : string) (now : Z) (reply : LlmReply)
    (title filename content : string) (a b : User) :
  user_id a <> user_id b ->
  get_materials
    (fst (upload_material w file_uuid material_uuid now reply title filename
            content b)) a
  = get_materials w a.
Proof.
  intros Hab. unfold upload_material.
  destruct (negb _); [reflexivity|].
  destruct reply as [msg|text]; cbn [extract_text_from_file fst]; [reflexivity|].
  unfold get_materials. cbn [study_materials insert_material log_llm write_file].
  rewrite filter_app. cbn [filter sm_user_id].
  assert (E : String.eqb (user_id b) (user_id a) = false)
    by (apply String.eqb_neq; congruence).
  rewrite E. apply app_nil_r.
Qed.

(* ================================================================== *)
(** * Further facts about the rounding and the grading loop *)

Module ExactFacts.
Import Binary64.

(** Rounding to the nearest integer is the identity on integers. *)
Lemma rne_exact (d t c : Z) :
  0 <= c -> 0 < d -> 0 <= t -> rne (c * (d * 2 ^ t)) d t = c.
Proof.
  intros Hc Hd Ht.
  assert (Hp : 0 < 2 ^ t) by (apply Z.pow_pos_nonneg; lia).
  assert (Ha : 0 <= c * (d * 2 ^ t)) by nia.
  pose proof (Binary64Facts.rne_le (c * (d * 2 ^ t)) d t c Ha Hd Ht ltac:(lia)) as Hle.
  pose proof (Binary64Facts.rne_error (c * (d * 2 ^ t)) d t Ha Hd Ht) as [Hlow _].
  assert (Hdp : 0 < d * 2 ^ t) by nia.
  set (D := d * 2 ^ t) in *. set (m := rne (c * D) d t) in *.
  assert (c <= m); [|lia].
  destruct (Z.le_gt_cases c m) as [H|H]; [exact H|]. exfalso.
  assert (m * D <= (c - 1) * D) by (apply Z.mul_le_mono_nonneg_r; lia).
  lia.
Qed.

(** Rounding to binary64 is the identity on representable numbers. *)
Lemma round_exact (d k c mc sc : Z) :
  0 < d -> 0 <= k ->
  c = mc * 2 ^ sc -> 0 <= mc < 2 ^ 53 -> 0 <= sc -> c < huge ->
  round (c * (d * 2 ^ k)) d k = Finite c.
Proof.
  intros Hd Hk Hc Hmc Hsc Hfin. unfold round, shift_of.
  assert (Hpk : 0 < 2 ^ k) by (apply Z.pow_pos_nonneg; lia).
  assert (Hps : 0 < 2 ^ sc) by (apply Z.pow_pos_nonneg; lia).
  assert (Hc0 : 0 <= c) by nia.
  rewrite Z.shiftr_div_pow2 by exact Hk.
  rewrite Z.div_div by lia.
  replace (c * (d * 2 ^ k)) with (c * (2 ^ k * d)) by ring.
  rewrite Z.div_mul by nia.
  assert (Hfinish : forall s, 0 <= s -> s <= sc \/ s = 0 ->
            (if Z.shiftl (rne (c * (2 ^ k * d)) d (k + s)) s <? huge
             then Finite (Z.shiftl (rne (c * (2 ^ k * d)) d (k + s)) s)
             else Infinity) = Finite c).
  { intros s Hs0 Hs.
    assert (H2s : 0 < 2 ^ s) by (apply Z.pow_pos_nonneg; lia).
    assert (exists c', c = c' * 2 ^ s /\ 0 <= c') as (c' & Hc' & Hc'0).
    { destruct Hs as [Hs | ->]; [|exists c; rewrite Z.pow_0_r; lia].
      exists (mc * 2 ^ (sc - s)). split.
      - rewrite <- Z.mul_assoc, <- Z.pow_add_r by lia.
        now replace (sc - s + s) with sc by lia.
      - apply Z.mul_nonneg_nonneg; [lia|]. apply Z.pow_nonneg. lia. }
    replace (c * (2 ^ k * d)) with (c' * (d * 2 ^ (k + s)))
      by (rewrite Hc', Z.pow_add_r by lia; ring).
    rewrite (rne_exact d (k + s) c' Hc'0 Hd ltac:(lia)).
    rewrite Z.shiftl_mul_pow2 by exact Hs0. rewrite <- Hc'.
    destruct (Z.ltb_spec c huge); [reflexivity | lia]. }
  destruct (Z.ltb_spec c (2 ^ 53)) as [Hsmall|Hbig].
  - rewrite Z.add_0_r.
    specialize (Hfinish 0 ltac:(lia) ltac:(now right)).
    now rewrite Z.add_0_r in Hfinish.
  - assert (Hpos : 0 < c) by lia.
    destruct (Z.log2_spec c Hpos) as [HL1 HL2].
    set (L := Z.log2 c) in *.
    assert (H53 : 53 <= L).
    { unfold L. rewrite <- (Z.log2_pow2 53) by lia. now apply Z.log2_le_mono. }
    assert (Hs : L - 52 <= sc).
    { assert (Hlt : 2 ^ L < 2 ^ (53 + sc)) by (rewrite Z.pow_add_r by lia; nia).
      apply Z.pow_lt_mono_r_iff in Hlt; lia. }
    apply Hfinish; [lia | now left].
Qed.

(** When [a] is [k] times [b], the expression is [100 * k], exactly. *)
Lemma percent_multiple (b k : Z) :
  0 < b -> 0 <= k -> 100 * k < 2 ^ 53 -> percent (k * b) b = Ok (100 * k).
Proof.
  intros Hb Hk Hk100. pose proof Binary64Facts.one_pos as HU.
  assert (H53 : 0 < 2 ^ 53) by (apply Z.pow_pos_nonneg; lia).
  assert (Hq : round (k * b * one) b 0 = Finite (k * one)).
  { replace (k * b * one) with (k * one * (b * 2 ^ 0)) by (rewrite Z.pow_0_r; ring).
    apply (round_exact b 0 (k * one) k 1074); try lia.
    - unfold one, frac_bits. reflexivity.
    - unfold one, frac_bits, huge.
      assert (k * 2 ^ 1074 < 2 ^ 53 * 2 ^ 1074).
      { apply Z.mul_lt_mono_pos_r; [apply Z.pow_pos_nonneg; lia | lia]. }
      rewrite <- Z.pow_add_r in H by lia.
      assert (2 ^ (53 + 1074) < 2 ^ 2098) by (apply Z.pow_lt_mono_r; lia). lia. }
  assert (Hp : round (k * one * (100 * one)) 1 frac_bits = Finite (100 * k * one)).
  { replace (k * one * (100 * one)) with (100 * k * one * (1 * 2 ^ frac_bits))
      by (unfold one; ring).
    apply (round_exact 1 frac_bits (100 * k * one) (100 * k) 1074);
      try (unfold frac_bits; lia).
    - unfold one, frac_bits. reflexivity.
    - unfold one, frac_bits, huge.
      assert (100 * k * 2 ^ 1074 < 2 ^ 53 * 2 ^ 1074).
      { apply Z.mul_lt_mono_pos_r; [apply Z.pow_pos_nonneg; lia | lia]. }
      rewrite <- Z.pow_add_r in H by lia.
      assert (2 ^ (53 + 1074) < 2 ^ 2098) by (apply Z.pow_lt_mono_r; lia). lia. }
  unfold percent, int_truediv. destruct (Z.eqb_spec b 0) as [E|_]; [lia|].
  rewrite Hq. cbn [bind]. rewrite Binary64Facts.of_int_100. cbn [bind mul].
  rewrite Hp. cbn [to_int].
  rewrite Z.shiftr_div_pow2 by (unfold frac_bits; lia). fold one.
  now rewrite Z.div_mul by lia.
Qed.

(** The expression is floor(100 * a / b) for [0 <= a <= b <= 12]. *)
Lemma percent_small (a b : Z) :
  0 <= a <= b -> 0 < b <= 12 -> percent a b = Ok (100 * a / b).
Proof.
  intros Ha Hb.
  pose proof (proj1 (forallb_forall _ _) percent_exact_up_to_12 (a, b)) as H.
  cbn [fst snd] in H.
  assert (Hin : In (a, b) (grid 13 12)).
  { unfold grid. apply in_prod.
    - apply in_map_iff. exists (Z.to_nat a). split; [lia|]. apply in_seq. lia.
    - apply in_map_iff. exists (Z.to_nat b). split; [lia|]. apply in_seq. lia. }
  specialize (H Hin). apply orb_true_iff in H as [H|H].
  - apply Z.ltb_lt in H. lia.
  - destruct (percent a b) as [s|e]; [|discriminate H].
    apply Z.eqb_eq in H. now subst.
Qed.

End ExactFacts.

Module SubmissionFacts.

Lemma filter_all {A : Type} (p : A -> bool) (l : list A) :
  (forall x, In x l -> p x = true) -> filter p l = l.
Proof.
  induction l as [|x l IH]; simpl; intros H; [reflexivity|].
  rewrite (H x) by now left. f_equal. apply IH. intros y Hy. apply H. now right.
Qed.

Lemma filter_none {A : Type} (p : A -> bool) (l : list A) :
  (forall x, In x l -> p x = false) -> filter p l = [].
Proof.
  induction l as [|x l IH]; simpl; intros H; [reflexivity|].
  rewrite (H x) by now left. apply IH. intros y Hy. apply H. now right.
Qed.

(** The canonical answer to a question of a quiz with distinct identifiers
    passes the test. *)
Lemma canonical_answer_correct (questions : list QuizQuestion) (q : QuizQuestion) :
  NoDup (map qq_id questions) -> In q questions ->
  is_correct questions (canonical_answer q) = true.
Proof.
  intros Hnd Hq. apply GradingFacts.is_correct_spec.
  apply GradingFacts.graded_correct_distinct_ids; [exact Hnd|].
  exists q. repeat split; [exact Hq|].
  unfold answer_matches. apply PyStrFacts.contains_spec.
  apply NormalFacts.contains_refl.
Qed.

Lemma nonempty_length {A : Type} (l : list A) :
  l <> [] -> 0 < Z.of_nat (List.length l).
Proof. destruct l; [easy | simpl List.length; lia]. Qed.

End SubmissionFacts.

(* ================================================================== *)
(** * Further properties: quizzes *)

Module QuizFacts.

Lemma questions_of_types (question_type : string) (uuid4 : nat -> string)
    (items : list json) :
  forall (i : nat) (questions : list QuizQuestion),
    questions_of question_type uuid4 i items = inl questions ->
    Forall (fun q => qq_question_type q = question_type) questions.
Proof.
  induction items as [|item items IH]; intros i questions; simpl.
  - intros [= <-]. constructor.
  - destruct (question_of question_type (uuid4 i) item) as [x|] eqn:Hx;
      [|discriminate].
    destruct (questions_of question_type uuid4 (S i) items) as [xs|] eqn:Hxs;
      [|discriminate].
    intros [= <-]. constructor; [|exact (IH (S i) xs Hxs)].
    unfold question_of in Hx.
    destruct (getitem item "question"); [|discriminate].
    destruct (get item "options"); [|discriminate].
    destruct (getitem item "answer"); [|discriminate].
    destruct (getitem item "explanation"); [|discriminate].
    destruct (as_str _); [|discriminate].
    destruct (as_options _); [|discriminate].
    destruct (as_str _); [|discriminate].
    destruct (as_str _); [|discriminate].
    now injection Hx as <-.
Qed.

(** The lookup of [submit_quiz] fails when every quiz under the identifier
    belongs to somebody else. *)
Lemma foreign_quiz_not_found (w : world) (qid : string) (u : User) :
  (forall q, In q (quizzes w) -> quiz_id q = qid -> quiz_user_id q <> user_id u) ->
  find_one (owned_quiz qid u) (quizzes w) = None.
Proof.
  intros H. unfold find_one.
  destruct (find _ (quizzes w)) as [q|] eqn:E; [|reflexivity].
  apply find_some in E as [Hq E]. unfold owned_quiz in E.
  apply andb_true_iff in E as [E1 E2].
  apply String.eqb_eq in E1, E2. now elim (H q Hq E1).
Qed.

End QuizFacts.

(** X13.  When [generate_quiz] succeeds, the quiz has one question per
    entry that the parsed reply lists under "questions" -- as many as the
    model returned, possibly none --, every question carries the requested
    question type, the questions carry the identifiers drawn for them in
    order, the time limit is 15 when the question type is exactly "mcq" and
    30 otherwise, and the quiz belongs to the caller and the material and is
    the last quiz of the store. *)
Theorem generate_quiz_shape (str_title : string -> string)
    (message_of : ReadError -> string) (w w' : world)
    (uuid4 : nat -> string) (now : Z) (reply : LlmJsonReply)
    (material_id quiz_type question_type : string) (u : User) (quiz : Quiz) :
  generate_quiz str_title message_of w uuid4 now reply material_id quiz_type question_type u
  = (w', Ok quiz) ->
  exists material data listed items,
    find_one (owned_material material_id u) (study_materials w) = Some material /\
    reply = JsonParsed data /\
    getitem data "questions" = Some listed /\ iterate listed = Some items /\
    List.length (quiz_questions quiz) = List.length items /\
    Forall (fun q => qq_question_type q = question_type) (quiz_questions quiz) /\
    map qq_id (quiz_questions quiz) = map uuid4 (seq 0 (List.length items)) /\
    quiz_time_limit quiz = (if String.eqb question_type "mcq" then 15 else 30) /\
    quiz_user_id quiz = user_id u /\ quiz_material_id quiz = material_id /\
    quiz_title quiz
    = (sm_title material ++ " - " ++ str_title quiz_type ++ " Quiz")%string /\
    quizzes w' = quizzes w ++ [quiz].
Proof.
  unfold generate_quiz.
  destruct (find_one _ _) as [material|] eqn:Hm; [|intros H; discriminate H].
  unfold generate_quiz_with_ai.
  destruct reply as [msg|response|data]; try (intros H; discriminate H).
  destruct (getitem data "questions") as [listed|] eqn:Hl;
    [|intros H; discriminate H].
  destruct (iterate listed) as [items|] eqn:Hi; [|intros H; discriminate H].
  destruct (questions_of question_type uuid4 0 items) as [questions|] eqn:Hq;
    [|intros H; discriminate H].
  intros [= <- <-]. exists material, data, listed, items.
  pose proof (GradingFacts.questions_of_ids question_type uuid4 items 0 questions Hq)
    as Hids.
  repeat split; try assumption; try reflexivity.
  - cbn [quiz_questions]. rewrite <- (length_map qq_id), Hids, length_map.
    apply length_seq.
  - exact (QuizFacts.questions_of_types question_type uuid4 items 0 questions Hq).
Qed.

(** X14.  A reply whose "questions" array is empty is accepted:
    [generate_quiz] stores and returns a quiz without questions, and --
    when the identifier drawn for it is not in use -- every later submission
    to that quiz by its owner raises [ZeroDivisionError] and stores
    nothing. *)
Theorem empty_quiz_cannot_be_scored (str_title : string -> string)
    (message_of : ReadError -> string) (w : world)
    (uuid4 : nat -> string) (now : Z) (data : json)
    (material_id quiz_type question_type : string) (u : User)
    (material : StudyMaterial) (r : QuizResponse) :
  find_one (owned_material material_id u) (study_materials w) = Some material ->
  getitem data "questions" = Some (JArray []) ->
  (forall q, In q (quizzes w) -> quiz_id q <> uuid4 0%nat) ->
  exists w' quiz,
    generate_quiz str_title message_of w uuid4 now (JsonParsed data) material_id quiz_type
      question_type u = (w', Ok quiz) /\
    quiz_questions quiz = [] /\
    submit_quiz w' (quiz_id quiz) r u = (w', Raise ZeroDivisionError).
Proof.
  intros Hm Hq Hfresh. unfold generate_quiz, generate_quiz_with_ai.
  rewrite Hm, Hq. cbn [iterate questions_of List.length].
  eexists. eexists. split; [reflexivity|]. split; [reflexivity|].
  cbn [quiz_id]. unfold submit_quiz.
  cbn [quizzes insert_quiz log_llm].
  rewrite (AuthFacts.find_one_app_fresh (owned_quiz (uuid4 0%nat) u) (quizzes w) _).
  - reflexivity.
  - unfold owned_quiz. cbn [quiz_id quiz_user_id]. now rewrite !String.eqb_refl.
  - intros x Hx. unfold owned_quiz. apply andb_false_iff. left.
    apply String.eqb_neq. now apply Hfresh.
Qed.

(** X15.  [generate_quiz] fails with an HTTP error only: 404 when the
    caller has no such material, in which case the world is untouched, and
    otherwise 500 "Error generating quiz: ...", whatever went wrong with the
    reply of the model; and a failed call stores no quiz. *)
Theorem generate_quiz_failure (str_title : string -> string)
    (message_of : ReadError -> string) (w w' : world)
    (uuid4 : nat -> string) (now : Z) (reply : LlmJsonReply)
    (material_id quiz_type question_type : string) (u : User) (e : exn) :
  generate_quiz str_title message_of w uuid4 now reply material_id quiz_type question_type u
  = (w', Raise e) ->
  quizzes w' = quizzes w /\
  ((e = HTTPException 404 "Material not found" /\ w' = w) \/
   exists detail, e = HTTPException 500 ("Error generating quiz: " ++ detail)).
Proof.
  unfold generate_quiz.
  destruct (find_one _ _) as [material|].
  - unfold generate_quiz_with_ai, quiz_error.
    destruct reply as [msg|response|data].
    + intros [= <- <-]. split; [reflexivity|]. right. now eexists.
    + intros [= <- <-]. split; [reflexivity|]. right. now eexists.
    + destruct (getitem data "questions") as [listed|].
      * destruct (iterate listed) as [items|].
        -- destruct (questions_of question_type uuid4 0 items) as [questions|].
           ++ intros H. discriminate H.
           ++ intros [= <- <-]. split; [reflexivity|]. right. now eexists.
        -- intros [= <- <-]. split; [reflexivity|]. right. now eexists.
      * intros [= <- <-]. split; [reflexivity|]. right. now eexists.
  - intros [= <- <-]. split; [reflexivity|]. now left.
Qed.

(** The detail of the 500 is the text of the exception: a reply without
    the key "questions", and a reply that lists a number under it. *)
Example generate_quiz_details (str_title : string -> string)
    (message_of : ReadError -> string) :
  snd (generate_quiz str_title message_of Sample.with_notes Sample.ids 50
         (JsonParsed (JObject [])) "m-1" "test" "mcq" Sample.alice)
  = Raise (HTTPException 500 "Error generating quiz: 'questions'") /\
  snd (generate_quiz str_title message_of Sample.with_notes Sample.ids 50
         (JsonParsed (JObject [("questions", JNumber 3)])) "m-1" "test" "mcq"
         Sample.alice)
  = Raise (HTTPException 500 "Error generating quiz: 'int' object is not iterable").
Proof. split; reflexivity. Qed.

(** X16.  [submit_quiz] on an identifier under which the caller owns no
    quiz -- no quiz is stored under it, or those that are belong to others --
    raises 404 "Quiz not found" and leaves the world untouched: nobody can
    submit to, or learn the score of, the quiz of another user. *)
Theorem submit_quiz_isolation (w : world) (qid : string) (r : QuizResponse)
    (u : User) :
  (forall q, In q (quizzes w) -> quiz_id q = qid -> quiz_user_id q <> user_id u) ->
  submit_quiz w qid r u = (w, Raise (HTTPException 404 "Quiz not found")).
Proof.
  intros H. unfold submit_quiz.
  now rewrite (QuizFacts.foreign_quiz_not_found w qid u H).
Qed.

(** X17.  On a quiz with at least one question, a submission none of whose
    pairs names a question of the quiz -- the empty submission among them --
    is scored 0 with no correct answer, and the response is stored with
    score 0. *)
Theorem unmatched_submission_scores_0 (w : world) (qid : string) (r : QuizResponse)
    (u : User) (quiz : Quiz) :
  find_one (owned_quiz qid u) (quizzes w) = Some quiz ->
  quiz_questions quiz <> [] ->
  (forall ua q, In ua (qr_user_answers r) -> In q (quiz_questions quiz) ->
                qq_id q <> question_id ua) ->
  submit_quiz w qid r u
  = (insert_quiz_response w (set_score r 0),
     Ok {| score := 0; correct_answers := 0;
           total_questions := Z.of_nat (List.length (quiz_questions quiz)) |}).
Proof.
  intros Hfind Hne Hno.
  rewrite (GradingFacts.submit_quiz_found w qid r u quiz Hfind).
  rewrite GradingFacts.count_correct_filter.
  rewrite (SubmissionFacts.filter_none (is_correct (quiz_questions quiz))
             (qr_user_answers r)).
  - cbn [List.length Z.of_nat].
    now rewrite (Binary64Facts.percent_zero _ (SubmissionFacts.nonempty_length _ Hne)).
  - intros ua Hua. apply GradingFacts.is_correct_unmatched.
    intros q Hq. now apply Hno.
Qed.

(** X18.  On a quiz with at least one question and pairwise distinct
    question identifiers, the submission that answers every question once
    with its canonical answer is scored 100, whatever the number of
    questions. *)
Theorem canonical_submission_scores_100 (w : world) (qid : string)
    (r : QuizResponse) (u : User) (quiz : Quiz) :
  find_one (owned_quiz qid u) (quizzes w) = Some quiz ->
  quiz_questions quiz <> [] ->
  NoDup (map qq_id (quiz_questions quiz)) ->
  qr_user_answers r = map canonical_answer (quiz_questions quiz) ->
  submit_quiz w qid r u
  = (insert_quiz_response w (set_score r 100),
     Ok {| score := 100;
           correct_answers := Z.of_nat (List.length (quiz_questions quiz));
           total_questions := Z.of_nat (List.length (quiz_questions quiz)) |}).
Proof.
  intros Hfind Hne Hnd Hr.
  rewrite (GradingFacts.submit_quiz_found w qid r u quiz Hfind).
  rewrite GradingFacts.count_correct_filter, Hr.
  rewrite (SubmissionFacts.filter_all (is_correct (quiz_questions quiz))).
  - rewrite length_map.
    pose proof (SubmissionFacts.nonempty_length _ Hne) as Hn.
    pose proof (ExactFacts.percent_multiple
                  (Z.of_nat (List.length (quiz_questions quiz))) 1 Hn
                  ltac:(lia) ltac:(reflexivity)) as Hp.
    rewrite Z.mul_1_l in Hp. rewrite Hp. reflexivity.
  - intros ua Hua. apply in_map_iff in Hua as (q & <- & Hq).
    now apply SubmissionFacts.canonical_answer_correct.
Qed.

(** X20.  On a quiz of one to twelve questions -- ten is what the prompt
    asks the model for -- and a submission that names no question twice, the
    score is floor(100 * correct / total), exactly. *)
Theorem small_quiz_score_is_floor (w : world) (qid : string) (r : QuizResponse)
    (u : User) (quiz : Quiz) :
  find_one (owned_quiz qid u) (quizzes w) = Some quiz ->
  quiz_questions quiz <> [] ->
  (List.length (quiz_questions quiz) <= 12)%nat ->
  NoDup (map question_id (qr_user_answers r)) ->
  exists summary,
    snd (submit_quiz w qid r u) = Ok summary /\
    score summary = 100 * correct_answers summary / total_questions summary.
Proof.
  intros Hfind Hne Hlen Hnd.
  rewrite (GradingFacts.submit_quiz_found w qid r u quiz Hfind).
  pose proof (GradingFacts.count_correct_bounds (quiz_questions quiz)
                (qr_user_answers r)) as [H0 _].
  pose proof (GradingFacts.count_correct_le_questions (quiz_questions quiz)
                (qr_user_answers r) Hnd) as Hle.
  pose proof (SubmissionFacts.nonempty_length _ Hne) as Hn.
  rewrite (ExactFacts.percent_small _ _ (conj H0 Hle) ltac:(lia)).
  eexists. split; reflexivity.
Qed.


(** X22.  The grade of a pair does not change when the submitted answer is
    lowered and stripped beforehand: grading sees a submitted answer only up
    to its case and its surrounding white space. *)
Theorem grading_ignores_case_and_margins (questions : list QuizQuestion)
    (qid a : string) :
  is_correct questions
    {| question_id := qid; answer := PyStr.strip (PyStr.lower a) |}
  = is_correct questions {| question_id := qid; answer := a |}.
Proof.
  unfold is_correct. cbn [question_id answer].
  destruct (find_question questions qid); [|reflexivity].
  now rewrite NormalFacts.normal_idem.
Qed.

(** X23.  A successful [submit_quiz] changes nothing but the collection of
    responses, to which it appends the graded response; submitting the same
    response again is graded the same and appends a second response: there is
    no update of an earlier submission. *)
Theorem submit_quiz_appends (w w' : world) (qid : string) (r : QuizResponse)
    (u : User) (summary : ScoreSummary) :
  submit_quiz w qid r u = (w', Ok summary) ->
  w' = insert_quiz_response w (set_score r (score summary)) /\
  submit_quiz w' qid r u
  = (insert_quiz_response w' (set_score r (score summary)), Ok summary).
Proof.
  unfold submit_quiz.
  destruct (find_one (owned_quiz qid u) (quizzes w)) as [quiz|] eqn:Hfind;
    [|intros H; discriminate H].
  destruct (Binary64.percent _ _) as [s|e] eqn:Hs; [|intros H; discriminate H].
  intros [= <- <-]. cbn [score]. split; [reflexivity|].
  cbn [quizzes insert_quiz_response]. rewrite Hfind, Hs. reflexivity.
Qed.

(* ================================================================== *)
(** * Further properties: flashcards, the chat and the calls to the model *)

Module CardFacts.

Lemma flashcards_of_owner (material_id : string) (u : User) (now : Z)
    (uuid4 : nat -> string) (data : list FlashcardData) :
  forall (i : nat) (cards : list Flashcard),
    flashcards_of material_id u now uuid4 i data = Some cards ->
    Forall (fun c => fc_material_id c = material_id /\ fc_user_id c = user_id u)
           cards.
Proof.
  induction data as [|d data IH]; intros i cards; simpl.
  - intros [= <-]. constructor.
  - destruct (flashcard_of material_id u now (uuid4 i) d) as [c|] eqn:Hc;
      [|discriminate].
    destruct (flashcards_of material_id u now uuid4 (S i) data) as [cs|] eqn:Hcs;
      [|discriminate].
    intros [= <-]. constructor; [|exact (IH (S i) cs Hcs)].
    unfold flashcard_of in Hc.
    destruct (as_str (fd_question d)); [|discriminate].
    destruct (as_str (fd_answer d)); [|discriminate].
    destruct (as_str (fd_explanation d)); [|discriminate].
    injection Hc as <-. now split.
Qed.

(** What a successful [generate_flashcards] stores. *)
Lemma generate_flashcards_stored (message_of : ReadError -> string)
    (w w' : world) (uuid4 : nat -> string) (now : Z)
    (reply : LlmJsonReply) (material_id : string) (u : User)
    (cards : list Flashcard) :
  generate_flashcards message_of w uuid4 now reply material_id u = (w', Ok cards) ->
  flashcards w' = flashcards w ++ cards /\
  Forall (fun c => fc_material_id c = material_id /\ fc_user_id c = user_id u)
         cards.
Proof.
  unfold generate_flashcards.
  destruct (find_one _ _) as [material|]; [|intros H; discriminate H].
  destruct (generate_flashcards_with_ai message_of w (sm_extracted_text material) reply)
    as [w1 [data|e]] eqn:Hai; [|intros H; discriminate H].
  assert (Hw1 : flashcards w1 = flashcards w).
  { revert Hai. unfold generate_flashcards_with_ai.
    destruct reply as [msg|response|parsed]; try (intros H; discriminate H).
    destruct (getitem parsed "flashcards") as [j|]; [|intros H; discriminate H].
    destruct (iterate j) as [items|]; [|intros H; discriminate H].
    destruct (flashcards_data_of items); [|intros H; discriminate H].
    now intros [= <- _]. }
  destruct (flashcards_of material_id u now uuid4 0 data) as [cs|] eqn:Hcs;
    [|intros H; discriminate H].
  destruct cs as [|c cs]; cbn [insert_many]; [intros H; discriminate H|].
  intros [= <- <-]. cbn [flashcards insert_flashcards]. rewrite Hw1.
  split; [reflexivity|].
  exact (flashcards_of_owner material_id u now uuid4 data 0 _ Hcs).
Qed.

End CardFacts.

(** X24.  A failed [generate_flashcards] stores no flashcard.  It fails
    with 404 when the caller has no such material, the world being left
    untouched, with 500 "Error generating flashcards: ..." when the model or
    the reading of its reply fails, and otherwise with an exception that is
    no HTTP error: a validation error of a card, or the [TypeError] of
    [insert_many]. *)
Theorem generate_flashcards_failure (message_of : ReadError -> string)
    (w w' : world) (uuid4 : nat -> string)
    (now : Z) (reply : LlmJsonReply) (material_id : string) (u : User) (e : exn) :
  generate_flashcards message_of w uuid4 now reply material_id u = (w', Raise e) ->
  flashcards w' = flashcards w /\
  ((e = HTTPException 404 "Material not found" /\ w' = w) \/
   (exists detail,
      e = HTTPException 500 ("Error generating flashcards: " ++ detail)) \/
   e = ValueError \/ e = TypeError).
Proof.
  unfold generate_flashcards.
  destruct (find_one _ _) as [material|].
  - destruct (generate_flashcards_with_ai message_of w (sm_extracted_text material) reply)
      as [w1 r] eqn:Hai.
    assert (Hw1 : flashcards w1 = flashcards w /\
                  forall e', r = Raise e' ->
                    exists detail,
                      e' = HTTPException 500
                             ("Error generating flashcards: " ++ detail)).
    { revert Hai. unfold generate_flashcards_with_ai, flashcards_error.
      destruct reply as [msg|response|parsed].
      - intros [= <- <-]. split; [reflexivity|]. intros e' [= <-]. now eexists.
      - intros [= <- <-]. split; [reflexivity|]. intros e' [= <-]. now eexists.
      - destruct (getitem parsed "flashcards") as [j|].
        + destruct (iterate j) as [items|].
          * destruct (flashcards_data_of items).
            -- intros [= <- <-]. split; [reflexivity|]. intros e' H. discriminate H.
            -- intros [= <- <-]. split; [reflexivity|]. intros e' [= <-].
               now eexists.
          * intros [= <- <-]. split; [reflexivity|]. intros e' [= <-]. now eexists.
        + intros [= <- <-]. split; [reflexivity|]. intros e' [= <-]. now eexists. }
    destruct Hw1 as [Hw1 Herr]. destruct r as [data|e'].
    + destruct (flashcards_of material_id u now uuid4 0 data) as [cs|].
      * destruct cs as [|c cs]; cbn [insert_many]; [|intros H; discriminate H].
        intros [= <- <-]. split; [exact Hw1|]. right. right. now right.
      * intros [= <- <-]. split; [exact Hw1|]. right. right. now left.
    + intros [= <- <-]. split; [exact Hw1|]. right. left. exact (Herr e' eq_refl).
  - intros [= <- <-]. split; [reflexivity|]. now left.
Qed.

(** X25.  A reply that lists nothing under "flashcards" -- an empty array,
    say -- is not answered with an HTTP error of the handler:
    [generate_flashcards] calls the model, stores nothing and raises
    [TypeError], the refusal of [insert_many] to insert an empty list. *)
Theorem empty_flashcards_reply (message_of : ReadError -> string)
    (w : world) (uuid4 : nat -> string) (now : Z)
    (data listed : json) (material_id : string) (u : User)
    (material : StudyMaterial) :
  find_one (owned_material material_id u) (study_materials w) = Some material ->
  getitem data "flashcards" = Some listed ->
  iterate listed = Some [] ->
  generate_flashcards message_of w uuid4 now (JsonParsed data) material_id u
  = (log_llm w (FlashcardCall (take 8000 (sm_extracted_text material))),
     Raise TypeError).
Proof.
  intros Hm Hl Hi. unfold generate_flashcards, generate_flashcards_with_ai.
  rewrite Hm, Hl, Hi. reflexivity.
Qed.

(** X26.  After a successful [generate_flashcards], [get_flashcards] for
    the material and the caller returns the cards it returned before together
    with the new cards, each as often as before, in whatever order the store
    hands them out; for any other material or any other user it returns the
    cards it returned before. *)
Theorem generate_then_get_flashcards (message_of : ReadError -> string)
    (w w' : world) (uuid4 : nat -> string) (now : Z) (reply : LlmJsonReply)
    (material_id : string) (u : User) (cards : list Flashcard) :
  generate_flashcards message_of w uuid4 now reply material_id u = (w', Ok cards) ->
  Permutation (get_flashcards w' material_id u)
              (cards ++ get_flashcards w material_id u) /\
  (forall other v,
     other <> material_id \/ user_id v <> user_id u ->
     Permutation (get_flashcards w' other v) (get_flashcards w other v)).
Proof.
  intros H.
  destruct (CardFacts.generate_flashcards_stored message_of w w' uuid4 now reply
              material_id u cards H) as [Hst Hown].
  unfold get_flashcards. rewrite Hst, !filter_app. split.
  - rewrite (SubmissionFacts.filter_all _ cards); [apply Permutation_app_comm|].
    intros c Hc. destruct (proj1 (Forall_forall _ _) Hown c Hc) as [-> ->].
    now rewrite !String.eqb_refl.
  - intros other v Hother. rewrite filter_app.
    rewrite (SubmissionFacts.filter_none _ cards);
      [rewrite app_nil_r; apply Permutation_refl|].
    intros c Hc. destruct (proj1 (Forall_forall _ _) Hown c Hc) as [-> ->].
    apply andb_false_iff.
    destruct Hother as [Hne|Hne]; [left | right]; apply String.eqb_neq; congruence.
Qed.

(** X27.  What the model is sent.  A call to the model made by
    [generate_quiz], [generate_flashcards] or [ask_question] carries a text
    that is the beginning of the extracted text of a material the caller
    owns, cut after 8000 characters (6000 for the chat): no text of another
    user's material reaches the model through these handlers. *)
Theorem model_reads_own_material (str_title : string -> string)
    (message_of : ReadError -> string) (w : world)
    (u : User) (c : LlmCall) :
  (forall uuid4 now reply material_id quiz_type question_type,
     In c (llm_calls (fst (generate_quiz str_title message_of w uuid4 now reply material_id
                             quiz_type question_type u))) ->
     In c (llm_calls w) \/
     exists part, prompt_content c = Some part /\ own_excerpt w u 8000 part /\
                  Z.of_nat (String.length part) <= 8000) /\
  (forall uuid4 now reply material_id,
     In c (llm_calls (fst (generate_flashcards message_of w uuid4 now reply material_id u))) ->
     In c (llm_calls w) \/
     exists part, prompt_content c = Some part /\ own_excerpt w u 8000 part /\
                  Z.of_nat (String.length part) <= 8000) /\
  (forall reply material_id question,
     In c (llm_calls (fst (ask_question w reply material_id question u))) ->
     In c (llm_calls w) \/
     exists part, prompt_content c = Some part /\ own_excerpt w u 6000 part /\
                  Z.of_nat (String.length part) <= 6000).
Proof.
  assert (Hex : forall n material_id material,
            0 <= n ->
            find_one (owned_material material_id u) (study_materials w)
            = Some material ->
            own_excerpt w u n (take n (sm_extracted_text material)) /\
            Z.of_nat (String.length (take n (sm_extracted_text material))) <= n).
  { intros n material_id material Hn Hm.
    destruct (OwnershipFacts.found_material_is_owned w material_id u material Hm)
      as (Hin & _ & Hown).
    split; [now exists material | now apply NormalFacts.take_length]. }
  repeat apply conj.
  - intros uuid4 now reply material_id quiz_type question_type.
    unfold generate_quiz.
    destruct (find_one _ _) as [material|] eqn:Hm; [|now left].
    assert (Hlog : llm_calls
                     (fst (let (w1, r) :=
                             generate_quiz_with_ai message_of w (sm_extracted_text material)
                               quiz_type question_type uuid4 reply in
                           match r with
                           | Ok questions =>
                               (insert_quiz w1
                                  {| quiz_id := uuid4 (List.length questions);
                                     quiz_material_id := material_id;
                                     quiz_user_id := user_id u;
                                     quiz_title :=
                                       (sm_title material ++ " - " ++
                                        str_title quiz_type ++ " Quiz")%string;
                                     quiz_questions := questions;
                                     quiz_quiz_type := quiz_type;
                                     quiz_time_limit :=
                                       if String.eqb question_type "mcq"
                                       then 15 else 30;
                                     quiz_created_at := now |},
                                Ok {| quiz_id := uuid4 (List.length questions);
                                     quiz_material_id := material_id;
                                     quiz_user_id := user_id u;
                                     quiz_title :=
                                       (sm_title material ++ " - " ++
                                        str_title quiz_type ++ " Quiz")%string;
                                     quiz_questions := questions;
                                     quiz_quiz_type := quiz_type;
                                     quiz_time_limit :=
                                       if String.eqb question_type "mcq"
                                       then 15 else 30;
                                     quiz_created_at := now |})
                           | Raise e => (w1, Raise e)
                           end))
                   = llm_calls w ++ [QuizCall (take 8000 (sm_extracted_text material))
                                       quiz_type question_type]).
    { unfold generate_quiz_with_ai.
      destruct reply as [msg|response|parsed]; try reflexivity.
      destruct (getitem parsed "questions") as [j|]; [|reflexivity].
      destruct (iterate j) as [items|]; [|reflexivity].
      destruct (questions_of question_type uuid4 0 items); reflexivity. }
    rewrite Hlog. intros Hc.
    apply in_app_or in Hc as [Hc|[<-|[]]]; [now left | right].
    eexists. split; [reflexivity|]. exact (Hex 8000 material_id material ltac:(lia) Hm).
  - intros uuid4 now reply material_id. unfold generate_flashcards.
    destruct (find_one _ _) as [material|] eqn:Hm; [|now left].
    destruct (generate_flashcards_with_ai message_of w (sm_extracted_text material) reply)
      as [w1 r] eqn:Hai.
    assert (Hw1 : llm_calls w1
                  = llm_calls w ++ [FlashcardCall
                                      (take 8000 (sm_extracted_text material))]).
    { revert Hai. unfold generate_flashcards_with_ai.
      destruct reply as [msg|response|parsed]; try (now intros [= <- _]).
      destruct (getitem parsed "flashcards") as [j|]; [|now intros [= <- _]].
      destruct (iterate j) as [items|]; [|now intros [= <- _]].
      destruct (flashcards_data_of items); now intros [= <- _]. }
    assert (Hlog : llm_calls
                     (fst (match r with
                           | Ok flashcard_data =>
                               match flashcards_of material_id u now uuid4 0
                                       flashcard_data with
                               | Some cards =>
                                   match insert_many w1 cards with
                                   | Ok w2 => (w2, Ok cards)
                                   | Raise e => (w1, Raise e)
                                   end
                               | None => (w1, Raise ValueError)
                               end
                           | Raise e => (w1, Raise e)
                           end))
                   = llm_calls w1).
    { destruct r as [data|e]; [|reflexivity].
      destruct (flashcards_of material_id u now uuid4 0 data) as [cs|];
        [|reflexivity].
      destruct cs; reflexivity. }
    rewrite Hlog, Hw1. intros Hc.
    apply in_app_or in Hc as [Hc|[<-|[]]]; [now left | right].
    eexists. split; [reflexivity|]. exact (Hex 8000 material_id material ltac:(lia) Hm).
  - intros reply material_id question. unfold ask_question.
    destruct (find_one _ _) as [material|] eqn:Hm; [|now left].
    destruct reply as [msg|response]; cbn [fst llm_calls log_llm]; intros Hc;
      (apply in_app_or in Hc as [Hc|[<-|[]]]; [now left | right]);
      (eexists; split; [reflexivity|];
       exact (Hex 6000 material_id material ltac:(lia) Hm)).
Qed.

(* ================================================================== *)
(** * Further properties: what a run of the server keeps *)

Module RunFacts.






End RunFacts.


(* ================================================================== *)
(** * The further properties at concrete inputs *)

Lemma issued_token_lifetime_witness :
  (exists user,
     get_current_user Sample.key Sample.tag Sample.bob_only 1799
       (create_access_token Sample.key Sample.tag 0
          {| sub := Some "u-bob"; exp := None |}
          (Some (minutes ACCESS_TOKEN_EXPIRE_MINUTES)))
     = Ok user /\ user_id user = "u-bob")
  <-> 1799 < 0 + 1800.
Proof.
  apply (issued_token_lifetime Sample.key Sample.tag Sample.bob_only "u-bob" 0 1799).
  exists Sample.bob_doc. split; [left; reflexivity | reflexivity].
Defined.

Lemma fresh_token_decodes_witness :
  exists e,
    jwt_decode Sample.tag 100
      (create_access_token Sample.key Sample.tag 100
         {| sub := Some "u-bob"; exp := None |} (Some 600)) Sample.key
    = inl {| sub := Some "u-bob"; exp := Some e |} /\
    100 < e <= datetime_max /\
    (Some 600 = None \/ Some 600 = Some 0 -> e = 100 + 900) /\
    (forall d, Some 600 = Some d -> d <> 0 -> e = 100 + d).
Proof.
  apply (fresh_token_decodes Sample.key Sample.tag 100
           {| sub := Some "u-bob"; exp := None |} (Some 600)).
  - intros d [= <-]. split; [lia | vm_compute; discriminate].
  - intros [H|H]; discriminate H.
Defined.

Lemma register_then_wrong_password_witness :
  login Sample.key Sample.digest Sample.tag
    (fst (register Sample.key Sample.digest Sample.tag Sample.bob_only "u-alice"
            "s1" 0 Sample.alice_create)) 60
    {| ul_email := "alice@example.com"; ul_password := "wrong" |}
  = Raise (HTTPException 401 "Incorrect email or password").
Proof.
  apply (register_then_wrong_password Sample.key Sample.digest Sample.tag
           Sample.bob_only "u-alice" "s1" 0 60 Sample.alice_create "wrong").
  - intros d [<-|[]]. discriminate.
  - discriminate.
Defined.

Lemma register_keeps_emails_unique_witness :
  let first :=
    fst (register Sample.key Sample.digest Sample.tag Sample.bob_only "u-alice"
           "s1" 0 Sample.alice_create) in
  NoDup (map ud_email (users first)) /\
  ~ NoDup (map ud_email
             (users (fst (register_insert Sample.key Sample.digest Sample.tag first
                            "u-alice" "s1" 0 Sample.alice_create)))).
Proof.
  intros first.
  destruct (register_keeps_emails_unique Sample.key Sample.digest Sample.tag
              Sample.bob_only first "u-alice" "s1" 0 Sample.alice_create)
    as (_ & H1 & H2).
  - simpl. repeat constructor. intros [].
  - simpl. repeat constructor; simpl; intuition discriminate.
  - reflexivity.
  - split; [exact H1|]. intros H.
    apply (proj1 H2 H
             {| ud_id := "u-alice"; ud_email := "alice@example.com";
                ud_full_name := "Alice"; ud_created_at := 0;
                ud_hashed_password :=
                  get_password_hash Sample.digest "s1" "correct horse" |}).
    + right. left. reflexivity.
    + reflexivity.
Defined.

Lemma file_extension_after_last_dot_witness :
  file_extension_of "PDF" = "pdf" /\ file_extension_of "report.v2.PDF" = "pdf".
Proof.
  destruct (file_extension_after_last_dot "PDF" eq_refl) as [H1 H2].
  split; [exact H1 | exact (H2 "report.v2")].
Defined.

Lemma upload_then_get_material_witness :
  exists w',
    upload_material empty_world "f-1" "m-1" 7 (LlmText "Some notes.") "Notes"
      "notes.TXT" "raw bytes" Sample.alice
    = (w', Ok ("Material uploaded successfully", "m-1")) /\
    In (stored_path "f-1" "notes.TXT", "raw bytes") (uploads w') /\
    get_material w' "m-1" Sample.alice
    = Ok {| sm_id := "m-1"; sm_user_id := user_id Sample.alice; sm_title := "Notes";
            sm_file_type := file_extension_of "notes.TXT";
            sm_extracted_text := "Some notes."; sm_uploaded_at := 7 |}.
Proof.
  apply (upload_then_get_material empty_world "f-1" "m-1" 7 "Some notes." "Notes"
           "notes.TXT" "raw bytes" Sample.alice).
  - vm_compute. do 6 right. left. reflexivity.
  - intros m [].
Defined.

Lemma upload_extraction_failure_witness :
  exists w',
    upload_material empty_world "f-1" "m-1" 7 (LlmRaises "quota") "Notes"
      "scan.png" "raw bytes" Sample.alice
    = (w', Raise (HTTPException 500 ("Error extracting text: " ++ "quota"))) /\
    study_materials w' = study_materials empty_world /\
    In (stored_path "f-1" "scan.png", "raw bytes") (uploads w') /\
    llm_calls w'
    = llm_calls empty_world
      ++ [ExtractCall (stored_path "f-1" "scan.png")
            (get_mime_type (file_extension_of "scan.png"))].
Proof.
  apply (upload_extraction_failure empty_world "f-1" "m-1" 7 "quota" "Notes"
           "scan.png" "raw bytes" Sample.alice).
  vm_compute. do 5 right. left. reflexivity.
Defined.

Lemma get_materials_unaffected_by_others_witness :
  get_materials
    (fst (upload_material Sample.with_notes "f-2" "m-2" 9 (LlmText "Other notes.")
            "Mine" "mine.txt" "raw bytes" Sample.bob)) Sample.alice
  = get_materials Sample.with_notes Sample.alice.
Proof.
  apply (get_materials_unaffected_by_others Sample.with_notes "f-2" "m-2" 9
           (LlmText "Other notes.") "Mine" "mine.txt" "raw bytes" Sample.alice
           Sample.bob).
  discriminate.
Defined.

Lemma generate_quiz_shape_witness :
  exists items : list json,
    List.length (quiz_questions Cases.quiz1) = List.length items /\
    Forall (fun q => qq_question_type q = "short_answer")
           (quiz_questions Cases.quiz1) /\
    quiz_time_limit Cases.quiz1 = 30.
Proof.
  destruct (generate_quiz_shape Sample.title Sample.wording Sample.with_notes
              (insert_quiz Cases.quiz_asked Cases.quiz1) Sample.ids 50
              (JsonParsed Cases.one_question) "m-1" "test" "short_answer"
              Sample.alice Cases.quiz1 eq_refl)
    as (material & data & listed & items & _ & _ & _ & _ & H1 & H2 & _ & H3 & _).
  exists items. repeat split; assumption.
Defined.

Lemma empty_quiz_cannot_be_scored_witness :
  exists w' quiz,
    generate_quiz Sample.title Sample.wording Sample.with_notes Sample.ids 50
      (JsonParsed Cases.no_questions) "m-1" "test" "mcq" Sample.alice
    = (w', Ok quiz) /\
    quiz_questions quiz = [] /\
    submit_quiz w' (quiz_id quiz) (Sample.response "0" [Sample.four]) Sample.alice
    = (w', Raise ZeroDivisionError).
Proof.
  apply (empty_quiz_cannot_be_scored Sample.title Sample.wording Sample.with_notes Sample.ids 50
           Cases.no_questions "m-1" "test" "mcq" Sample.alice Sample.notes
           (Sample.response "0" [Sample.four])).
  - reflexivity.
  - reflexivity.
  - intros q [].
Defined.

Lemma generate_quiz_failure_witness :
  quizzes Cases.quiz_asked = quizzes Sample.with_notes /\
  ((HTTPException 500 "Error generating quiz: timeout"
    = HTTPException 404 "Material not found" /\
    Cases.quiz_asked = Sample.with_notes) \/
   exists detail,
     HTTPException 500 "Error generating quiz: timeout"
     = HTTPException 500 ("Error generating quiz: " ++ detail)).
Proof.
  apply (generate_quiz_failure Sample.title Sample.wording Sample.with_notes Cases.quiz_asked
           Sample.ids 50 (JsonRaises "timeout") "m-1" "test" "short_answer"
           Sample.alice).
  reflexivity.
Defined.

Lemma submit_quiz_isolation_witness :
  submit_quiz Cases.with_quiz3 "quiz-3" (Sample.response "quiz-3" Sample.capitals)
    Sample.bob
  = (Cases.with_quiz3, Raise (HTTPException 404 "Quiz not found")).
Proof.
  apply (submit_quiz_isolation Cases.with_quiz3 "quiz-3"
           (Sample.response "quiz-3" Sample.capitals) Sample.bob).
  intros q [<-|[]] _. discriminate.
Defined.

Lemma unmatched_submission_scores_0_witness :
  submit_quiz Cases.with_quiz3 "quiz-3" (Sample.response "quiz-3" [Cases.q9])
    Sample.alice
  = (insert_quiz_response Cases.with_quiz3
       (set_score (Sample.response "quiz-3" [Cases.q9]) 0),
     Ok {| score := 0; correct_answers := 0;
           total_questions :=
             Z.of_nat (List.length (quiz_questions Cases.quiz3)) |}).
Proof.
  apply (unmatched_submission_scores_0 Cases.with_quiz3 "quiz-3"
           (Sample.response "quiz-3" [Cases.q9]) Sample.alice Cases.quiz3).
  - reflexivity.
  - discriminate.
  - intros ua q [<-|[]] [<-|[<-|[<-|[]]]]; discriminate.
Defined.

Lemma canonical_submission_scores_100_witness :
  let r := Sample.response "quiz-3" (map canonical_answer Sample.two_of_three) in
  submit_quiz Cases.with_quiz3 "quiz-3" r Sample.alice
  = (insert_quiz_response Cases.with_quiz3 (set_score r 100),
     Ok {| score := 100;
           correct_answers := Z.of_nat (List.length (quiz_questions Cases.quiz3));
           total_questions := Z.of_nat (List.length (quiz_questions Cases.quiz3)) |}).
Proof.
  intros r.
  apply (canonical_submission_scores_100 Cases.with_quiz3 "quiz-3" r Sample.alice
           Cases.quiz3).
  - reflexivity.
  - discriminate.
  - simpl. repeat constructor; simpl; intuition discriminate.
  - reflexivity.
Defined.

Lemma submit_quiz_score_near_floor_witness :
  let r := Sample.response "quiz-3" Sample.capitals in
  exists summary,
    snd (submit_quiz Cases.with_quiz3 "quiz-3" r Sample.alice) = Ok summary /\
    100 * correct_answers summary / total_questions summary - 1
      <= score summary
      <= 100 * correct_answers summary / total_questions summary /\
    ((100 * correct_answers summary) mod total_questions summary <> 0 ->
     score summary = 100 * correct_answers summary / total_questions summary).
Proof.
  intros r.
  apply (submit_quiz_score_near_floor Cases.with_quiz3 "quiz-3" r Sample.alice
           Cases.quiz3).
  - reflexivity.
  - discriminate.
  - reflexivity.
  - reflexivity.
Defined.

Lemma small_quiz_score_is_floor_witness :
  let r := Sample.response "quiz-3" Sample.capitals in
  exists summary,
    snd (submit_quiz Cases.with_quiz3 "quiz-3" r Sample.alice) = Ok summary /\
    score summary = 100 * correct_answers summary / total_questions summary.
Proof.
  intros r.
  apply (small_quiz_score_is_floor Cases.with_quiz3 "quiz-3" r Sample.alice
           Cases.quiz3).
  - reflexivity.
  - discriminate.
  - simpl. lia.
  - simpl. repeat constructor; simpl; intuition discriminate.
Defined.


Lemma submit_quiz_appends_witness :
  let r := Sample.response "quiz-3" Sample.capitals in
  let summary := {| score := 66; correct_answers := 2; total_questions := 3 |} in
  insert_quiz_response Cases.with_quiz3 (set_score r 66)
  = insert_quiz_response Cases.with_quiz3 (set_score r (score summary)) /\
  submit_quiz (insert_quiz_response Cases.with_quiz3 (set_score r 66)) "quiz-3" r
    Sample.alice
  = (insert_quiz_response (insert_quiz_response Cases.with_quiz3 (set_score r 66))
       (set_score r (score summary)), Ok summary).
Proof.
  intros r summary.
  apply (submit_quiz_appends Cases.with_quiz3
           (insert_quiz_response Cases.with_quiz3 (set_score r 66)) "quiz-3" r
           Sample.alice summary).
  vm_compute. reflexivity.
Defined.

Lemma generate_flashcards_failure_witness :
  flashcards Cases.cards_asked = flashcards Sample.with_notes /\
  ((HTTPException 500 "Error generating flashcards: timeout"
    = HTTPException 404 "Material not found" /\
    Cases.cards_asked = Sample.with_notes) \/
   (exists detail,
      HTTPException 500 "Error generating flashcards: timeout"
      = HTTPException 500 ("Error generating flashcards: " ++ detail)) \/
   HTTPException 500 "Error generating flashcards: timeout" = ValueError \/
   HTTPException 500 "Error generating flashcards: timeout" = TypeError).
Proof.
  apply (generate_flashcards_failure Sample.wording Sample.with_notes Cases.cards_asked Sample.ids
           40 (JsonRaises "timeout") "m-1" Sample.alice).
  reflexivity.
Defined.

Lemma empty_flashcards_reply_witness :
  generate_flashcards Sample.wording Sample.with_notes Sample.ids 40 (JsonParsed Cases.no_cards)
    "m-1" Sample.alice
  = (log_llm Sample.with_notes
       (FlashcardCall (take 8000 (sm_extracted_text Sample.notes))),
     Raise TypeError).
Proof.
  apply (empty_flashcards_reply Sample.wording Sample.with_notes Sample.ids 40 Cases.no_cards
           (JArray []) "m-1" Sample.alice Sample.notes); reflexivity.
Defined.

Lemma generate_then_get_flashcards_witness :
  Permutation
    (get_flashcards (insert_flashcards Cases.cards_asked [Cases.card1]) "m-1"
       Sample.alice)
    ([Cases.card1] ++ get_flashcards Sample.with_notes "m-1" Sample.alice) /\
  Permutation
    (get_flashcards (insert_flashcards Cases.cards_asked [Cases.card1]) "m-1"
       Sample.bob)
    (get_flashcards Sample.with_notes "m-1" Sample.bob).
Proof.
  destruct (generate_then_get_flashcards Sample.wording Sample.with_notes
              (insert_flashcards Cases.cards_asked [Cases.card1]) Sample.ids 40
              (JsonParsed Sample.one_card) "m-1" Sample.alice [Cases.card1] eq_refl)
    as [H1 H2].
  split; [exact H1|]. apply H2. right. discriminate.
Defined.

